(** * Cluster coordination layer of the hospital appointment backend

    A shallow embedding of [database.js] (the SQLite store), of
    [distributedManager.js] (Bully election, Cristian clock sync,
    replication fan-out, status snapshot, heartbeat, shutdown), of the
    routes of [server.js] that nodes and clients call, and of the server
    rotation and the local election of the React client's
    [DistributedBackend], followed by the properties established about
    them.

    Modelling conventions.
    - JavaScript numbers are exact here: clock readings are integers
      ([Date.now()]), and every derived quantity is a sum, difference or
      half of such readings, far below 2^53; they are modelled in [Z] and,
      where a division by two occurs, in [Q].
    - SQL [NULL] / JavaScript [undefined] is [None].
    - An [async] function runs without interleaving between its [await]s,
      and a method of [database.js] without another statement between its
      own; an outbound HTTP call runs the addressed route of the peer, when
      the peer is reachable, before the caller resumes.  The two statements
      of [setLeader] are also modelled one by one ([DB.run_statements]),
      for calls that overlap.
    - A request gets its answer in time, or is handled by the peer without
      the answer making it back in time, or does not arrive at all.
    - A process opens the database file its working directory gives it:
      processes may share one file or have one each, and the model covers
      both.
    - [console.log] output is not modelled. *)

From Stdlib Require Import ZArith QArith Lia Lra List Bool String Sorted.
From stdpp Require Import base decidable option list gmap strings.

Import ListNotations.
Local Open Scope string_scope.
Local Open Scope Z_scope.

(** ** database.js *)

Module DB.

(** [slots (id, doctor_id, slot_time, is_available BOOLEAN DEFAULT 1)] *)
Record SlotRow := mkSlot {
  s_id : Z;
  s_doctor_id : Z;
  s_slot_time : string;
  s_is_available : Z
}.

(** [bookings (id, doctor_id, patient_name, slot_time,
    confirmation_id TEXT UNIQUE NOT NULL, booking_timestamp, server_id)] *)
Record BookingRow := mkBooking {
  b_id : Z;
  doctor_id : Z;
  patient_name : string;
  slot_time : string;
  confirmation_id : string;
  booking_timestamp : Z;
  server_id : Z
}.

(** [servers (id PRIMARY KEY, name, port, connections, is_leader,
    last_heartbeat, status)] *)
Record ServerRow := mkServer {
  id : Z;
  name : string;
  port : Z;
  connections : Z;
  is_leader : Z;
  last_heartbeat : Z;
  status : string
}.

(** One database file.  [bookings_seq] is the AUTOINCREMENT counter that
    SQLite keeps for [bookings] in [sqlite_sequence].  The [doctors]
    table is only read by the client-facing routes; its foreign keys are
    not enforced (SQLite leaves [PRAGMA foreign_keys] off and the code
    never turns it on). *)
Record Database := mkDatabase {
  slots : list SlotRow;
  bookings : list BookingRow;
  bookings_seq : Z;
  servers : list ServerRow
}.

(** What [init()] leaves in a fresh file: the tables exist and are empty. *)
Definition init : Database := mkDatabase [] [] 0 [].

Inductive SqlError :=
| SQLITE_CONSTRAINT_NOTNULL (column : string)
| SQLITE_CONSTRAINT_UNIQUE (column : string).

Definition with_slots (d : Database) (l : list SlotRow) : Database :=
  mkDatabase l (bookings d) (bookings_seq d) (servers d).

Definition with_servers (d : Database) (l : list ServerRow) : Database :=
  mkDatabase (slots d) (bookings d) (bookings_seq d) l.

(** [WHERE doctor_id = ? AND slot_time = ? AND is_available = 1]; a
    comparison with [NULL] selects no row. *)
Definition slot_matches (doctorId : option Z) (slotTime : option string)
    (r : SlotRow) : bool :=
  match doctorId, slotTime with
  | Some d, Some t =>
      (s_doctor_id r =? d) && String.eqb (s_slot_time r) t
        && (s_is_available r =? 1)
  | _, _ => false
  end.

(** [bookSlot(doctorId, slotTime)]: resolves [this.changes > 0]. *)
Definition bookSlot (d : Database) (doctorId : option Z)
    (slotTime : option string) : bool * Database :=
  let hit := slot_matches doctorId slotTime in
  let changes := Z.of_nat (List.length (List.filter hit (slots d))) in
  (0 <? changes,
   with_slots d
     (List.map (fun r => if hit r
                         then mkSlot (s_id r) (s_doctor_id r) (s_slot_time r) 0
                         else r)
               (slots d))).

Definition has_confirmation (c : string) (l : list BookingRow) : bool :=
  List.existsb (fun r => String.eqb (confirmation_id r) c) l.

Definition max_rowid (l : list BookingRow) : Z :=
  List.fold_right (fun r m => Z.max (b_id r) m) 0 l.

(** [createBooking(doctorId, patientName, slotTime, confirmationId,
    serverId)]; [now] is the [Date.now()] read at its first line.  The
    insert is refused when a [NOT NULL] column receives [NULL] or when
    [confirmation_id] is already present ([UNIQUE]); otherwise the row is
    appended under a fresh AUTOINCREMENT id and the promise resolves
    [{ id: this.lastID, timestamp }]. *)
Definition createBooking (d : Database) (doctorId : option Z)
    (patientName slotTime confirmationId : option string)
    (serverId : option Z) (now : Z)
    : (SqlError + (Z * Z)) * Database :=
  match doctorId, patientName, slotTime, confirmationId, serverId with
  | None, _, _, _, _ => (inl (SQLITE_CONSTRAINT_NOTNULL "bookings.doctor_id"), d)
  | _, None, _, _, _ => (inl (SQLITE_CONSTRAINT_NOTNULL "bookings.patient_name"), d)
  | _, _, None, _, _ => (inl (SQLITE_CONSTRAINT_NOTNULL "bookings.slot_time"), d)
  | _, _, _, None, _ => (inl (SQLITE_CONSTRAINT_NOTNULL "bookings.confirmation_id"), d)
  | _, _, _, _, None => (inl (SQLITE_CONSTRAINT_NOTNULL "bookings.server_id"), d)
  | Some di, Some pn, Some st, Some ci, Some si =>
      if has_confirmation ci (bookings d)
      then (inl (SQLITE_CONSTRAINT_UNIQUE "bookings.confirmation_id"), d)
      else
        let lastID := Z.max (bookings_seq d) (max_rowid (bookings d)) + 1 in
        (inr (lastID, now),
         mkDatabase (slots d)
           (bookings d ++ [mkBooking lastID di pn st ci now si])
           lastID (servers d))
  end.

(** [getAllServers()]: [SELECT * FROM servers]. *)
Definition getAllServers (d : Database) : list ServerRow := servers d.

Definition id_is (serverId : option Z) (r : ServerRow) : bool :=
  match serverId with
  | Some i => id r =? i
  | None => false
  end.

Definition changes_of (serverId : option Z) (d : Database) : Z :=
  Z.of_nat (List.length (List.filter (id_is serverId) (servers d))).

(** [updateServerStatus(serverId, connections, isLeader, status)]; the
    driver binds [true]/[false] as [1]/[0]. *)
Definition updateServerStatus (d : Database) (serverId : option Z)
    (conns : Z) (isLeader : bool) (st : string) (now : Z) : Z * Database :=
  (changes_of serverId d,
   with_servers d
     (List.map (fun r => if id_is serverId r
                         then mkServer (id r) (name r) (port r) conns
                                (if isLeader then 1 else 0) now st
                         else r)
               (servers d))).

(** [updateServerHeartbeat(serverId)] *)
Definition updateServerHeartbeat (d : Database) (serverId : option Z)
    (now : Z) : Z * Database :=
  (changes_of serverId d,
   with_servers d
     (List.map (fun r => if id_is serverId r
                         then mkServer (id r) (name r) (port r) (connections r)
                                (is_leader r) now (status r)
                         else r)
               (servers d))).

Definition set_is_leader (v : Z) (r : ServerRow) : ServerRow :=
  mkServer (id r) (name r) (port r) (connections r) v
    (last_heartbeat r) (status r).

(** [UPDATE servers SET is_leader = 0] *)
Definition clear_leaders (d : Database) : Database :=
  with_servers d (List.map (set_is_leader 0) (servers d)).

(** [UPDATE servers SET is_leader = 1 WHERE id = ?] *)
Definition mark_leader (d : Database) (serverId : option Z) : Database :=
  with_servers d
    (List.map (fun r => if id_is serverId r then set_is_leader 1 r else r)
              (servers d)).

(** [setLeader(serverId)] when no other statement reaches the file between
    its two: the second statement is issued from the callback of the first,
    and the promise resolves the second statement's [changes].  The two
    statements are not wrapped in a transaction; what becomes of calls that
    are in flight at the same time is told by [run_statements] below. *)
Definition setLeader (d : Database) (serverId : option Z) : Z * Database :=
  let d1 := clear_leaders d in
  (changes_of serverId d1, mark_leader d1 serverId).

(** The statements that [setLeader] hands to the driver. *)
Inductive Statement :=
| ClearLeaders                        (* UPDATE servers SET is_leader = 0 *)
| MarkLeader (serverId : option Z).   (* UPDATE servers SET is_leader = 1 WHERE id = ? *)

Definition run_statement (d : Database) (s : Statement) : Database :=
  match s with
  | ClearLeaders => clear_leaders d
  | MarkLeader serverId => mark_leader d serverId
  end.

(** The statements of one call, in the order in which it issues them. *)
Definition setLeader_statements (serverId : option Z) : list Statement :=
  [ClearLeaders; MarkLeader serverId].

(** Statements run in the order in which they reach the file. *)
Definition run_statements (l : list Statement) (d : Database) : Database :=
  List.fold_left run_statement l d.

(** The rows whose leader flag is raised. *)
Definition leader_rows (d : Database) : list ServerRow :=
  List.filter (fun r => negb (is_leader r =? 0)) (servers d).

Definition count_confirmation (c : string) (d : Database) : nat :=
  List.length
    (List.filter (fun r => String.eqb (confirmation_id r) c) (bookings d)).

(** [WHERE doctor_id = ? AND is_available = 1] *)
Definition slot_open (doctorId : option Z) (r : SlotRow) : bool :=
  match doctorId with
  | Some d => (s_doctor_id r =? d) && (s_is_available r =? 1)
  | None => false
  end.

(** [getAvailableSlots(doctorId)]: the rows come in table order. *)
Definition getAvailableSlots (d : Database) (doctorId : option Z) : list SlotRow :=
  List.filter (slot_open doctorId) (slots d).

(** [doctors (id PRIMARY KEY, name, specialization, experience, hospital)].
    Only [seed.js] writes this table; the methods that read it receive its
    rows next to the [Database]. *)
Record DoctorRow := mkDoctor {
  d_id : Z;
  d_name : string;
  d_specialization : string;
  d_experience : string;
  d_hospital : string
}.

(** [getAllDoctors()] and [getDoctorById(id)]; [db.get] resolves the first
    row, or [undefined]. *)
Definition getAllDoctors (doctors : list DoctorRow) : list DoctorRow := doctors.

Definition getDoctorById (doctors : list DoctorRow) (i : option Z)
    : option DoctorRow :=
  match i with
  | Some i => List.find (fun doc => d_id doc =? i) doctors
  | None => None
  end.

(** A row of [SELECT b.*, d.name as doctor_name, d.specialization]. *)
Record BookingView := mkView {
  v_booking : BookingRow;
  v_doctor_name : string;
  v_specialization : string
}.

(** [FROM bookings b JOIN doctors d ON b.doctor_id = d.id] *)
Definition join_doctors (doctors : list DoctorRow) (l : list BookingRow)
    : list BookingView :=
  List.flat_map
    (fun b =>
       List.map (fun doc => mkView b (d_name doc) (d_specialization doc))
         (List.filter (fun doc => doctor_id b =? d_id doc) doctors))
    l.

(** [ORDER BY b.booking_timestamp DESC].  SQLite promises no order among
    rows of equal timestamp; here they keep the order of the join. *)
Fixpoint insert_desc (v : BookingView) (l : list BookingView) : list BookingView :=
  match l with
  | [] => [v]
  | x :: rest =>
      if booking_timestamp (v_booking x) <=? booking_timestamp (v_booking v)
      then v :: l
      else x :: insert_desc v rest
  end.

Definition order_by_timestamp_desc (l : list BookingView) : list BookingView :=
  List.fold_right insert_desc [] l.

(** [getAllBookings()] *)
Definition getAllBookings (doctors : list DoctorRow) (d : Database)
    : list BookingView :=
  order_by_timestamp_desc (join_doctors doctors (bookings d)).

End DB.

(** ** Messages exchanged between nodes *)

(** An entry of [this.servers], the compiled-in membership list. *)
Module Srv.
Record t := mk { id : Z; name : string; port : Z }.
End Srv.

(** Body of [POST /api/replicate/booking]. *)
Module Ev.
Record BookingCreated := mk {
  doctorId : option Z;
  patientName : option string;
  slotTime : option string;
  confirmationId : option string;
  bookingTimestamp : option Z;
  serverId : option Z
}.
End Ev.

(** Result of [performClockSync]. *)
Module Sync.
Record t := mk {
  adjustedTime : Q;
  rtt : Q;
  serverTime : Q;
  clockOffset : Q
}.
End Sync.

(** One entry of [getServerStatus]. *)
Module Status.
Record t := mk {
  id : Z;
  name : string;
  port : Z;
  connections : Z;
  isLeader : bool;
  lastHeartbeat : Z;
  status : string;
  clockOffset : Q
}.
End Status.

(** [{ success, message }], the reply shape of the election, leader-update
    and replication routes. *)
Record Ack := mkAck { success : bool; message : string }.

(** [{ success: true, ...syncResult, server }]; [server] holds the id that
    the route interpolates into ["Server-<id>"]. *)
Record ClockSyncReply := mkClockSyncReply {
  cs_success : bool;
  cs_result : Sync.t;
  cs_server : Z
}.

Record Health := mkHealth {
  h_status : string;
  h_serverId : Z;
  h_port : Z;
  h_timestamp : Z
}.

(** The inter-node routes of [server.js], indexed by the type of the JSON
    they answer with on success.  A field of a body may be missing: the
    election message that [shutdown()] posts, for one, has no body. *)
Inductive Request : Type -> Type :=
| PostElection (candidateId timestamp : option Z) : Request Ack
| PostLeaderUpdate (newLeaderId timestamp : option Z) : Request Ack
| PostClockSync (clientTime : Q) : Request ClockSyncReply
| GetClockSync (clientTime : option Z) : Request ClockSyncReply
| PostReplicateBooking (body : Ev.BookingCreated) : Request Ack
| PostReplicateSlot (doctorId : option Z) (slotTime : option string) : Request Ack
| GetHealth : Request Health.

Inductive Response (A : Type) :=
| Json (data : A)                (* [res.json(data)], status 200 *)
| Status500 (error : string).    (* [res.status(500).json({ error })] *)
Arguments Json {A} data.
Arguments Status500 {A} error.

Inductive Route :=
| R_election | R_leader_update | R_clock_sync | R_replicate_booking
| R_replicate_slot | R_health.

Definition route_of {A} (r : Request A) : Route :=
  match r with
  | PostElection _ _ => R_election
  | PostLeaderUpdate _ _ => R_leader_update
  | PostClockSync _ | GetClockSync _ => R_clock_sync
  | PostReplicateBooking _ => R_replicate_booking
  | PostReplicateSlot _ _ => R_replicate_slot
  | GetHealth => R_health
  end.

(** ** Processes and the cluster *)

Record Manager := mkManager {
  serverId : Z;
  port : Z;
  servers : list Srv.t;
  isLeader : bool;
  connections : Z;
  clockOffset : Q;
  lastHeartbeat : Z
}.

(** The constructor of [DistributedManager]; [now] is its [Date.now()]. *)
Definition new_DistributedManager (serverId port now : Z) : Manager :=
  mkManager serverId port
    [Srv.mk 1 "Server-Mumbai" 5001;
     Srv.mk 2 "Server-Delhi" 5002;
     Srv.mk 3 "Server-Bangalore" 5003]
    false 0 0%Q now.

(** Work deferred with [setTimeout]. *)
Inductive TimerAction := PerformBullyElection.

Record Timer := mkTimer { delay : Z; action : TimerAction }.

(** One [server.js] process: [SERVER_ID] and [PORT] are the two arguments
    it hands to its manager; the module-level [db] and the manager's
    [this.db] are two connections to the same file, [dbPath]; [timers]
    are its pending [setTimeout]s, oldest first. *)
Record Node := mkNode {
  distManager : Manager;
  dbPath : string;
  timers : list Timer
}.

Definition SERVER_ID (n : Node) : Z := serverId (distManager n).

(** An outbound axios call as it leaves a node. *)
Record OutCall := mkOutCall {
  oc_from : Z;
  oc_port : Z;
  oc_route : Route;
  oc_timeout : Z
}.

(** The cluster: processes by the port they listen on, database files by
    path (processes started in one directory share [./hospital.db]),
    the number of clock reads so far, and the outbound calls so far. *)
Record World := mkWorld {
  nodes : gmap Z Node;
  files : gmap string DB.Database;
  tick : nat;
  sent : list OutCall
}.

Inductive Error :=
| ECONNREFUSED
| ECONNABORTED                    (* axios timeout *)
| ERR_BAD_RESPONSE (status : Z)   (* axios rejects a non-2xx answer *)
| SQLITE_ERROR (e : DB.SqlError)
| NoSuchProcess.

(** What becomes of a request sent to a port. *)
Inductive Link :=
| Up                  (* it arrives and the answer is back within the timeout *)
| Unanswered          (* it arrives and is handled; the caller times out first *)
| Down (e : Error).   (* it never arrives: the attempt fails with [e] *)

(** What the code cannot control: what each node's clock shows at each
    read, and what becomes of the requests sent to each port. *)
Record Env := mkEnv {
  clock : Z -> nat -> Z;
  link : Z -> Link
}.

(** ** State and exception monad *)

Inductive Result (A : Type) :=
| Ok (a : A)
| Throw (e : Error).
Arguments Ok {A} a.
Arguments Throw {A} e.

Definition M (A : Type) : Type := World -> Result A * World.

Definition ret {A} (a : A) : M A := fun w => (Ok a, w).

Definition bind {A B} (m : M A) (k : A -> M B) : M B :=
  fun w => match m w with
           | (Ok a, w') => k a w'
           | (Throw e, w') => (Throw e, w')
           end.

Definition throw {A} (e : Error) : M A := fun w => (Throw e, w).

(** [try { m } catch (error) { h error }] *)
Definition try_catch {A} (m : M A) (h : Error -> M A) : M A :=
  fun w => match m w with
           | (Ok a, w') => (Ok a, w')
           | (Throw e, w') => h e w'
           end.

Notation "x <- m ;; k" := (bind m (fun x => k))
  (at level 90, m at next level, right associativity).
Notation "m ;;; k" := (bind m (fun _ => k))
  (at level 90, right associativity).

(** [for (const x of l) { body x }] *)
Fixpoint for_of {A} (l : list A) (body : A -> M unit) : M unit :=
  match l with
  | [] => ret tt
  | x :: rest => body x ;;; for_of rest body
  end.

Definition set_nodes (w : World) (ns : gmap Z Node) : World :=
  mkWorld ns (files w) (tick w) (sent w).

Definition set_files (w : World) (fs : gmap string DB.Database) : World :=
  mkWorld (nodes w) fs (tick w) (sent w).

Definition set_tick (w : World) (k : nat) : World :=
  mkWorld (nodes w) (files w) k (sent w).

Definition set_sent (w : World) (l : list OutCall) : World :=
  mkWorld (nodes w) (files w) (tick w) l.

Definition set_manager (n : Node) (m : Manager) : Node :=
  mkNode m (dbPath n) (timers n).

Definition set_isLeader (m : Manager) (b : bool) : Manager :=
  mkManager (serverId m) (port m) (servers m) b (connections m)
    (clockOffset m) (lastHeartbeat m).

Definition set_clockOffset (m : Manager) (o : Q) : Manager :=
  mkManager (serverId m) (port m) (servers m) (isLeader m) (connections m)
    o (lastHeartbeat m).

Definition set_lastHeartbeat (m : Manager) (t : Z) : Manager :=
  mkManager (serverId m) (port m) (servers m) (isLeader m) (connections m)
    (clockOffset m) t.

(** The running process behind port [self]. *)
Definition get_node (self : Z) : M Node :=
  fun w => match nodes w !! self with
           | Some n => (Ok n, w)
           | None => (Throw NoSuchProcess, w)
           end.

Definition this (self : Z) : M Manager :=
  n <- get_node self ;; ret (distManager n).

Definition update_this (self : Z) (f : Manager -> Manager) : M unit :=
  n <- get_node self ;;
  fun w => (Ok tt, set_nodes w (<[self := set_manager n (f (distManager n))]> (nodes w))).

(** The database file a path names; a path opened for the first time
    holds what [init()] creates. *)
Definition open_file (w : World) (path : string) : DB.Database :=
  default DB.init (files w !! path).

(** A statement (or promise-wrapped method) of [database.js] run by the
    process at [self] on its file. *)
Definition db_run {A} (self : Z) (f : DB.Database -> A * DB.Database) : M A :=
  n <- get_node self ;;
  fun w => let r := f (open_file w (dbPath n)) in
           (Ok (fst r), set_files w (<[dbPath n := snd r]> (files w))).

(** The same for a method whose promise may reject. *)
Definition db_try {A} (self : Z)
    (f : DB.Database -> (DB.SqlError + A) * DB.Database) : M A :=
  r <- db_run self f ;;
  match r with
  | inl e => throw (SQLITE_ERROR e)
  | inr a => ret a
  end.

Definition db_read {A} (self : Z) (f : DB.Database -> A) : M A :=
  n <- get_node self ;;
  fun w => (Ok (f (open_file w (dbPath n))), w).

(** [setTimeout(action, delay)] in the process at [self]. *)
Definition setTimeout (self : Z) (d : Z) (a : TimerAction) : M unit :=
  n <- get_node self ;;
  fun w => (Ok tt,
            set_nodes w
              (<[self := mkNode (distManager n) (dbPath n)
                           (timers n ++ [mkTimer d a])]> (nodes w))).

Section Cluster.

Variable env : Env.

(** [Date.now()] in the process at [self]. *)
Definition Date_now (self : Z) : M Z :=
  fun w => (Ok (clock env self (tick w)), set_tick w (S (tick w))).

(** ** distributedManager.js, the methods that stay inside the process *)

(** [performClockSync(clientTime)] *)
Definition performClockSync (self : Z) (clientTime : Q) : M Sync.t :=
  let t0 := clientTime in
  now1 <- Date_now self ;;
  m <- this self ;;
  let serverTime := (inject_Z now1 + clockOffset m)%Q in
  now2 <- Date_now self ;;
  let t1 := (inject_Z now2 + clockOffset m)%Q in
  let rtt := (t1 - t0)%Q in
  let adjustedTime := (serverTime + rtt / 2)%Q in
  ret (Sync.mk adjustedTime rtt serverTime (clockOffset m)).

(** [getServerStatus()] *)
Definition getServerStatus (self : Z) : M (list Status.t) :=
  rows <- db_read self DB.getAllServers ;;
  m <- this self ;;
  ret (List.map
         (fun server =>
            Status.mk (DB.id server) (DB.name server) (DB.port server)
              (if DB.id server =? serverId m
               then connections m else DB.connections server)
              (DB.is_leader server =? 1)
              (DB.last_heartbeat server)
              (DB.status server)
              (if DB.id server =? serverId m then clockOffset m else 0%Q))
         rows).

(** The body of the [setInterval] of [startHeartbeat] (every 5000 ms). *)
Definition heartbeat (self : Z) : M unit :=
  now <- Date_now self ;;
  update_this self (fun m => set_lastHeartbeat m now) ;;;
  m <- this self ;;
  now' <- Date_now self ;;
  _ <- db_run self (fun d => DB.updateServerHeartbeat d (Some (serverId m)) now') ;;
  ret tt.

(** ** server.js, the routes the nodes call on each other *)

(** JavaScript [a < b] where [a] may be [undefined]. *)
Definition js_lt (a : option Z) (b : Z) : bool :=
  match a with
  | Some x => x <? b
  | None => false
  end.

(** JavaScript [a === b] where [a] may be [undefined]. *)
Definition js_eq (a : option Z) (b : Z) : bool :=
  match a with
  | Some x => x =? b
  | None => false
  end.

(** [app.post('/api/servers/election')] *)
Definition post_election (self : Z) (candidateId : option Z) : M (Response Ack) :=
  try_catch
    (n <- get_node self ;;
     if js_lt candidateId (SERVER_ID n)
     then
       setTimeout self 1000 PerformBullyElection ;;;
       ret (Json (mkAck true "Server is alive"))
     else
       ret (Json (mkAck false "Server acknowledges election")))
    (fun _ => ret (Status500 "Failed to handle election")).

(** [app.post('/api/servers/leader-update')] *)
Definition post_leader_update (self : Z) (newLeaderId : option Z)
    : M (Response Ack) :=
  try_catch
    (n <- get_node self ;;
     update_this self (fun m => set_isLeader m (js_eq newLeaderId (SERVER_ID n))) ;;;
     _ <- db_run self (fun d => DB.setLeader d newLeaderId) ;;
     ret (Json (mkAck true "Leader updated")))
    (fun _ => ret (Status500 "Failed to update leader")).

(** [app.post('/api/clock-sync')] *)
Definition post_clock_sync (self : Z) (clientTime : Q)
    : M (Response ClockSyncReply) :=
  try_catch
    (n <- get_node self ;;
     syncResult <- performClockSync self clientTime ;;
     ret (Json (mkClockSyncReply true syncResult (SERVER_ID n))))
    (fun _ => ret (Status500 "Failed to sync clock")).

(** [app.get('/api/clock-sync')]:
    [parseInt(req.query.clientTime) || Date.now()]. *)
Definition get_clock_sync (self : Z) (clientTime : option Z)
    : M (Response ClockSyncReply) :=
  try_catch
    (n <- get_node self ;;
     clientTime' <- match clientTime with
                    | Some c => if c =? 0 then Date_now self else ret c
                    | None => Date_now self
                    end ;;
     syncResult <- performClockSync self (inject_Z clientTime') ;;
     ret (Json (mkClockSyncReply true syncResult (SERVER_ID n))))
    (fun _ => ret (Status500 "Failed to sync clock")).

(** [app.post('/api/replicate/booking')]; [createBooking] reads
    [Date.now()] itself and does not receive [bookingTimestamp]. *)
Definition post_replicate_booking (self : Z) (body : Ev.BookingCreated)
    : M (Response Ack) :=
  try_catch
    (now <- Date_now self ;;
     _ <- db_try self (fun d =>
            DB.createBooking d (Ev.doctorId body) (Ev.patientName body)
              (Ev.slotTime body) (Ev.confirmationId body) (Ev.serverId body) now) ;;
     _ <- db_run self (fun d => DB.bookSlot d (Ev.doctorId body) (Ev.slotTime body)) ;;
     ret (Json (mkAck true "Booking replicated")))
    (fun _ => ret (Status500 "Failed to replicate booking")).

(** [app.post('/api/replicate/slot')] *)
Definition post_replicate_slot (self : Z) (doctorId : option Z)
    (slotTime : option string) : M (Response Ack) :=
  try_catch
    (_ <- db_run self (fun d => DB.bookSlot d doctorId slotTime) ;;
     ret (Json (mkAck true "Slot update replicated")))
    (fun _ => ret (Status500 "Failed to replicate slot")).

(** [app.get('/api/health')] *)
Definition get_health (self : Z) : M (Response Health) :=
  n <- get_node self ;;
  now <- Date_now self ;;
  ret (Json (mkHealth "healthy" (SERVER_ID n) (port (distManager n)) now)).

(** The express application of the process at [self]. *)
Definition app (self : Z) {A} (req : Request A) : M (Response A) :=
  match req in Request T return M (Response T) with
  | PostElection candidateId _ => post_election self candidateId
  | PostLeaderUpdate newLeaderId _ => post_leader_update self newLeaderId
  | PostClockSync clientTime => post_clock_sync self clientTime
  | GetClockSync clientTime => get_clock_sync self clientTime
  | PostReplicateBooking body => post_replicate_booking self body
  | PostReplicateSlot doctorId slotTime => post_replicate_slot self doctorId slotTime
  | GetHealth => get_health self
  end.

(** ** The transport *)

(** [await axios.post/get(`http://localhost:${to}/...`, ..., { timeout })]
    issued by the process at [self].  The promise rejects when the request
    does not arrive or nothing listens on the port, when the answer is not
    back within the timeout (the peer has handled the request all the same),
    and when the peer answers with a status outside 2xx; otherwise it
    resolves with the answer, whose [data] is returned.  An exception that
    escapes a route is turned into a 500 by the application's error
    middleware. *)
Definition axios {A} (self to : Z) (req : Request A) (timeout : Z) : M A :=
  (fun w => (Ok tt, set_sent w (sent w ++ [mkOutCall self to (route_of req) timeout]))) ;;;
  match link env to with
  | Down e => throw e
  | Unanswered =>
      fun w =>
        match nodes w !! to with
        | None => (Throw ECONNREFUSED, w)
        | Some _ => (Throw ECONNABORTED, snd (app to req w))
        end
  | Up =>
      fun w =>
        match nodes w !! to with
        | None => (Throw ECONNREFUSED, w)
        | Some _ =>
            match app to req w with
            | (Ok (Json data), w') => (Ok data, w')
            | (Ok (Status500 _), w') => (Throw (ERR_BAD_RESPONSE 500), w')
            | (Throw _, w') => (Throw (ERR_BAD_RESPONSE 500), w')
            end
        end
  end.

(** ** distributedManager.js, the methods that talk to peers *)

Definition others (m : Manager) : list Srv.t :=
  List.filter (fun s => negb (Srv.id s =? serverId m)) (servers m).

(** [notifyServersOfNewLeader()] *)
Definition notifyServersOfNewLeader (self : Z) : M unit :=
  m <- this self ;;
  let otherServers := others m in
  for_of otherServers (fun server =>
    try_catch
      (m <- this self ;;
       now <- Date_now self ;;
       _ <- axios self (Srv.port server)
              (PostLeaderUpdate (Some (serverId m)) (Some now)) 1000 ;;
       ret tt)
      (fun _ => ret tt)).

(** [becomeLeader()] *)
Definition becomeLeader (self : Z) : M unit :=
  update_this self (fun m => set_isLeader m true) ;;;
  m <- this self ;;
  _ <- db_run self (fun d => DB.setLeader d (Some (serverId m))) ;;
  m <- this self ;;
  now <- Date_now self ;;
  _ <- db_run self (fun d =>
         DB.updateServerStatus d (Some (serverId m)) (connections m) true "active" now) ;;
  notifyServersOfNewLeader self.

(** The election message of [performBullyElection]:
    [await axios.post(.../api/servers/election,
       { candidateId: this.serverId, timestamp: Date.now() }, { timeout: 2000 })] *)
Definition send_election (self : Z) (server : Srv.t) : M Ack :=
  m <- this self ;;
  now <- Date_now self ;;
  axios self (Srv.port server) (PostElection (Some (serverId m)) (Some now)) 2000.

(** The [for] loop of [performBullyElection]: [None] when the [return] in
    its body was taken, otherwise the final value of [responses]. *)
Fixpoint election_loop (self : Z) (higherServers : list Srv.t) (responses : Z)
    : M (option Z) :=
  match higherServers with
  | [] => ret (Some responses)
  | server :: rest =>
      alive <- try_catch
                 (response <- send_election self server ;;
                  ret (success response))
                 (fun _ => ret false) ;;
      if (alive : bool) then ret None
      else election_loop self rest (responses + 1)
  end.

(** [performBullyElection()] *)
Definition performBullyElection (self : Z) : M unit :=
  try_catch
    (m <- this self ;;
     let higherServers := List.filter (fun s => serverId m <? Srv.id s) (servers m) in
     if Z.of_nat (List.length higherServers) =? 0
     then becomeLeader self
     else
       r <- election_loop self higherServers 0 ;;
       match r with
       | None => ret tt
       | Some responses =>
           if responses =? Z.of_nat (List.length higherServers)
           then becomeLeader self
           else ret tt
       end)
    (fun _ => ret tt).

(** [syncWithLeader()] *)
Definition syncWithLeader (self : Z) : M unit :=
  m <- this self ;;
  if isLeader m then ret tt
  else
    try_catch
      (m <- this self ;;
       match List.find (fun s => negb (Srv.id s =? serverId m)) (servers m) with
       | None => ret tt
       | Some leader =>
           startTime <- Date_now self ;;
           response <- axios self (Srv.port leader) (GetClockSync (Some startTime)) 2000 ;;
           endTime <- Date_now self ;;
           let rtt := inject_Z (endTime - startTime) in
           let serverTime := Sync.serverTime (cs_result response) in
           let adjustedTime := (serverTime + rtt / 2)%Q in
           now <- Date_now self ;;
           update_this self (fun m => set_clockOffset m (adjustedTime - inject_Z now)%Q)
       end)
      (fun _ => ret tt).

(** [replicateBooking(bookingData)] *)
Definition replicateBooking (self : Z) (bookingData : Ev.BookingCreated) : M unit :=
  m <- this self ;;
  let otherServers := others m in
  for_of otherServers (fun server =>
    try_catch
      (_ <- axios self (Srv.port server) (PostReplicateBooking bookingData) 2000 ;;
       ret tt)
      (fun _ => ret tt)).

(** [replicateSlotUpdate(doctorId, slotTime)] *)
Definition replicateSlotUpdate (self : Z) (doctorId : option Z)
    (slotTime : option string) : M unit :=
  m <- this self ;;
  let otherServers := others m in
  for_of otherServers (fun server =>
    try_catch
      (_ <- axios self (Srv.port server) (PostReplicateSlot doctorId slotTime) 2000 ;;
       ret tt)
      (fun _ => ret tt)).

(** The body of the [setInterval] of [startLeaderCheck] (every 10000 ms). *)
Definition leaderCheck (self : Z) : M unit :=
  m <- this self ;;
  if negb (isLeader m) then ret tt
  else
    let otherServers := others m in
    for_of otherServers (fun server =>
      try_catch
        (_ <- axios self (Srv.port server) GetHealth 2000 ;;
         ret tt)
        (fun _ => ret tt)).

(** The callback that the election route defers by 1000 ms. *)
Definition run_timer (self : Z) (a : TimerAction) : M unit :=
  match a with
  | PerformBullyElection => performBullyElection self
  end.

(** The event loop of the process at [self] runs its oldest pending timer. *)
Definition fire_timer (self : Z) : M unit :=
  n <- get_node self ;;
  match timers n with
  | [] => ret tt
  | t :: rest =>
      (fun w => (Ok tt,
                 set_nodes w
                   (<[self := mkNode (distManager n) (dbPath n) rest]> (nodes w)))) ;;;
      run_timer self (action t)
  end.

End Cluster.

(** ** The replication dispatcher as the design document names it *)

(** The events a node replicates ([ReplicationEvent] in the design
    document). *)
Inductive ReplicationEvent :=
| BookingCreated (bookingData : Ev.BookingCreated)
| SlotMarkedUnavailable (doctorId : option Z) (slotTime : option string).

(** [replicate(event)] of the design document: the manager's two fan-out
    methods, selected by the tag of the event. *)
Definition replicate (env : Env) (self : Z) (ev : ReplicationEvent) : M unit :=
  match ev with
  | BookingCreated bookingData => replicateBooking env self bookingData
  | SlotMarkedUnavailable doctorId slotTime => replicateSlotUpdate env self doctorId slotTime
  end.

(** The request that carries an event to a peer. *)
Definition request_of (ev : ReplicationEvent) : Request Ack :=
  match ev with
  | BookingCreated bookingData => PostReplicateBooking bookingData
  | SlotMarkedUnavailable doctorId slotTime => PostReplicateSlot doctorId slotTime
  end.

(** ** server.js, the routes the clients call *)

(** Body of [POST /api/bookings]; [doctorId] is taken to be a JSON number. *)
Module Req.
Record Booking := mk {
  doctorId : option Z;
  patientName : option string;
  slotTime : option string
}.
End Req.

(** What a client route sends back: [res.json(data)], or
    [res.status(code).json({ error })]. *)
Inductive Reply (A : Type) :=
| Res_json (data : A)
| Res_status (code : Z) (error : string).
Arguments Res_json {A} data.
Arguments Res_status {A} code error.

(** [{ success: true, consistency, confirmationId, timestamp, server }] *)
Record Booked := mkBooked {
  bk_success : bool;
  bk_consistency : string;
  bk_confirmationId : string;
  bk_timestamp : Z;
  bk_server : Z
}.

(** [{ data, server, timestamp }]; [server] holds the id interpolated into
    ["Server-<id>"]. *)
Record Listing (A : Type) := mkListing {
  l_data : A;
  l_server : Z;
  l_timestamp : Z
}.
Arguments mkListing {A} l_data l_server l_timestamp.
Arguments l_data {A} l.
Arguments l_server {A} l.
Arguments l_timestamp {A} l.

(** One entry of [GET /api/servers]. *)
Record ServerView := mkServerView {
  sv_id : Z;
  sv_name : string;
  sv_port : Z;
  sv_connections : Z;
  sv_isLeader : bool;
  sv_clock : Q;
  sv_lastHeartbeat : Z;
  sv_status : string
}.

(** [{ requestId, processedBy }] *)
Record Processed := mkProcessed { requestId : Z; processedBy : Z }.

(** [{ success: true, results, server }] *)
Record Concurrent := mkConcurrent {
  c_success : bool;
  c_results : list Processed;
  c_server : Z
}.

(** JavaScript truthiness of a number and of a string that may be missing. *)
Definition truthy_num (a : option Z) : bool :=
  match a with
  | Some x => negb (x =? 0)
  | None => false
  end.

Definition truthy_str (a : option string) : bool :=
  match a with
  | Some s => negb (String.eqb s EmptyString)
  | None => false
  end.

(** [x || 0] on a number. *)
Definition or_zero (x : Q) : Q := if Qeq_bool x 0 then 0%Q else x.

Definition set_connections (m : Manager) (c : Z) : Manager :=
  mkManager (serverId m) (port m) (servers m) (isLeader m) c
    (clockOffset m) (lastHeartbeat m).

(** [await Promise.all(l.map(f))] with the callbacks run in list order. *)
Fixpoint map_M {A B} (f : A -> M B) (l : list A) : M (list B) :=
  match l with
  | [] => ret []
  | x :: rest =>
      y <- f x ;;
      ys <- map_M f rest ;;
      ret (y :: ys)
  end.

Section Clients.

Variable env : Env.

(** [app.post('/api/bookings')]; [confirmationId] is the value of
    [`CONF${uuidv4().substr(0, 9).toUpperCase()}`] in this request. *)
Definition post_bookings (self : Z) (confirmationId : string) (body : Req.Booking)
    : M (Reply Booked) :=
  try_catch
    (n <- get_node self ;;
     let doctorId := Req.doctorId body in
     let patientName := Req.patientName body in
     let slotTime := Req.slotTime body in
     if negb (truthy_num doctorId) || negb (truthy_str patientName)
        || negb (truthy_str slotTime)
     then ret (Res_status 400 "Missing required fields")
     else
       slotAvailable <- db_run self (fun d => DB.bookSlot d doctorId slotTime) ;;
       if negb slotAvailable
       then ret (Res_status 400 "Slot no longer available")
       else
         now <- Date_now env self ;;
         bookingResult <- db_try self (fun d =>
           DB.createBooking d doctorId patientName slotTime (Some confirmationId)
             (Some (SERVER_ID n)) now) ;;
         let bookingData :=
           Ev.mk doctorId patientName slotTime (Some confirmationId)
             (Some (snd bookingResult)) (Some (SERVER_ID n)) in
         try_catch
           (replicateBooking env self bookingData ;;;
            replicateSlotUpdate env self doctorId slotTime)
           (fun _ => ret tt) ;;;
         ret (Res_json (mkBooked true "eventual" confirmationId
                          (snd bookingResult) (SERVER_ID n))))
    (fun _ => ret (Res_status 500 "Failed to create booking")).

(** [app.get('/api/doctors/:id/slots')]; [doctorId] is the number the path
    segment spells, if it spells one (the column has INTEGER affinity). *)
Definition get_slots (self : Z) (doctorId : option Z) : M (Reply (Listing (list string))) :=
  try_catch
    (n <- get_node self ;;
     slots <- db_read self (fun d => DB.getAvailableSlots d doctorId) ;;
     let slotTimes := List.map DB.s_slot_time slots in
     now <- Date_now env self ;;
     ret (Res_json (mkListing slotTimes (SERVER_ID n) now)))
    (fun _ => ret (Res_status 500 "Failed to fetch slots")).

(** [app.get('/api/servers')]: [Date.now()] is read once per entry. *)
Definition get_servers (self : Z) : M (Reply (Listing (list ServerView))) :=
  try_catch
    (n <- get_node self ;;
     servers <- getServerStatus self ;;
     formattedServers <- map_M
       (fun server =>
          now <- Date_now env self ;;
          ret (mkServerView (Status.id server) (Status.name server)
                 (Status.port server) (Status.connections server)
                 (Status.isLeader server)
                 (inject_Z now + or_zero (Status.clockOffset server))%Q
                 (Status.lastHeartbeat server) (Status.status server)))
       servers ;;
     now <- Date_now env self ;;
     ret (Res_json (mkListing formattedServers (SERVER_ID n) now)))
    (fun _ => ret (Res_status 500 "Failed to fetch server status")).

(** [handleConcurrentRequests(requests)] on an array.  The callbacks only
    wait and build their result, so the [catch] branch is never entered. *)
Definition handleConcurrentRequests {A} (self : Z) (requests : list A)
    : M (list Processed) :=
  let n := Z.of_nat (List.length requests) in
  update_this self (fun m => set_connections m (connections m + n)) ;;;
  results <- map_M
    (fun index =>
       m <- this self ;;
       ret (mkProcessed (Z.of_nat index) (serverId m)))
    (List.seq 0 (List.length requests)) ;;
  update_this self (fun m => set_connections m (connections m - n)) ;;;
  ret results.

(** [app.post('/api/concurrent')].  Without [requests] in the body,
    [requests.length] throws at the first line of the method, before the
    counter is touched, and the route answers 500. *)
Definition post_concurrent {A} (self : Z) (requests : option (list A))
    : M (Reply Concurrent) :=
  try_catch
    (n <- get_node self ;;
     match requests with
     | None => ret (Res_status 500 "Failed to handle concurrent requests")
     | Some requests =>
         results <- handleConcurrentRequests self requests ;;
         ret (Res_json (mkConcurrent true results (SERVER_ID n)))
     end)
    (fun _ => ret (Res_status 500 "Failed to handle concurrent requests")).

(** The callback that [shutdown()] defers by 1000 ms:
    [axios.post(.../api/servers/election)] with no body and no timeout
    (written 0, as axios does). *)
Definition shutdown_trigger (self : Z) : M unit :=
  try_catch
    (m <- this self ;;
     let otherServers := others m in
     match otherServers with
     | [] => ret tt
     | first :: _ =>
         _ <- axios env self (Srv.port first) (PostElection None None) 0 ;;
         ret tt
     end)
    (fun _ => ret tt).

(** [shutdown()].  The deferred callback is not an election of the node's
    own, so it is handed back with its delay instead of being queued in
    [timers]; closing the connection leaves the file as it is. *)
Definition shutdown (self : Z) : M (option (Z * M unit)) :=
  m <- this self ;;
  now <- Date_now env self ;;
  _ <- db_run self (fun d =>
         DB.updateServerStatus d (Some (serverId m)) 0 false "inactive" now) ;;
  m <- this self ;;
  if isLeader m
  then ret (Some (1000, shutdown_trigger self))
  else ret None.

End Clients.

(** ** The React client, [DistributedBackend] *)

Module Frontend.

(** An element of [fallbackServers]. *)
Record Server := mkServer {
  id : Z;
  name : string;
  port : Z;
  connections : Z;
  isLeader : bool;
  clock : Z
}.

Definition set_isLeader (s : Server) (v : bool) : Server :=
  mkServer (id s) (name s) (port s) (connections s) v (clock s).

(** The fields of [DistributedBackend] that its methods write;
    [currentServerIndex] is [None] once it has become [NaN]. *)
Record DistributedBackend := mk {
  baseUrls : list string;
  currentServerIndex : option nat;
  fallbackServers : list Server
}.

(** [getNextServer()]: the URL at the index ([undefined] out of range) and
    the backend with the index moved on. *)
Definition getNextServer (b : DistributedBackend)
    : option string * DistributedBackend :=
  match currentServerIndex b with
  | None => (None, b)
  | Some i =>
      (baseUrls b !! i,
       mk (baseUrls b)
          (match List.length (baseUrls b) with
           | O => None
           | S _ => Some ((i + 1) mod List.length (baseUrls b))%nat
           end)
          (fallbackServers b))
  end.

(** [k] calls of [getNextServer()], one after the other. *)
Fixpoint getNextServer_n (k : nat) (b : DistributedBackend)
    : list (option string) * DistributedBackend :=
  match k with
  | O => ([], b)
  | S k' =>
      let r := getNextServer b in
      let rs := getNextServer_n k' (snd r) in
      (fst r :: fst rs, snd rs)
  end.

(** [activeServers.reduce((max, server) =>
      server.id > max.id ? server : max, activeServers[0])] *)
Definition highest (activeServers : list Server) : option Server :=
  match activeServers with
  | [] => None
  | first :: _ =>
      Some (List.fold_left (fun max server => if id max <? id server then server else max)
              activeServers first)
  end.

(** [performBullyElection(failedServerId)]: [None] when it throws (no
    server is left and [newLeader.id] is read).  The elements of
    [fallbackServers] are written in place, so the leader that is returned
    carries the flag it has just been given. *)
Definition performBullyElection (b : DistributedBackend) (failedServerId : Z)
    : option (option Server * DistributedBackend) :=
  let activeServers :=
    List.filter (fun s => negb (id s =? failedServerId)) (fallbackServers b) in
  match highest activeServers, fallbackServers b with
  | Some newLeader, _ =>
      Some (Some (set_isLeader newLeader true),
            mk (baseUrls b) (currentServerIndex b)
               (List.map (fun s => set_isLeader s (id s =? id newLeader))
                  (fallbackServers b)))
  | None, [] => Some (None, b)
  | None, _ :: _ => None
  end.

End Frontend.

(** ** Scenarios *)

(** The [servers] rows that [seed.js] inserts (heartbeat taken at time 0). *)
Definition seed_servers : list DB.ServerRow :=
  [DB.mkServer 1 "Server-Mumbai" 5001 0 1 0 "active";
   DB.mkServer 2 "Server-Delhi" 5002 0 0 0 "active";
   DB.mkServer 3 "Server-Bangalore" 5003 0 0 0 "active"].

(** A store as [seed.js] leaves it, cut down to three slots. *)
Definition seeded : DB.Database :=
  DB.mkDatabase
    [DB.mkSlot 1 1 "09:00" 1; DB.mkSlot 2 1 "09:30" 1; DB.mkSlot 3 2 "10:00" 1]
    [] 0 seed_servers.

(** The process started with [SERVER_ID=i PORT=5000+i] in a directory whose
    [./hospital.db] is [path]. *)
Definition node_at (i : Z) (path : string) : Node :=
  mkNode (new_DistributedManager i (5000 + i) 0) path [].

(** Three processes, each with a database file of its own. *)
Definition cluster_own : World :=
  mkWorld
    (<[5001 := node_at 1 "n1/hospital.db"]>
       (<[5002 := node_at 2 "n2/hospital.db"]>
          (<[5003 := node_at 3 "n3/hospital.db"]> ∅)))
    (<["n1/hospital.db" := seeded]>
       (<["n2/hospital.db" := seeded]>
          (<["n3/hospital.db" := seeded]> ∅)))
    0 [].

(** Three processes started in one directory, as [start-servers.js] does. *)
Definition cluster_shared : World :=
  mkWorld
    (<[5001 := node_at 1 "./hospital.db"]>
       (<[5002 := node_at 2 "./hospital.db"]>
          (<[5003 := node_at 3 "./hospital.db"]> ∅)))
    (<["./hospital.db" := seeded]> ∅)
    0 [].

(** Every clock shows [1000 + k] at the [k]-th read; every port answers. *)
Definition env_up : Env :=
  mkEnv (fun _ k => 1000 + Z.of_nat k) (fun _ => Up).

(** As [env_up], with node 3 unreachable. *)
Definition env_3_down : Env :=
  mkEnv (fun _ k => 1000 + Z.of_nat k)
        (fun p => if p =? 5003 then Down ECONNREFUSED else Up).

(** One clock for all nodes that stands still at 1000. *)
Definition env_frozen : Env :=
  mkEnv (fun _ _ => 1000) (fun _ => Up).

(** A 40 ms round trip between nodes whose clocks agree: the request
    leaves at 1000, is handled at 1020, and the answer arrives at 1040. *)
Definition env_rtt40 : Env :=
  mkEnv (fun _ k => List.nth k [1000; 1020; 1020; 1040; 1040] 1040)
        (fun _ => Up).

Definition booking_CONF1 : Ev.BookingCreated :=
  Ev.mk (Some 1) (Some "Asha") (Some "09:00") (Some "CONF1") (Some 1000) (Some 1).

(** As [cluster_shared], with node 2 holding a clock offset of 15 ms. *)
Definition cluster_shared_skewed : World :=
  set_nodes cluster_shared
    (<[5002 := mkNode (set_clockOffset (new_DistributedManager 2 5002 0) 15%Q)
                 "./hospital.db" []]> (nodes cluster_shared)).

(** As [env_up], with node 2 too slow to answer in time. *)
Definition env_2_timeout : Env :=
  mkEnv (fun _ k => 1000 + Z.of_nat k)
        (fun p => if p =? 5002 then Unanswered else Up).

(** As [env_up], with node 3 too slow to answer in time. *)
Definition env_3_timeout : Env :=
  mkEnv (fun _ k => 1000 + Z.of_nat k)
        (fun p => if p =? 5003 then Unanswered else Up).

(** One clock for all nodes that stands still at 1040. *)
Definition env_frozen_1040 : Env :=
  mkEnv (fun _ _ => 1040) (fun _ => Up).

(** As [cluster_own], but the process on port 5002 was started without
    [SERVER_ID] and runs under the default id 1
    ([parseInt(process.env.SERVER_ID) || 1]). *)
Definition cluster_default_id : World :=
  set_nodes cluster_own
    (<[5002 := mkNode (new_DistributedManager 1 5002 0) "n2/hospital.db" []]>
       (nodes cluster_own)).

(** A booking request for doctor 1 at 09:00. *)
Definition body_0900 : Req.Booking := Req.mk (Some 1) (Some "Asha") (Some "09:00").

(** The React client's backend as its constructor leaves it. *)
Definition new_DistributedBackend : Frontend.DistributedBackend :=
  Frontend.mk
    ["http://localhost:5001"; "http://localhost:5002"; "http://localhost:5003"]
    (Some 0%nat)
    [Frontend.mkServer 1 "Server-Mumbai" 5001 0 true 0;
     Frontend.mkServer 2 "Server-Delhi" 5002 0 false 0;
     Frontend.mkServer 3 "Server-Bangalore" 5003 0 false 0].

(** Duplicate rows: two or more booking rows carry the confirmation id. *)
Definition duplicate_rows (c : string) (d : DB.Database) : Prop :=
  (2 <= DB.count_confirmation c d)%nat.

(** The world an operation leaves behind, and what it returned. *)
Definition exec {A} (m : M A) (w : World) : World := snd (m w).
Definition eval {A} (m : M A) (w : World) : Result A := fst (m w).

(** The database file of the process at [self]. *)
Definition file_of (w : World) (self : Z) : DB.Database :=
  match nodes w !! self with
  | Some n => open_file w (dbPath n)
  | None => DB.init
  end.

(** ** Notions used in the statements *)

(** [id] is the primary key of [servers]. *)
Definition primary_key (d : DB.Database) : Prop :=
  List.NoDup (List.map DB.id (DB.servers d)).

Definition at_most_one_leader (d : DB.Database) : Prop :=
  (List.length (DB.leader_rows d) <= 1)%nat.

(** The time the GET clock-sync route hands to [performClockSync], and the
    number of clock reads that takes. *)
Definition parsed_clientTime (env : Env) (self : Z) (clientTime : option Z)
    (w : World) : Z * nat :=
  match clientTime with
  | Some c => if c =? 0 then (clock env self (tick w), 1%nat) else (c, 0%nat)
  | None => (clock env self (tick w), 1%nat)
  end.

(** A request to port [p] reaches a process, which handles it. *)
Definition reachable (env : Env) (w : World) (p : Z) : bool :=
  match link env p, nodes w !! p with
  | (Up | Unanswered), Some _ => true
  | _, _ => false
  end.

(** A request to port [p] is handled and the answer is back in time. *)
Definition answers (env : Env) (w : World) (p : Z) : bool :=
  match link env p, nodes w !! p with
  | Up, Some _ => true
  | _, _ => false
  end.

(** The world once an outbound call has left. *)
Definition logged (w : World) (c : OutCall) : World :=
  set_sent w (sent w ++ [c]).

(** Two worlds that differ at most in the record of outbound calls. *)
Definition same_state (w1 w2 : World) : Prop :=
  nodes w1 = nodes w2 /\ files w1 = files w2 /\ tick w1 = tick w2.

(** The request handled, one after the other, by the processes at [ports]. *)
Fixpoint deliver_all (env : Env) {A} (req : Request A) (ports : list Z)
    (w : World) : World :=
  match ports with
  | [] => w
  | p :: rest => deliver_all env req rest (exec (app env p req) w)
  end.

(** A slot row after later writes: the same slot, still taken if it was. *)
Definition slot_kept (r r' : DB.SlotRow) : Prop :=
  DB.s_id r' = DB.s_id r /\ DB.s_doctor_id r' = DB.s_doctor_id r /\
  DB.s_slot_time r' = DB.s_slot_time r /\
  (DB.s_is_available r' = DB.s_is_available r \/ DB.s_is_available r' = 0).

(** A store in which every write of [d] still stands: the booking rows of
    [d] are there, unaltered and in place, possibly followed by more; the
    slots are the same slots, none freed; the [servers] table is as it was. *)
Definition stands (d d' : DB.Database) : Prop :=
  (exists more, DB.bookings d' = (DB.bookings d ++ more)%list) /\
  Forall2 slot_kept (DB.slots d) (DB.slots d') /\
  DB.servers d' = DB.servers d.

(** The record of one call of a fan-out. *)
Definition call_to (self : Z) (r : Route) (t : Z) (server : Srv.t) : OutCall :=
  mkOutCall self (Srv.port server) r t.

(** The loop shared by the replication methods: one guarded call per
    server of the list. *)
Definition fan_out (env : Env) (self : Z) {A} (req : Request A) (t : Z)
    (l : list Srv.t) : M unit :=
  for_of l (fun server =>
    try_catch (_ <- axios env self (Srv.port server) req t ;; ret tt)
              (fun _ => ret tt)).

(** The world after one round of that loop. *)
Definition fan_step (env : Env) (self : Z) {A} (req : Request A) (t : Z)
    (w : World) (server : Srv.t) : World :=
  let w0 := logged w (call_to self (route_of req) t server) in
  if reachable env w (Srv.port server)
  then exec (app env (Srv.port server) req) w0
  else w0.

(** An event that fills every column of the booking row. *)
Definition complete (body : Ev.BookingCreated) : Prop :=
  is_Some (Ev.doctorId body) /\ is_Some (Ev.patientName body) /\
  is_Some (Ev.slotTime body) /\ is_Some (Ev.serverId body).

(** The guarded election message of one round of the loop of
    [performBullyElection]: did the peer answer with a truthy [success]? *)
Definition ask (env : Env) (self : Z) (server : Srv.t) : M bool :=
  try_catch (response <- send_election env self server ;; ret (success response))
            (fun _ => ret false).

(** The servers that outrank a manager. *)
Definition higher (m : Manager) : list Srv.t :=
  List.filter (fun s => serverId m <? Srv.id s) (servers m).

(** The process behind the port of server [s] has a higher id than
    manager [m]. *)
Definition outranks (w : World) (m : Manager) (s : Srv.t) : bool :=
  match nodes w !! Srv.port s with
  | Some ns => serverId m <? SERVER_ID ns
  | None => false
  end.

(** The server [s] answers an election message of manager [m] with
    "alive": the message is handled by a process of higher id and the
    answer is back in time. *)
Definition answers_alive (env : Env) (w : World) (m : Manager) (s : Srv.t) : bool :=
  answers env w (Srv.port s) && outranks w m s.

(** The election message of manager [m] reaches a process of higher id
    behind the port of [s], whether or not the answer makes it back. *)
Definition hears_election (env : Env) (w : World) (m : Manager) (s : Srv.t) : bool :=
  reachable env w (Srv.port s) && outranks w m s.

(** The world once election messages to [hs] have left: the caller has
    read its clock once per message and the calls are on record. *)
Definition after_asking (self : Z) (hs : list Srv.t) (w : World) : World :=
  mkWorld (nodes w) (files w) (List.length hs + tick w)
          (sent w ++ List.map (call_to self R_election 2000) hs).

(** The process [n] with one more pending election timer. *)
Definition with_election_timer (n : Node) : Node :=
  mkNode (distManager n) (dbPath n) (timers n ++ [mkTimer 1000 PerformBullyElection]).

(** The world after one election message of the process at [self], whose
    manager is [m], to server [s]: a process of higher id that got the
    message has its own election pending. *)
Definition asked (env : Env) (self : Z) (m : Manager) (w : World) (s : Srv.t)
    : World :=
  let w0 := after_asking self [s] w in
  match nodes w !! Srv.port s with
  | Some ns =>
      if hears_election env w m s
      then set_nodes w0 (<[Srv.port s := with_election_timer ns]> (nodes w))
      else w0
  | None => w0
  end.

(** From [w] to [w'] the processes are the same, with the same managers and
    database files; at most their pending timers have grown, and the stores
    are untouched. *)
Definition timers_grew (w w' : World) : Prop :=
  files w' = files w /\
  forall p,
    match nodes w !! p, nodes w' !! p with
    | Some n, Some n' =>
        distManager n' = distManager n /\ dbPath n' = dbPath n /\
        exists more, timers n' = (timers n ++ more)%list
    | None, None => True
    | _, _ => False
    end.

(** The guarded leader-update message of one round of the loop of
    [notifyServersOfNewLeader]. *)
Definition notify_one (env : Env) (self : Z) (server : Srv.t) : M unit :=
  try_catch
    (m <- this self ;;
     now <- Date_now env self ;;
     _ <- axios env self (Srv.port server)
            (PostLeaderUpdate (Some (serverId m)) (Some now)) 1000 ;;
     ret tt)
    (fun _ => ret tt).

(** The store names [sid] as the leader and nobody else. *)
Definition leader_is (sid : Z) (d : DB.Database) : Prop :=
  forall r, In r (DB.servers d) ->
            DB.is_leader r = if DB.id r =? sid then 1 else 0.

(** The world after one round of the notification loop run by the process
    at [self], whose id is [sid]. *)
Definition notified (env : Env) (self sid : Z) (w : World) (s : Srv.t) : World :=
  let w0 := logged (set_tick w (S (tick w))) (call_to self R_leader_update 1000 s) in
  if reachable env w (Srv.port s)
  then exec (app env (Srv.port s)
               (PostLeaderUpdate (Some sid) (Some (clock env self (tick w))))) w0
  else w0.

(** The process at [self] believes it leads: its manager is [m0] with the
    flag raised, and its store, at [path], names it and nobody else; the
    primary key of the store, if it held in [d0], still holds. *)
Definition leading (self : Z) (m0 : Manager) (path : string) (d0 : DB.Database)
    (w : World) : Prop :=
  (exists n, nodes w !! self = Some n /\
             distManager n = set_isLeader m0 true /\ dbPath n = path) /\
  leader_is (serverId m0) (open_file w path) /\
  (primary_key d0 -> primary_key (open_file w path)).

(** The [success] field of the answer to an election message, when there
    is one. *)
Definition reply_success (r : Result (Response Ack)) : option bool :=
  match r with
  | Ok (Json a) => Some (success a)
  | _ => None
  end.

(** [k] calls of [performClockSync(clientTime)], one after the other. *)
Fixpoint sync_n (env : Env) (self : Z) (clientTime : Q) (k : nat)
    : M (list Sync.t) :=
  match k with
  | O => ret []
  | S k' =>
      r <- performClockSync env self clientTime ;;
      rs <- sync_n env self clientTime k' ;;
      ret (r :: rs)
  end.

(** What [performClockSync(clientTime)] returns in process [n] when its
    first clock read is read number [t]. *)
Definition sync_at (env : Env) (self : Z) (n : Node) (clientTime : Q) (t : nat)
    : Sync.t :=
  let o := clockOffset (distManager n) in
  let serverTime := (inject_Z (clock env self t) + o)%Q in
  let t1 := (inject_Z (clock env self (S t)) + o)%Q in
  Sync.mk (serverTime + (t1 - clientTime) / 2)%Q (t1 - clientTime)%Q serverTime o.

(** The entry [getServerStatus] builds from a row, as seen from manager [m]. *)
Definition entry_of (m : Manager) (row : DB.ServerRow) (e : Status.t) : Prop :=
  Status.id e = DB.id row /\ Status.name e = DB.name row /\
  Status.port e = DB.port row /\
  Status.isLeader e = (DB.is_leader row =? 1) /\
  Status.lastHeartbeat e = DB.last_heartbeat row /\
  Status.status e = DB.status row /\
  (DB.id row = serverId m ->
   Status.connections e = connections m /\ Status.clockOffset e = clockOffset m) /\
  (DB.id row <> serverId m ->
   Status.connections e = DB.connections row /\ Status.clockOffset e = 0%Q).

(** The orders in which the statements of two calls that are in flight at
    the same time can reach the file: each call's statements stay in their
    own order. *)
Inductive interleaving {A} : list A -> list A -> list A -> Prop :=
| interleaving_nil : interleaving [] [] []
| interleaving_left x l1 l2 l :
    interleaving l1 l2 l -> interleaving (x :: l1) l2 (x :: l)
| interleaving_right x l1 l2 l :
    interleaving l1 l2 l -> interleaving l1 (x :: l2) (x :: l).

(** [setLeader(i)] and [setLeader(j)] called one right after the other:
    both first statements are queued before either callback runs, so both
    clear before either raises its flag. *)
Definition overlapped (i j : Z) : list DB.Statement :=
  [DB.ClearLeaders; DB.ClearLeaders; DB.MarkLeader (Some i); DB.MarkLeader (Some j)].

(** [bookSlot(di, st)] finds no row to take: no row of [slots] is the free
    slot of that doctor at that time. *)
Definition taken (di : option Z) (st : option string) (d : DB.Database) : Prop :=
  forall row, In row (DB.slots d) -> DB.slot_matches di st row = false.

(** The slot of doctor [doctorId] at [slotTime] is in [slots] and free. *)
Definition bookable (doctorId : Z) (slotTime : string) (d : DB.Database) : Prop :=
  exists row, In row (DB.slots d) /\ DB.s_doctor_id row = doctorId /\
              DB.s_slot_time row = slotTime /\ DB.s_is_available row = 1.

(** The two keys of [bookings]: [confirmation_id TEXT UNIQUE] and
    [id INTEGER PRIMARY KEY]. *)
Definition bookings_keys (d : DB.Database) : Prop :=
  List.NoDup (List.map DB.confirmation_id (DB.bookings d)) /\
  List.NoDup (List.map DB.b_id (DB.bookings d)).

(** A listing in the order of [ORDER BY b.booking_timestamp DESC]. *)
Definition newest_first (l : list DB.BookingView) : Prop :=
  StronglySorted
    (fun a b => DB.booking_timestamp (DB.v_booking b) <= DB.booking_timestamp (DB.v_booking a))
    l.


(** Every field of the body of a booking request is there and truthy. *)
Definition filled (body : Req.Booking) : bool :=
  truthy_num (Req.doctorId body) && truthy_str (Req.patientName body)
  && truthy_str (Req.slotTime body).


(** A [servers] row before and after a heartbeat of server [sid] at [now]:
    only [last_heartbeat] may differ, and only in the row of [sid]. *)
Definition beat (sid now : Z) (r r' : DB.ServerRow) : Prop :=
  DB.id r' = DB.id r /\ DB.name r' = DB.name r /\ DB.port r' = DB.port r /\
  DB.connections r' = DB.connections r /\ DB.is_leader r' = DB.is_leader r /\
  DB.status r' = DB.status r /\
  DB.last_heartbeat r' = (if DB.id r =? sid then now else DB.last_heartbeat r).

(** A [servers] row before and after the shutdown of server [sid] at [now]. *)
Definition retired (sid now : Z) (r r' : DB.ServerRow) : Prop :=
  r' = (if DB.id r =? sid
        then DB.mkServer (DB.id r) (DB.name r) (DB.port r) 0 0 now "inactive"
        else r).

(** The call that the deferred callback of [shutdown] makes, if any. *)
Definition trigger_calls (self : Z) (m : Manager) : list OutCall :=
  match others m with
  | [] => []
  | first :: _ => [mkOutCall self (Srv.port first) R_election 0]
  end.

(** The server whose clock [syncWithLeader] reads: the first of the list
    that is not the manager's own. *)
Definition reference (m : Manager) : option Srv.t :=
  List.find (fun s => negb (Srv.id s =? serverId m)) (servers m).



(** The entry of [GET /api/servers] for a row of [servers], as the node
    with manager [m] reports it when its clock shows [now]. *)
Definition view_of (m : Manager) (now : Z) (row : DB.ServerRow) (v : ServerView) : Prop :=
  sv_id v = DB.id row /\ sv_name v = DB.name row /\ sv_port v = DB.port row /\
  sv_isLeader v = (DB.is_leader row =? 1) /\
  sv_lastHeartbeat v = DB.last_heartbeat row /\ sv_status v = DB.status row /\
  sv_connections v =
    (if DB.id row =? serverId m then connections m else DB.connections row) /\
  (sv_clock v ==
   inject_Z now + (if DB.id row =? serverId m then clockOffset m else 0))%Q.

(** A server of the client's list other than [failed]. *)
Definition survivor (failed : Z) (l : list Frontend.Server) (s : Frontend.Server) : Prop :=
  In s l /\ Frontend.id s <> failed.

(** ** Facts about the store *)

Lemma id_is_true sid r : DB.id_is sid r = true -> sid = Some (DB.id r).
Proof.
  destruct sid as [i|]; simpl; [|discriminate].
  intros H. apply Z.eqb_eq in H. congruence.
Qed.

Lemma filter_id_none sid l :
  (forall r, In r l -> sid <> Some (DB.id r)) ->
  List.filter (DB.id_is sid) l = [].
Proof.
  induction l as [|a l IH]; simpl; intros H; [reflexivity|].
  destruct (DB.id_is sid a) eqn:E.
  - apply id_is_true in E. exfalso. apply (H a); auto.
  - apply IH. intros r Hr. apply H. auto.
Qed.

Lemma filter_id_le_1 sid l :
  List.NoDup (List.map DB.id l) ->
  (List.length (List.filter (DB.id_is sid) l) <= 1)%nat.
Proof.
  induction l as [|a l IH]; simpl; intros Hnd; [lia|].
  inversion Hnd as [|? ? Hnotin Hnd']; subst.
  destruct (DB.id_is sid a) eqn:E.
  - rewrite filter_id_none; [simpl; lia|].
    intros r Hr Heq. apply id_is_true in E.
    apply Hnotin. apply in_map_iff. exists r. split; [congruence|assumption].
  - apply IH. assumption.
Qed.

(** After [setLeader] the flag is raised on exactly the rows that carry the
    given id, whatever the flags were before. *)
Lemma setLeader_rows d sid :
  DB.servers (snd (DB.setLeader d sid)) =
  List.map (fun r => DB.set_is_leader (if DB.id_is sid r then 1 else 0) r)
           (DB.servers d).
Proof.
  unfold DB.setLeader, DB.mark_leader, DB.clear_leaders; simpl.
  rewrite List.map_map. apply List.map_ext. intros r.
  unfold DB.id_is, DB.set_is_leader; simpl.
  destruct sid as [i|]; [destruct (DB.id r =? i)|]; reflexivity.
Qed.

Lemma filter_map_length {A B} (f : A -> B) (p : B -> bool) (q : A -> bool) l :
  (forall x, p (f x) = q x) ->
  List.length (List.filter p (List.map f l)) = List.length (List.filter q l).
Proof.
  intros H. induction l as [|a l IH]; simpl; [reflexivity|].
  rewrite H. destruct (q a); simpl; rewrite IH; reflexivity.
Qed.

Lemma leader_rows_flagged sid l :
  List.length
    (List.filter (fun r => negb (DB.is_leader r =? 0))
       (List.map (fun r => DB.set_is_leader (if DB.id_is sid r then 1 else 0) r) l))
  = List.length (List.filter (DB.id_is sid) l).
Proof.
  apply filter_map_length. intros r.
  unfold DB.id_is. destruct sid as [i|]; simpl; [destruct (DB.id r =? i)|]; reflexivity.
Qed.

Lemma setLeader_primary_key d sid :
  primary_key d -> primary_key (snd (DB.setLeader d sid)).
Proof.
  unfold primary_key. rewrite setLeader_rows, List.map_map. simpl.
  intros H. erewrite List.map_ext; [exact H|reflexivity].
Qed.

Lemma setLeader_one_leader d sid :
  primary_key d -> at_most_one_leader (snd (DB.setLeader d sid)).
Proof.
  unfold primary_key, at_most_one_leader, DB.leader_rows. intros H.
  rewrite setLeader_rows, leader_rows_flagged. apply filter_id_le_1, H.
Qed.

(** [updateServerStatus(id, _, true, _)] right after [setLeader(id)] raises
    the flag on the rows on which it is raised already. *)
Lemma updateServerStatus_after_setLeader d i c st now :
  primary_key d ->
  let d' := snd (DB.updateServerStatus (snd (DB.setLeader d (Some i))) (Some i)
                   c true st now) in
  primary_key d' /\ at_most_one_leader d'.
Proof.
  intros H d'. subst d'. unfold primary_key, at_most_one_leader, DB.leader_rows.
  unfold DB.updateServerStatus, DB.with_servers. cbn [snd DB.servers].
  rewrite setLeader_rows, !List.map_map. split.
  - erewrite List.map_ext; [exact H|].
    intros r. simpl. destruct (DB.id r =? i); reflexivity.
  - transitivity (List.length (List.filter (DB.id_is (Some i)) (DB.servers d))).
    2: apply filter_id_le_1, H.
    apply Nat.eq_le_incl, filter_map_length. intros r. simpl.
    destruct (DB.id r =? i); reflexivity.
Qed.

(** ** How the routes run *)

Ltac unfold_m :=
  cbv [app post_election post_leader_update post_clock_sync get_clock_sync
       post_replicate_booking post_replicate_slot get_health performClockSync
       db_try db_run db_read update_this this setTimeout get_node Date_now
       try_catch bind ret throw].

Ltac red_w :=
  cbn [nodes files tick sent set_nodes set_files set_tick set_sent
       distManager dbPath timers set_manager fst snd].

Ltac run H :=
  unfold_m; red_w;
  repeat (first [rewrite H | rewrite lookup_insert_eq]; red_w).

Section Runs.

Variable env : Env.

Lemma post_election_run self c ts w n :
  nodes w !! self = Some n ->
  app env self (PostElection c ts) w =
  if js_lt c (SERVER_ID n)
  then (Ok (Json (mkAck true "Server is alive")),
        set_nodes w
          (<[self := mkNode (distManager n) (dbPath n)
                       (timers n ++ [mkTimer 1000 PerformBullyElection])]> (nodes w)))
  else (Ok (Json (mkAck false "Server acknowledges election")), w).
Proof.
  intros H. run H. destruct (js_lt c (SERVER_ID n)); run H; reflexivity.
Qed.

Lemma post_leader_update_run self nl ts w n :
  nodes w !! self = Some n ->
  app env self (PostLeaderUpdate nl ts) w =
  (Ok (Json (mkAck true "Leader updated")),
   mkWorld
     (<[self := set_manager n
                  (set_isLeader (distManager n) (js_eq nl (SERVER_ID n)))]> (nodes w))
     (<[dbPath n := snd (DB.setLeader (open_file w (dbPath n)) nl)]> (files w))
     (tick w) (sent w)).
Proof. intros H. run H. reflexivity. Qed.

Lemma performClockSync_run self T w n :
  nodes w !! self = Some n ->
  performClockSync env self T w =
  (let o := clockOffset (distManager n) in
   let serverTime := (inject_Z (clock env self (tick w)) + o)%Q in
   let t1 := (inject_Z (clock env self (S (tick w))) + o)%Q in
   (Ok (Sync.mk (serverTime + (t1 - T) / 2)%Q (t1 - T)%Q serverTime o),
    set_tick w (S (S (tick w))))).
Proof. intros H. run H. reflexivity. Qed.

Lemma post_clock_sync_run self T w n :
  nodes w !! self = Some n ->
  app env self (PostClockSync T) w =
  (match performClockSync env self T w with
   | (Ok r, w') => (Ok (Json (mkClockSyncReply true r (SERVER_ID n))), w')
   | (Throw _, w') => (Ok (Status500 "Failed to sync clock"), w')
   end).
Proof.
  intros H. rewrite (performClockSync_run _ _ _ _ H). run H. reflexivity.
Qed.

Lemma get_clock_sync_run self c w n :
  nodes w !! self = Some n ->
  app env self (GetClockSync c) w =
  (let '(T, k) := parsed_clientTime env self c w in
   match performClockSync env self (inject_Z T) (set_tick w (k + tick w)) with
   | (Ok r, w') => (Ok (Json (mkClockSyncReply true r (SERVER_ID n))), w')
   | (Throw _, w') => (Ok (Status500 "Failed to sync clock"), w')
   end).
Proof.
  intros H. unfold parsed_clientTime.
  destruct c as [c|]; [destruct (c =? 0) eqn:E|];
    rewrite (performClockSync_run _ _ _ n) by exact H;
    run H; rewrite ?E; run H; reflexivity.
Qed.

Lemma post_replicate_booking_run self body w n :
  nodes w !! self = Some n ->
  app env self (PostReplicateBooking body) w =
  let now := clock env self (tick w) in
  match DB.createBooking (open_file w (dbPath n)) (Ev.doctorId body)
          (Ev.patientName body) (Ev.slotTime body) (Ev.confirmationId body)
          (Ev.serverId body) now with
  | (inl _, d) =>
      (Ok (Status500 "Failed to replicate booking"),
       mkWorld (nodes w) (<[dbPath n := d]> (files w)) (S (tick w)) (sent w))
  | (inr _, d) =>
      (Ok (Json (mkAck true "Booking replicated")),
       mkWorld (nodes w)
         (<[dbPath n := snd (DB.bookSlot d (Ev.doctorId body) (Ev.slotTime body))]>
            (files w))
         (S (tick w)) (sent w))
  end.
Proof.
  intros H. run H.
  destruct (DB.createBooking _ _ _ _ _ _ _) as [[e|r] d]; run H.
  - reflexivity.
  - unfold open_file. red_w. rewrite lookup_insert_eq. cbn [default].
    rewrite insert_insert_eq. reflexivity.
Qed.

Lemma post_replicate_slot_run self di st w n :
  nodes w !! self = Some n ->
  app env self (PostReplicateSlot di st) w =
  (Ok (Json (mkAck true "Slot update replicated")),
   set_files w
     (<[dbPath n := snd (DB.bookSlot (open_file w (dbPath n)) di st)]> (files w))).
Proof. intros H. run H. reflexivity. Qed.

Lemma get_health_run self w n :
  nodes w !! self = Some n ->
  app env self GetHealth w =
  (Ok (Json (mkHealth "healthy" (SERVER_ID n) (port (distManager n))
               (clock env self (tick w)))),
   set_tick w (S (tick w))).
Proof. intros H. run H. reflexivity. Qed.

End Runs.

(** ** The transport and the peers behind it *)

Section Transport.
Variable env : Env.

Ltac by_run H H' :=
  first
    [ rewrite (post_election_run env _ _ _ _ _ H'), (post_election_run env _ _ _ _ _ H)
    | rewrite (post_leader_update_run env _ _ _ _ _ H'), (post_leader_update_run env _ _ _ _ _ H)
    | rewrite (post_clock_sync_run env _ _ _ _ H'), (post_clock_sync_run env _ _ _ _ H),
        (performClockSync_run env _ _ _ _ H'), (performClockSync_run env _ _ _ _ H)
    | rewrite (get_clock_sync_run env _ _ _ _ H'), (get_clock_sync_run env _ _ _ _ H)
    | rewrite (post_replicate_booking_run env _ _ _ _ H'), (post_replicate_booking_run env _ _ _ _ H)
    | rewrite (post_replicate_slot_run env _ _ _ _ _ H'), (post_replicate_slot_run env _ _ _ _ _ H)
    | rewrite (get_health_run env _ _ _ H'), (get_health_run env _ _ _ H) ].

Lemma app_set_sent to {A} (req : Request A) w l :
  app env to req (set_sent w l) =
  (fst (app env to req w), set_sent (snd (app env to req w)) l).
Proof.
  destruct (nodes w !! to) as [n|] eqn:H.
  2:{ assert (H' : nodes (set_sent w l) !! to = None) by exact H.
      destruct req; unfold_m; red_w; rewrite ?H; reflexivity. }
  assert (H' : nodes (set_sent w l) !! to = Some n) by exact H.
  destruct req; by_run H H'.
  - destruct (js_lt _ _); reflexivity.
  - reflexivity.
  - reflexivity.
  - unfold parsed_clientTime. red_w.
    destruct clientTime as [c|]; [destruct (c =? 0)|];
      rewrite (performClockSync_run env _ _ _ n), (performClockSync_run env _ _ (set_tick w _) n) by exact H;
      reflexivity.
  - cbv zeta. unfold open_file. red_w.
    destruct (DB.createBooking _ _ _ _ _ _ _) as [[e|r] d]; reflexivity.
  - reflexivity.
  - reflexivity.
Qed.


Lemma app_shape to {A} (req : Request A) w n :
  nodes w !! to = Some n ->
  exists r n' fs k,
    app env to req w = (Ok r, mkWorld (<[to := n']> (nodes w)) fs k (sent w)) /\
    dbPath n' = dbPath n /\
    set_isLeader (distManager n') (isLeader (distManager n)) = distManager n /\
    (tick w <= k)%nat.
Proof.
  intros H.
  assert (Hid : <[to := n]> (nodes w) = nodes w) by (apply insert_id; exact H).
  assert (Hm : set_isLeader (distManager n) (isLeader (distManager n)) = distManager n)
    by (destruct n as [[] ? ?]; reflexivity).
  destruct req.
  - rewrite (post_election_run env _ _ _ _ _ H). destruct (js_lt _ _).
    + eexists _, _, _, _. split; [reflexivity|]. repeat split; auto.
    + exists (Json (mkAck false "Server acknowledges election")), n, (files w), (tick w).
      split; [rewrite Hid; destruct w; reflexivity|]. repeat split; auto.
  - rewrite (post_leader_update_run env _ _ _ _ _ H).
    eexists _, _, _, _. split; [reflexivity|]. repeat split; auto.
  - rewrite (post_clock_sync_run env _ _ _ _ H), (performClockSync_run env _ _ _ _ H).
    eexists _, n, _, _. split; [rewrite Hid; reflexivity|]. repeat split; auto; simpl; lia.
  - rewrite (get_clock_sync_run env _ _ _ _ H).
    destruct (parsed_clientTime env to clientTime w) as [T k] eqn:E.
    rewrite (performClockSync_run env _ _ (set_tick w _) n) by exact H.
    eexists _, n, _, _. split; [rewrite Hid; reflexivity|]. repeat split; auto; simpl; lia.
  - rewrite (post_replicate_booking_run env _ _ _ _ H). cbv zeta.
    destruct (DB.createBooking _ _ _ _ _ _ _) as [[e|r] d];
      (eexists _, n, _, _; split; [rewrite Hid; reflexivity|]; repeat split; auto).
  - rewrite (post_replicate_slot_run env _ _ _ _ _ H).
    eexists _, n, _, _. split; [rewrite Hid; reflexivity|]. repeat split; auto.
  - rewrite (get_health_run env _ _ _ H).
    eexists _, n, _, _. split; [rewrite Hid; reflexivity|]. repeat split; auto.
Qed.

Lemma answers_reachable w p : answers env w p = true -> reachable env w p = true.
Proof.
  unfold answers, reachable. destruct (link env p), (nodes w !! p); auto.
Qed.

Lemma axios_run self to {A} (req : Request A) t w :
  axios env self to req t w =
  let w0 := logged w (mkOutCall self to (route_of req) t) in
  if reachable env w to
  then if answers env w to
       then match app env to req w0 with
            | (Ok (Json data), w') => (Ok data, w')
            | (Ok (Status500 _), w') => (Throw (ERR_BAD_RESPONSE 500), w')
            | (Throw _, w') => (Throw (ERR_BAD_RESPONSE 500), w')
            end
       else (Throw ECONNABORTED, snd (app env to req w0))
  else (Throw (match link env to with Down e => e | _ => ECONNREFUSED end), w0).
Proof.
  unfold axios, bind, throw, reachable, answers, logged. red_w.
  destruct (link env to); red_w; destruct (nodes w !! to); reflexivity.
Qed.

Lemma attempt_run self to {A} (req : Request A) t w :
  try_catch (_ <- axios env self to req t ;; ret tt) (fun _ => ret tt) w =
  (Ok tt,
   let w0 := logged w (mkOutCall self to (route_of req) t) in
   if reachable env w to then snd (app env to req w0) else w0).
Proof.
  unfold try_catch, bind. rewrite axios_run. cbv zeta.
  destruct (reachable env w to); [|reflexivity].
  destruct (answers env w to); [|reflexivity].
  destruct (app env to req _) as [[[d|e]|e] w']; reflexivity.
Qed.

End Transport.

(** ** Fan-out *)

Section FanOut.
Variable env : Env.

Lemma same_state_refl w : same_state w w.
Proof. repeat split. Qed.

Lemma same_state_trans w1 w2 w3 :
  same_state w1 w2 -> same_state w2 w3 -> same_state w1 w3.
Proof. unfold same_state. intros (?&?&?) (?&?&?). repeat split; congruence. Qed.

Lemma same_state_set_sent w l : same_state (set_sent w l) w.
Proof. repeat split. Qed.

Lemma same_state_eq w1 w2 : same_state w1 w2 -> w1 = set_sent w2 (sent w1).
Proof.
  destruct w1, w2. unfold same_state, set_sent. simpl. intros (?&?&?). congruence.
Qed.

Lemma app_same_state to {A} (req : Request A) w1 w2 :
  same_state w1 w2 ->
  same_state (exec (app env to req) w1) (exec (app env to req) w2).
Proof.
  intros H. rewrite (same_state_eq _ _ H). unfold exec.
  rewrite app_set_sent. apply same_state_set_sent.
Qed.

Lemma deliver_all_same_state {A} (req : Request A) ports w1 w2 :
  same_state w1 w2 ->
  same_state (deliver_all env req ports w1) (deliver_all env req ports w2).
Proof.
  revert w1 w2. induction ports as [|p ports IH]; intros w1 w2 H; simpl; [exact H|].
  apply IH, app_same_state, H.
Qed.

Lemma reachable_insert w to n n' p :
  nodes w !! to = Some n ->
  reachable env (set_nodes w (<[to := n']> (nodes w))) p = reachable env w p.
Proof.
  intros H. unfold reachable. red_w.
  assert (E : is_Some (<[to := n']> (nodes w) !! p) <-> is_Some (nodes w !! p)).
  { destruct (decide (to = p)) as [->|Hne].
    - rewrite lookup_insert_eq, H. split; eauto.
    - rewrite lookup_insert_ne by exact Hne. reflexivity. }
  destruct (link env p); try reflexivity;
    destruct (<[to := n']> (nodes w) !! p), (nodes w !! p); try reflexivity;
    exfalso; destruct E as [E1 E2];
    first [destruct E1 as [? ?]; [eauto|discriminate]
          |destruct E2 as [? ?]; [eauto|discriminate]].
Qed.

Lemma reachable_node w p :
  reachable env w p = true -> exists n, nodes w !! p = Some n.
Proof.
  unfold reachable. destruct (nodes w !! p) as [n|]; [eauto|].
  destruct (link env p); discriminate.
Qed.

Lemma reachable_nodes w1 w2 p :
  nodes w1 = nodes w2 -> reachable env w1 p = reachable env w2 p.
Proof. unfold reachable. intros ->. reflexivity. Qed.

Lemma app_reachable to {A} (req : Request A) w p :
  reachable env w to = true ->
  reachable env (exec (app env to req) w) p = reachable env w p.
Proof.
  intros Hr. destruct (reachable_node w to Hr) as [n H].
  destruct (app_shape env to req w n H) as (r & n' & fs & k & E & _).
  unfold exec. rewrite E. cbn [snd].
  rewrite <- (reachable_insert w to n n' p H). apply reachable_nodes. reflexivity.
Qed.

Lemma fan_step_reachable self {A} (req : Request A) t w s p :
  reachable env (fan_step env self req t w s) p = reachable env w p.
Proof.
  unfold fan_step. cbv zeta.
  destruct (reachable env w (Srv.port s)) eqn:Hr; [|reflexivity].
  rewrite app_reachable; [reflexivity|exact Hr].
Qed.

Lemma fan_step_sent self {A} (req : Request A) t w s :
  sent (fan_step env self req t w s) =
  (sent w ++ [call_to self (route_of req) t s])%list.
Proof.
  unfold fan_step. cbv zeta.
  destruct (reachable env w (Srv.port s)) eqn:Hr; [|reflexivity].
  unfold exec, logged. rewrite app_set_sent. reflexivity.
Qed.

Lemma fan_step_state self {A} (req : Request A) t w s :
  same_state (fan_step env self req t w s)
    (if reachable env w (Srv.port s) then exec (app env (Srv.port s) req) w else w).
Proof.
  unfold fan_step. cbv zeta.
  destruct (reachable env w (Srv.port s)).
  - apply app_same_state, same_state_set_sent.
  - apply same_state_set_sent.
Qed.

Lemma fan_out_run self {A} (req : Request A) t l w :
  fan_out env self req t l w = (Ok tt, fold_left (fan_step env self req t) l w).
Proof.
  revert w. induction l as [|s l IH]; intros w; [reflexivity|].
  unfold fan_out in *. cbn [for_of fold_left]. unfold bind at 1.
  rewrite attempt_run. apply IH.
Qed.

Lemma fan_fold_sent self {A} (req : Request A) t l w :
  sent (fold_left (fan_step env self req t) l w) =
  (sent w ++ List.map (call_to self (route_of req) t) l)%list.
Proof.
  revert w. induction l as [|s l IH]; intros w; cbn [fold_left List.map].
  - rewrite app_nil_r. reflexivity.
  - rewrite IH, fan_step_sent, <- app_assoc. reflexivity.
Qed.

Lemma fan_fold_state self {A} (req : Request A) t l w :
  same_state (fold_left (fan_step env self req t) l w)
    (deliver_all env req
       (List.filter (reachable env w) (List.map Srv.port l)) w).
Proof.
  revert w. induction l as [|s l IH]; intros w; cbn [fold_left List.map List.filter].
  - apply same_state_refl.
  - eapply same_state_trans; [apply IH|].
    rewrite (List.filter_ext _ (reachable env w))
      by (intros p; apply fan_step_reachable).
    pose proof (fan_step_state self req t w s) as Hs.
    destruct (reachable env w (Srv.port s)); cbn [deliver_all];
      apply deliver_all_same_state, Hs.
Qed.

End FanOut.

Section Stands.
Variable env : Env.

Lemma slots_kept_refl l : Forall2 slot_kept l l.
Proof. induction l; constructor; [repeat split; auto|assumption]. Qed.

Lemma slots_kept_trans l1 l2 l3 :
  Forall2 slot_kept l1 l2 -> Forall2 slot_kept l2 l3 -> Forall2 slot_kept l1 l3.
Proof.
  intros H. revert l3. induction H as [|a b l1 l2 Hab _ IH]; intros l3 H'.
  - inversion H'. constructor.
  - inversion H' as [|b' c l2' l3' Hbc Hrest]; subst. constructor; [|apply IH, Hrest].
    destruct Hab as (?&?&?&Ha), Hbc as (?&?&?&Hb).
    repeat split; try congruence.
    destruct Hb as [Hb|Hb]; [rewrite Hb; exact Ha|right; exact Hb].
Qed.

Lemma stands_refl d : stands d d.
Proof.
  split; [exists []; rewrite app_nil_r; reflexivity|].
  split; [apply slots_kept_refl|reflexivity].
Qed.

Lemma stands_trans d1 d2 d3 : stands d1 d2 -> stands d2 d3 -> stands d1 d3.
Proof.
  intros ([m1 H1] & S1 & V1) ([m2 H2] & S2 & V2). split; [|split].
  - exists (m1 ++ m2)%list. rewrite H2, H1, app_assoc. reflexivity.
  - apply (slots_kept_trans _ _ _ S1 S2).
  - congruence.
Qed.

Lemma bookSlot_stands d di st : stands d (snd (DB.bookSlot d di st)).
Proof.
  split; [exists []; rewrite app_nil_r; reflexivity|]. split; [|reflexivity].
  unfold DB.bookSlot, DB.with_slots. cbn [snd DB.slots].
  induction (DB.slots d) as [|r l IH]; cbn [List.map]; constructor; [|exact IH].
  destruct (DB.slot_matches di st r); repeat split; auto.
Qed.

Lemma createBooking_stands d di pn st ci si now :
  stands d (snd (DB.createBooking d di pn st ci si now)).
Proof.
  unfold DB.createBooking.
  destruct di, pn, st, ci, si; try apply stands_refl.
  destruct (DB.has_confirmation _ _); [apply stands_refl|].
  split; [eexists; reflexivity|]. split; [apply slots_kept_refl|reflexivity].
Qed.

Lemma open_file_insert ns (fs : gmap string DB.Database) k l p d path :
  open_file (mkWorld ns (<[p := d]> fs) k l) path =
  if decide (p = path) then d else default DB.init (fs !! path).
Proof.
  unfold open_file. red_w. destruct (decide (p = path)) as [->|Hne].
  - rewrite lookup_insert_eq. reflexivity.
  - rewrite lookup_insert_ne by exact Hne. reflexivity.
Qed.

Lemma app_replicate_stands to ev w n path :
  nodes w !! to = Some n ->
  stands (open_file w path) (open_file (exec (app env to (request_of ev)) w) path).
Proof.
  intros H. unfold exec. destruct ev as [body|di st]; cbn [request_of].
  - rewrite (post_replicate_booking_run env _ _ _ _ H). cbv zeta.
    pose proof (createBooking_stands (open_file w (dbPath n)) (Ev.doctorId body)
                  (Ev.patientName body) (Ev.slotTime body) (Ev.confirmationId body)
                  (Ev.serverId body) (clock env to (tick w))) as Hc.
    destruct (DB.createBooking _ _ _ _ _ _ _) as [[e|r] d]; cbn [snd] in *;
      rewrite open_file_insert; destruct (decide (dbPath n = path)) as [<-|_];
      try apply stands_refl; try exact Hc.
    eapply stands_trans; [exact Hc|apply bookSlot_stands].
  - rewrite (post_replicate_slot_run env _ _ _ _ _ H). cbn [snd].
    unfold set_files. rewrite open_file_insert.
    destruct (decide (dbPath n = path)) as [<-|_];
      [apply bookSlot_stands|apply stands_refl].
Qed.

Lemma fan_step_stands self ev t w s path :
  stands (open_file w path)
         (open_file (fan_step env self (request_of ev) t w s) path).
Proof.
  unfold fan_step. cbv zeta.
  destruct (reachable env w (Srv.port s)) eqn:Hr; [|apply stands_refl].
  destruct (reachable_node env w _ Hr) as [n H].
  apply (app_replicate_stands _ ev (logged w _) n path H).
Qed.

Lemma fan_fold_stands self ev t l w path :
  stands (open_file w path)
         (open_file (fold_left (fan_step env self (request_of ev) t) l w) path).
Proof.
  revert w. induction l as [|s l IH]; intros w; cbn [fold_left]; [apply stands_refl|].
  eapply stands_trans; [apply fan_step_stands|apply IH].
Qed.

Lemma replicate_fan_out self ev w n :
  nodes w !! self = Some n ->
  replicate env self ev w =
  fan_out env self (request_of ev) 2000 (others (distManager n)) w.
Proof.
  intros H. destruct ev; unfold replicate, replicateBooking, replicateSlotUpdate,
    fan_out, this, get_node, bind, ret; rewrite H; reflexivity.
Qed.

End Stands.


(** ** Replication *)

(** C6. For every replication event and every set of unreachable peers,
    [replicate] returns normally; it issues exactly one call, with a 2000 ms
    timeout, to each server of the membership list other than the caller,
    in list order and whatever happened to the earlier calls; processes and
    stores end in the state they would be in had the event been handed only
    to the peers it reaches (a peer whose answer comes too late has handled
    it all the same); and in every store, the caller's included, every
    booking row is still in place, no slot has been freed and the [servers]
    table is untouched. *)
Theorem replicate_is_best_effort env w self n ev :
  nodes w !! self = Some n ->
  let peers := others (distManager n) in
  let w' := exec (replicate env self ev) w in
  eval (replicate env self ev) w = Ok tt /\
  (forall s, In s peers <-> In s (servers (distManager n)) /\ Srv.id s <> serverId (distManager n)) /\
  sent w' = (sent w ++ List.map (call_to self (route_of (request_of ev)) 2000) peers)%list /\
  same_state w'
    (deliver_all env (request_of ev)
       (List.filter (reachable env w) (List.map Srv.port peers)) w) /\
  (forall path, stands (open_file w path) (open_file w' path)).
Proof.
  intros H peers w'. subst peers w'. unfold eval, exec.
  rewrite (replicate_fan_out env self ev w n H), fan_out_run. cbn [fst snd].
  split; [reflexivity|]. split.
  - intros s. unfold others. rewrite filter_In, negb_true_iff, Z.eqb_neq. reflexivity.
  - split; [apply fan_fold_sent|]. split; [apply fan_fold_state|].
    intros path. apply fan_fold_stands.
Qed.

Lemma replicate_is_best_effort_witness :
  nodes cluster_own !! 5001 = Some (node_at 1 "n1/hospital.db") /\
  let env := env_3_down in
  let w := cluster_own in
  let ev := BookingCreated booking_CONF1 in
  let peers := others (distManager (node_at 1 "n1/hospital.db")) in
  let w' := exec (replicate env 5001 ev) w in
  eval (replicate env 5001 ev) w = Ok tt /\
  (forall s, In s peers <->
             In s (servers (distManager (node_at 1 "n1/hospital.db"))) /\
             Srv.id s <> serverId (distManager (node_at 1 "n1/hospital.db"))) /\
  sent w' = (sent w ++ List.map (call_to 5001 (route_of (request_of ev)) 2000) peers)%list /\
  same_state w'
    (deliver_all env (request_of ev)
       (List.filter (reachable env w) (List.map Srv.port peers)) w) /\
  (forall path, stands (open_file w path) (open_file w' path)).
Proof.
  split; [reflexivity|].
  apply (replicate_is_best_effort env_3_down cluster_own 5001
           (node_at 1 "n1/hospital.db") (BookingCreated booking_CONF1)).
  reflexivity.
Defined.

(** The scenario of the design document: node 1 replicates a booking while
    node 3 is unreachable.  The call returns, node 2 holds the booking and
    has the slot taken, node 3 is untouched. *)
Example replicate_one_peer_down :
  let w' := exec (replicate env_3_down 5001 (BookingCreated booking_CONF1)) cluster_own in
  eval (replicate env_3_down 5001 (BookingCreated booking_CONF1)) cluster_own = Ok tt /\
  DB.bookings (file_of w' 5002) = [DB.mkBooking 1 1 "Asha" "09:00" "CONF1" 1000 1] /\
  DB.slots (file_of w' 5002) =
    [DB.mkSlot 1 1 "09:00" 0; DB.mkSlot 2 1 "09:30" 1; DB.mkSlot 3 2 "10:00" 1] /\
  file_of w' 5003 = file_of cluster_own 5003 /\
  file_of w' 5001 = file_of cluster_own 5001.
Proof. vm_compute. repeat split. Qed.

(** ** Replayed events *)

Section Replay.
Variable env : Env.

Lemma createBooking_rejected d di pn st ci si now e d' :
  DB.createBooking d di pn st ci si now = (inl e, d') ->
  d' = d /\ forall now', DB.createBooking d di pn st ci si now' = (inl e, d).
Proof.
  unfold DB.createBooking.
  destruct di, pn, st, ci, si; try (intros [= <- <-]; split; reflexivity).
  destruct (DB.has_confirmation _ _); [|discriminate].
  intros [= <- <-]; split; reflexivity.
Qed.

Lemma createBooking_accepted d di pn st ci si now r d' :
  DB.createBooking d di pn st ci si now = (inr r, d') ->
  exists c row,
    ci = Some c /\ DB.confirmation_id row = c /\
    DB.has_confirmation c (DB.bookings d) = false /\
    d' = DB.mkDatabase (DB.slots d) (DB.bookings d ++ [row]) (DB.b_id row) (DB.servers d) /\
    forall d'' now', DB.has_confirmation c (DB.bookings d'') = true ->
      DB.createBooking d'' di pn st ci si now' =
      (inl (DB.SQLITE_CONSTRAINT_UNIQUE "bookings.confirmation_id"), d'').
Proof.
  unfold DB.createBooking.
  destruct di as [di|], pn as [pn|], st as [st|], ci as [c|], si as [si|];
    try discriminate.
  destruct (DB.has_confirmation c (DB.bookings d)) eqn:E; [discriminate|].
  intros [= <- <-].
  exists c, (DB.mkBooking (Z.max (DB.bookings_seq d) (DB.max_rowid (DB.bookings d)) + 1)
               di pn st c now si).
  split; [reflexivity|]. split; [reflexivity|]. split; [exact E|].
  split; [reflexivity|]. intros d'' now' ->. reflexivity.
Qed.

Lemma has_confirmation_app c l1 l2 :
  DB.has_confirmation c (l1 ++ l2) =
  DB.has_confirmation c l1 || DB.has_confirmation c l2.
Proof. apply existsb_app. Qed.

Lemma count_confirmation_none c l :
  DB.has_confirmation c l = false ->
  List.filter (fun r => String.eqb (DB.confirmation_id r) c) l = [].
Proof.
  induction l as [|a l IH]; simpl; [reflexivity|].
  destruct (String.eqb (DB.confirmation_id a) c); simpl; [discriminate|exact IH].
Qed.

Lemma bookSlot_bookings d di st :
  DB.bookings (snd (DB.bookSlot d di st)) = DB.bookings d.
Proof. reflexivity. Qed.

Lemma open_file_written ns (fs : gmap string DB.Database) k l p d :
  open_file (mkWorld ns (<[p := d]> fs) k l) p = d.
Proof. unfold open_file. red_w. rewrite lookup_insert_eq. reflexivity. Qed.

Lemma post_replicate_booking_no_process self body w :
  nodes w !! self = None ->
  app env self (PostReplicateBooking body) w =
  (Ok (Status500 "Failed to replicate booking"), set_tick w (S (tick w))).
Proof. intros H. run H. reflexivity. Qed.

Lemma count_confirmation_fresh c d row :
  DB.has_confirmation c (DB.bookings d) = false ->
  DB.confirmation_id row = c ->
  List.length
    (List.filter (fun r => String.eqb (DB.confirmation_id r) c)
       (DB.bookings d ++ [row])) = 1%nat.
Proof.
  intros Hf Hc. rewrite List.filter_app, (count_confirmation_none _ _ Hf).
  simpl. rewrite Hc, String.eqb_refl. reflexivity.
Qed.

End Replay.

(** C1 (as the code has it).  Handing the same [BookingCreated] event to
    the same peer a second time changes nothing: the peer's processes and
    database files are exactly as the first delivery left them, and when
    the first delivery was accepted the second is answered with status 500,
    because [confirmation_id] is [UNIQUE].  For a complete event whose
    confirmation id the peer has not seen, the first delivery is accepted
    and the peer holds exactly one row with that id after one delivery and
    after two. *)
Theorem replayed_booking_adds_no_row env w self body :
  let deliver := app env self (PostReplicateBooking body) in
  let w1 := exec deliver w in
  let w2 := exec deliver w1 in
  nodes w2 = nodes w1 /\ files w2 = files w1 /\
  (eval deliver w = Ok (Json (mkAck true "Booking replicated")) ->
   eval deliver w1 = Ok (Status500 "Failed to replicate booking")) /\
  (forall n c,
     nodes w !! self = Some n -> Ev.confirmationId body = Some c ->
     complete body ->
     DB.has_confirmation c (DB.bookings (file_of w self)) = false ->
     eval deliver w = Ok (Json (mkAck true "Booking replicated")) /\
     DB.count_confirmation c (file_of w1 self) = 1%nat /\
     DB.count_confirmation c (file_of w2 self) = 1%nat).
Proof.
  intros deliver w1 w2. subst w2 w1 deliver. unfold exec, eval.
  destruct (nodes w !! self) as [n|] eqn:H.
  2:{ rewrite (post_replicate_booking_no_process env self body w H). cbn [fst snd].
      rewrite (post_replicate_booking_no_process env self body (set_tick w _) H).
      cbn [fst snd]. repeat split; try discriminate. }
  rewrite (post_replicate_booking_run env self body w n H). cbv zeta.
  destruct (DB.createBooking _ _ _ _ _ _ _) as [[e|r] d] eqn:E; cbn [fst snd].
  - destruct (createBooking_rejected _ _ _ _ _ _ _ _ _ E) as [-> E'].
    erewrite post_replicate_booking_run by exact H. cbv zeta.
    rewrite !open_file_written, E'. red_w.
    rewrite insert_insert_eq.
    split; [reflexivity|]. split; [reflexivity|]. split; [discriminate|].
    intros n0 c [= <-] Hc (Hd & Hp & Hs & Hi) Hf. exfalso.
    unfold file_of in Hf. rewrite H in Hf.
    destruct Hd as [? Hd], Hp as [? Hp], Hs as [? Hs], Hi as [? Hi].
    unfold DB.createBooking in E. rewrite Hc, Hd, Hp, Hs, Hi, Hf in E.
    discriminate.
  - destruct (createBooking_accepted _ _ _ _ _ _ _ _ _ E)
      as (c & row & Hci & Hrow & Hfresh & -> & Hdup).
    erewrite post_replicate_booking_run by exact H. cbv zeta.
    rewrite !open_file_written, Hdup.
    2:{ rewrite bookSlot_bookings. cbn [DB.bookings].
        rewrite has_confirmation_app. simpl. rewrite Hrow, String.eqb_refl.
        apply orb_true_r. }
    red_w. rewrite insert_insert_eq.
    split; [reflexivity|]. split; [reflexivity|]. split; [reflexivity|].
    intros n0 c0 [= <-] Hc _ _. split; [reflexivity|].
    assert (c0 = c) as -> by congruence.
    unfold file_of, DB.count_confirmation. red_w.
    rewrite H, !open_file_written.
    rewrite bookSlot_bookings. cbn [DB.bookings].
    split; apply count_confirmation_fresh; assumption.
Qed.


Lemma replayed_booking_adds_no_row_witness :
  let deliver := app env_up 5002 (PostReplicateBooking booking_CONF1) in
  let w1 := exec deliver cluster_own in
  let w2 := exec deliver w1 in
  (nodes cluster_own !! 5002 = Some (node_at 2 "n2/hospital.db") /\
   Ev.confirmationId booking_CONF1 = Some "CONF1" /\
   complete booking_CONF1 /\
   DB.has_confirmation "CONF1" (DB.bookings (file_of cluster_own 5002)) = false) /\
  eval deliver cluster_own = Ok (Json (mkAck true "Booking replicated")) /\
  eval deliver w1 = Ok (Status500 "Failed to replicate booking") /\
  DB.count_confirmation "CONF1" (file_of w1 5002) = 1%nat /\
  DB.count_confirmation "CONF1" (file_of w2 5002) = 1%nat.
Proof.
  intros deliver w1 w2.
  assert (Hn : nodes cluster_own !! 5002 = Some (node_at 2 "n2/hospital.db"))
    by reflexivity.
  assert (Hc : Ev.confirmationId booking_CONF1 = Some "CONF1") by reflexivity.
  assert (Hk : complete booking_CONF1) by (repeat split; eexists; reflexivity).
  assert (Hf : DB.has_confirmation "CONF1" (DB.bookings (file_of cluster_own 5002)) = false)
    by reflexivity.
  destruct (replayed_booking_adds_no_row env_up cluster_own 5002 booking_CONF1)
    as (_ & _ & Hsecond & Hfresh).
  destruct (Hfresh _ _ Hn Hc Hk Hf) as (Hfirst & H1 & H2).
  split; [exact (conj Hn (conj Hc (conj Hk Hf)))|].
  split; [exact Hfirst|]. split; [exact (Hsecond Hfirst)|].
  split; [exact H1|exact H2].
Defined.

(** C1 as worded fails: after the same event has been delivered twice to
    node 2, its store holds one row with the confirmation id, not two. *)
Lemma replayed_booking_no_duplicate_rows :
  let deliver := app env_up 5002 (PostReplicateBooking booking_CONF1) in
  ~ duplicate_rows "CONF1" (file_of (exec deliver (exec deliver cluster_own)) 5002).
Proof.
  intros deliver. unfold duplicate_rows.
  assert (E : DB.count_confirmation "CONF1"
                (file_of (exec deliver (exec deliver cluster_own)) 5002) = 1%nat)
    by (vm_compute; reflexivity).
  rewrite E. lia.
Qed.

(** ** Election *)

Section Election.
Variable env : Env.

Lemma timers_grew_refl w : timers_grew w w.
Proof.
  split; [reflexivity|]. intros p. destruct (nodes w !! p); [|exact I].
  split; [reflexivity|]. split; [reflexivity|]. exists []. rewrite app_nil_r. reflexivity.
Qed.

Lemma timers_grew_trans w1 w2 w3 :
  timers_grew w1 w2 -> timers_grew w2 w3 -> timers_grew w1 w3.
Proof.
  intros [F1 H1] [F2 H2]. split; [congruence|]. intros p.
  specialize (H1 p). specialize (H2 p).
  destruct (nodes w1 !! p), (nodes w2 !! p), (nodes w3 !! p); try tauto.
  destruct H1 as (?&?&m1&?), H2 as (?&?&m2&?).
  split; [congruence|]. split; [congruence|].
  exists (m1 ++ m2)%list. rewrite app_assoc. congruence.
Qed.

Lemma timers_grew_after_asking self hs w : timers_grew w (after_asking self hs w).
Proof. apply (timers_grew_refl w). Qed.

Lemma timers_grew_timer w w0 p ns :
  nodes w0 = nodes w -> files w0 = files w ->
  nodes w !! p = Some ns ->
  timers_grew w (set_nodes w0 (<[p := with_election_timer ns]> (nodes w))).
Proof.
  intros Hn Hf Hp. split; [exact Hf|]. intros q. red_w.
  destruct (decide (p = q)) as [<-|Hne].
  - rewrite lookup_insert_eq, Hp. split; [reflexivity|]. split; [reflexivity|].
    eexists. reflexivity.
  - rewrite lookup_insert_ne by exact Hne. destruct (nodes w !! q); [|exact I].
    split; [reflexivity|]. split; [reflexivity|]. exists []. rewrite app_nil_r. reflexivity.
Qed.

Lemma asked_timers_grew self m w s : timers_grew w (asked env self m w s).
Proof.
  unfold asked. cbv zeta. destruct (nodes w !! Srv.port s) as [ns|] eqn:Hs.
  - destruct (hears_election env w m s).
    + apply timers_grew_timer; [reflexivity|reflexivity|exact Hs].
    + apply timers_grew_after_asking.
  - apply timers_grew_after_asking.
Qed.

Lemma timers_grew_node w w' p n :
  timers_grew w w' -> nodes w !! p = Some n ->
  exists n', nodes w' !! p = Some n' /\
             distManager n' = distManager n /\ dbPath n' = dbPath n.
Proof.
  intros [_ H] Hp. specialize (H p). rewrite Hp in H.
  destruct (nodes w' !! p) as [n'|]; [|contradiction].
  exists n'. tauto.
Qed.

Lemma timers_grew_reachable w w' p :
  timers_grew w w' -> reachable env w' p = reachable env w p.
Proof.
  intros [_ H]. specialize (H p). unfold reachable.
  destruct (nodes w !! p), (nodes w' !! p); try contradiction; reflexivity.
Qed.

Lemma timers_grew_answers_alive w w' m s :
  timers_grew w w' -> answers_alive env w' m s = answers_alive env w m s.
Proof.
  intros [_ H]. specialize (H (Srv.port s)).
  unfold answers_alive, answers, outranks, SERVER_ID.
  destruct (nodes w !! Srv.port s), (nodes w' !! Srv.port s); try contradiction;
    [|reflexivity].
  destruct H as (-> & _). reflexivity.
Qed.

Lemma timers_grew_open_file w w' path :
  timers_grew w w' -> open_file w' path = open_file w path.
Proof. intros [F _]. unfold open_file. rewrite F. reflexivity. Qed.

Lemma unreachable_not_alive w m s :
  reachable env w (Srv.port s) = false -> answers_alive env w m s = false.
Proof.
  unfold answers_alive. intros Hr.
  destruct (answers env w (Srv.port s)) eqn:E; [|reflexivity].
  apply answers_reachable in E. congruence.
Qed.

(** One election message: the caller learns whether the server answers
    alive, and the world is as [asked] says. *)
Lemma ask_run self s w n :
  nodes w !! self = Some n ->
  ask env self s w =
  (Ok (answers_alive env w (distManager n) s), asked env self (distManager n) w s).
Proof.
  intros H. cbv [ask send_election try_catch bind this get_node Date_now ret].
  rewrite H. red_w. rewrite axios_run. cbv zeta.
  unfold asked, answers_alive, hears_election, outranks. cbv zeta.
  change (reachable env (set_tick w (S (tick w))) (Srv.port s))
    with (reachable env w (Srv.port s)).
  change (answers env (set_tick w (S (tick w))) (Srv.port s))
    with (answers env w (Srv.port s)).
  destruct (reachable env w (Srv.port s)) eqn:Hr.
  - destruct (reachable_node env w _ Hr) as [ns Hs]. rewrite Hs.
    erewrite post_election_run by exact Hs. cbn [js_lt andb].
    destruct (answers env w (Srv.port s));
      destruct (serverId (distManager n) <? SERVER_ID ns); reflexivity.
  - assert (Ha : answers env w (Srv.port s) = false).
    { destruct (answers env w (Srv.port s)) eqn:E; [|reflexivity].
      apply answers_reachable in E. congruence. }
    rewrite Ha. cbn [andb]. destruct (nodes w !! Srv.port s); reflexivity.
Qed.

Lemma asked_sent self m w s :
  sent (asked env self m w s) = (sent w ++ [call_to self R_election 2000 s])%list.
Proof.
  unfold asked. cbv zeta. destruct (nodes w !! Srv.port s); [|reflexivity].
  destruct (hears_election env w m s); reflexivity.
Qed.

Lemma asked_fold_timers_grew self m hs w :
  timers_grew w (fold_left (asked env self m) hs w).
Proof.
  revert w. induction hs as [|s hs IH]; intros w; cbn [fold_left].
  - apply timers_grew_refl.
  - eapply timers_grew_trans; [apply asked_timers_grew|apply IH].
Qed.

Lemma asked_fold_sent self m hs w :
  sent (fold_left (asked env self m) hs w) =
  (sent w ++ List.map (call_to self R_election 2000) hs)%list.
Proof.
  revert w. induction hs as [|s hs IH]; intros w; cbn [fold_left List.map].
  - rewrite app_nil_r. reflexivity.
  - rewrite IH, asked_sent, <- app_assoc. reflexivity.
Qed.

Lemma election_loop_none_alive self hs k w n :
  nodes w !! self = Some n ->
  (forall s, In s hs -> answers_alive env w (distManager n) s = false) ->
  election_loop env self hs k w =
  (Ok (Some (k + Z.of_nat (List.length hs))),
   fold_left (asked env self (distManager n)) hs w).
Proof.
  revert k w n. induction hs as [|s hs IH]; intros k w n H Hall.
  - cbn. unfold ret. rewrite Z.add_0_r. reflexivity.
  - cbn [election_loop fold_left]. fold (ask env self s). unfold bind at 1.
    rewrite (ask_run self s w n H), (Hall s) by (left; reflexivity).
    pose proof (asked_timers_grew self (distManager n) w s) as Hg.
    destruct (timers_grew_node _ _ _ _ Hg H) as (n' & Hn' & Hm & _).
    rewrite (IH (k + 1) _ n' Hn'), Hm.
    + cbn [List.length]. f_equal. f_equal. f_equal. lia.
    + intros s' Hs'. rewrite Hm, (timers_grew_answers_alive _ _ _ _ Hg).
      apply Hall. right. exact Hs'.
Qed.

Lemma election_loop_abort self pre s post k w n :
  nodes w !! self = Some n ->
  (forall s', In s' pre -> answers_alive env w (distManager n) s' = false) ->
  answers_alive env w (distManager n) s = true ->
  election_loop env self (pre ++ s :: post) k w =
  (Ok None, fold_left (asked env self (distManager n)) (pre ++ [s]) w).
Proof.
  revert k w n. induction pre as [|p pre IH]; intros k w n H Hall Ha.
  - cbn [List.app election_loop fold_left]. fold (ask env self s). unfold bind at 1.
    rewrite (ask_run self s w n H), Ha. reflexivity.
  - cbn [List.app election_loop fold_left]. fold (ask env self p). unfold bind at 1.
    rewrite (ask_run self p w n H), (Hall p) by (left; reflexivity).
    pose proof (asked_timers_grew self (distManager n) w p) as Hg.
    destruct (timers_grew_node _ _ _ _ Hg H) as (n' & Hn' & Hm & _).
    rewrite (IH (k + 1) _ n' Hn'), Hm.
    + reflexivity.
    + intros s' Hs'. rewrite Hm, (timers_grew_answers_alive _ _ _ _ Hg).
      apply Hall. right. exact Hs'.
    + rewrite Hm, (timers_grew_answers_alive _ _ _ _ Hg). exact Ha.
Qed.

(** A server that answers alive has its own election pending afterwards. *)
Lemma asked_fold_pending self m pre s w :
  answers_alive env w m s = true ->
  exists ns', nodes (fold_left (asked env self m) (pre ++ [s]) w) !! Srv.port s = Some ns' /\
              In (mkTimer 1000 PerformBullyElection) (timers ns').
Proof.
  intros Ha. rewrite fold_left_app. cbn [fold_left].
  set (w1 := fold_left (asked env self m) pre w).
  assert (Hg : timers_grew w w1) by apply asked_fold_timers_grew.
  rewrite <- (timers_grew_answers_alive _ _ m s Hg) in Ha.
  unfold answers_alive in Ha. apply andb_true_iff in Ha as [Hans Hout].
  unfold asked. cbv zeta. unfold hears_election.
  rewrite (answers_reachable env _ _ Hans), Hout. cbn [andb].
  unfold outranks in Hout.
  destruct (nodes w1 !! Srv.port s) as [ns|] eqn:Hs; [|discriminate].
  red_w. rewrite lookup_insert_eq. eexists. split; [reflexivity|].
  cbn [timers with_election_timer]. apply in_or_app. right. left. reflexivity.
Qed.

Lemma first_true {A} (p : A -> bool) (l : list A) :
  (forall x, In x l -> p x = false) \/
  (exists pre s post,
     l = (pre ++ s :: post)%list /\ (forall x, In x pre -> p x = false) /\ p s = true).
Proof.
  induction l as [|a l IH]; [left; intros x []|].
  destruct (p a) eqn:E.
  - right. exists [], a, l. split; [reflexivity|]. split; [intros x []|exact E].
  - destruct IH as [Hall|(pre & s & post & -> & Hpre & Hs)].
    + left. intros x [<-|Hx]; [exact E|apply Hall, Hx].
    + right. exists (a :: pre), s, post. split; [reflexivity|]. split; [|exact Hs].
      intros x [<-|Hx]; [exact E|apply Hpre, Hx].
Qed.

Lemma for_of_fold {A} (I : World -> Prop) (body : A -> M unit)
    (step : World -> A -> World) l :
  (forall x w, I w -> body x w = (Ok tt, step w x) /\ I (step w x)) ->
  forall w, I w ->
    for_of l body w = (Ok tt, fold_left step l w) /\ I (fold_left step l w).
Proof.
  intros Hstep. induction l as [|x l IH]; intros w Hw; cbn [for_of fold_left].
  - split; [reflexivity|exact Hw].
  - destruct (Hstep x w Hw) as [E Hw']. unfold bind at 1. rewrite E. apply IH, Hw'.
Qed.

Lemma notify_one_run self s w n :
  nodes w !! self = Some n ->
  notify_one env self s w =
  (Ok tt, notified env self (serverId (distManager n)) w s).
Proof.
  intros H. cbv [notify_one try_catch bind this get_node Date_now ret].
  rewrite H. red_w. rewrite axios_run. cbv zeta. unfold notified. cbv zeta.
  assert (Hr : reachable env (set_tick w (S (tick w))) (Srv.port s)
               = reachable env w (Srv.port s)) by reflexivity.
  rewrite Hr. destruct (reachable env w (Srv.port s)); [|reflexivity].
  unfold exec, call_to. cbn [route_of].
  destruct (answers env _ _); [|reflexivity].
  destruct (app env _ _ _) as [[[d|e]|e] w']; reflexivity.
Qed.

Lemma setLeader_leader_is d sid : leader_is sid (snd (DB.setLeader d (Some sid))).
Proof.
  unfold leader_is. rewrite setLeader_rows. intros r Hr.
  apply in_map_iff in Hr as (r0 & <- & _). reflexivity.
Qed.

Lemma updateServerStatus_leader_is d sid c st now :
  leader_is sid d ->
  leader_is sid (snd (DB.updateServerStatus d (Some sid) c true st now)).
Proof.
  unfold leader_is, DB.updateServerStatus, DB.with_servers. cbn [snd DB.servers].
  intros H r Hr. apply in_map_iff in Hr as (r0 & <- & Hr0).
  cbn [DB.id_is]. destruct (DB.id r0 =? sid) eqn:E; cbn [DB.id DB.is_leader].
  - rewrite E. reflexivity.
  - rewrite (H r0 Hr0), E. reflexivity.
Qed.

Lemma updateServerStatus_primary_key d sid c b st now :
  primary_key d -> primary_key (snd (DB.updateServerStatus d sid c b st now)).
Proof.
  unfold primary_key, DB.updateServerStatus, DB.with_servers. cbn [snd DB.servers].
  rewrite List.map_map. intros H. erewrite List.map_ext; [exact H|].
  intros r. cbn beta. destruct (DB.id_is sid r); reflexivity.
Qed.

Lemma leader_is_one sid d :
  primary_key d -> leader_is sid d -> at_most_one_leader d.
Proof.
  unfold primary_key, leader_is, at_most_one_leader, DB.leader_rows. intros Hpk H.
  transitivity (List.length (List.filter (DB.id_is (Some sid)) (DB.servers d))).
  2: apply filter_id_le_1, Hpk.
  apply Nat.eq_le_incl. clear Hpk.
  induction (DB.servers d) as [|a l IH]; [reflexivity|]. cbn [List.filter DB.id_is].
  rewrite (H a) by (left; reflexivity).
  assert (IH' := IH (fun r Hr => H r (or_intror Hr))). cbn [DB.id_is] in IH'.
  destruct (DB.id a =? sid); cbn [negb Z.eqb List.length]; rewrite IH'; reflexivity.
Qed.

Lemma notified_leading self m0 path d0 w s :
  leading self m0 path d0 w ->
  leading self m0 path d0 (notified env self (serverId m0) w s).
Proof.
  intros ((n & Hn & Hm & Hp) & Hl & Hpk). unfold notified. cbv zeta.
  destruct (reachable env w (Srv.port s)) eqn:Hr.
  2:{ split; [exists n; auto|]. split; assumption. }
  destruct (reachable_node env w _ Hr) as [ns Hs].
  unfold exec. erewrite post_leader_update_run by exact Hs. cbn [snd].
  split; [|split].
  - red_w. destruct (decide (Srv.port s = self)) as [E|E].
    + rewrite E in *. rewrite lookup_insert_eq.
      assert (ns = n) as -> by congruence.
      eexists. split; [reflexivity|]. split; [|exact Hp].
      cbn [distManager set_manager]. unfold SERVER_ID. rewrite Hm.
      cbn [js_eq serverId set_isLeader]. rewrite Z.eqb_refl. reflexivity.
    + rewrite lookup_insert_ne by exact E. exists n. auto.
  - unfold logged, set_sent, set_tick. rewrite open_file_insert.
    destruct (decide (dbPath ns = path)) as [E|E].
    + apply setLeader_leader_is.
    + exact Hl.
  - intros H0. unfold logged, set_sent, set_tick. rewrite open_file_insert.
    destruct (decide (dbPath ns = path)) as [E|E].
    + apply setLeader_primary_key. red_w. unfold open_file in Hpk. rewrite <- E in Hpk.
      apply Hpk, H0.
    + apply Hpk, H0.
Qed.

Lemma bind_ok {A B} (m : M A) (k : A -> M B) w a w' :
  m w = (Ok a, w') -> bind m k w = k a w'.
Proof. unfold bind. intros ->. reflexivity. Qed.

Lemma this_run self w n :
  nodes w !! self = Some n -> this self w = (Ok (distManager n), w).
Proof. intros H. cbv [this bind get_node ret]. rewrite H. reflexivity. Qed.

Lemma update_this_run self f w n :
  nodes w !! self = Some n ->
  update_this self f w =
  (Ok tt, set_nodes w (<[self := set_manager n (f (distManager n))]> (nodes w))).
Proof. intros H. cbv [update_this bind get_node]. rewrite H. reflexivity. Qed.

Lemma db_run_run {A} self (f : DB.Database -> A * DB.Database) w n :
  nodes w !! self = Some n ->
  db_run self f w =
  (Ok (fst (f (open_file w (dbPath n)))),
   set_files w (<[dbPath n := snd (f (open_file w (dbPath n)))]> (files w))).
Proof. intros H. cbv [db_run bind get_node]. rewrite H. reflexivity. Qed.

Lemma Date_now_run self w :
  Date_now env self w = (Ok (clock env self (tick w)), set_tick w (S (tick w))).
Proof. reflexivity. Qed.

Lemma becomeLeader_run self w n :
  nodes w !! self = Some n ->
  exists w',
    becomeLeader env self w = (Ok tt, w') /\
    leading self (distManager n) (dbPath n) (open_file w (dbPath n)) w'.
Proof.
  intros H. unfold becomeLeader.
  set (m := distManager n). set (n1 := set_manager n (set_isLeader m true)).
  rewrite (bind_ok _ _ w tt _ (update_this_run self _ w n H)). fold m n1.
  set (w1 := set_nodes w _).
  assert (H1 : nodes w1 !! self = Some n1) by apply lookup_insert_eq.
  rewrite (bind_ok _ _ w1 _ _ (this_run self w1 n1 H1)).
  rewrite (bind_ok _ _ w1 _ _ (db_run_run self _ w1 n1 H1)).
  set (w2 := set_files w1 _).
  assert (H2 : nodes w2 !! self = Some n1) by exact H1.
  rewrite (bind_ok _ _ w2 _ _ (this_run self w2 n1 H2)).
  rewrite (bind_ok _ _ w2 _ _ (Date_now_run self w2)).
  set (w3 := set_tick w2 _).
  assert (H3 : nodes w3 !! self = Some n1) by exact H1.
  rewrite (bind_ok _ _ w3 _ _ (db_run_run self _ w3 n1 H3)).
  set (w4 := set_files w3 _).
  assert (H4 : nodes w4 !! self = Some n1) by exact H1.
  unfold notifyServersOfNewLeader.
  rewrite (bind_ok _ _ w4 _ _ (this_run self w4 n1 H4)).
  assert (Hinv : leading self m (dbPath n) (open_file w (dbPath n)) w4).
  { split; [exists n1; repeat split; assumption|]. split.
    - subst w4 w3 w2. unfold set_files, set_tick. rewrite open_file_written.
      apply updateServerStatus_leader_is. red_w. rewrite open_file_written.
      apply setLeader_leader_is.
    - intros H0. subst w4 w3 w2. unfold set_files, set_tick.
      rewrite open_file_written. apply updateServerStatus_primary_key.
      red_w. rewrite open_file_written. apply setLeader_primary_key. exact H0. }
  destruct (for_of_fold (leading self m (dbPath n) (open_file w (dbPath n)))
              (notify_one env self) (notified env self (serverId m))
              (others (distManager n1))) with (w := w4) as [E Hfin].
  - intros s w5 Hw5. destruct Hw5 as ((n5 & Hn5 & Hm5 & Hp5) & Hl5 & Hpk5). split.
    + rewrite (notify_one_run self s w5 n5 Hn5), Hm5. reflexivity.
    + apply notified_leading. split; [exists n5; auto|]. split; assumption.
  - exact Hinv.
  - unfold notify_one in E. rewrite E. eexists. split; [reflexivity|exact Hfin].
Qed.

Lemma performBullyElection_run self w n :
  nodes w !! self = Some n ->
  performBullyElection env self w =
  try_catch
    (let higherServers := higher (distManager n) in
     if Z.of_nat (List.length higherServers) =? 0
     then becomeLeader env self
     else
       r <- election_loop env self higherServers 0 ;;
       match r with
       | None => ret tt
       | Some responses =>
           if responses =? Z.of_nat (List.length higherServers)
           then becomeLeader env self
           else ret tt
       end)
    (fun _ => ret tt) w.
Proof.
  intros H. unfold performBullyElection, try_catch.
  rewrite (bind_ok _ _ w _ _ (this_run self w n H)). reflexivity.
Qed.

Lemma performBullyElection_abort self w n w1 :
  nodes w !! self = Some n ->
  higher (distManager n) <> [] ->
  election_loop env self (higher (distManager n)) 0 w = (Ok None, w1) ->
  performBullyElection env self w = (Ok tt, w1).
Proof.
  intros H Hne E. rewrite (performBullyElection_run self w n H). cbv zeta.
  destruct (higher (distManager n)) as [|s l] eqn:Eh; [congruence|].
  unfold try_catch. cbn [List.length]. 
  replace (Z.of_nat (S (List.length l)) =? 0) with false by (symmetry; apply Z.eqb_neq; lia).
  rewrite (bind_ok _ _ w _ _ E). reflexivity.
Qed.

End Election.

(** The three ways an election of a running node can go. *)
Lemma performBullyElection_cases env w self n :
  nodes w !! self = Some n ->
  let m := distManager n in
  let hs := higher m in
  (forall s, reachable env w (Srv.port s) = false -> answers_alive env w m s = false) /\
  (forall s, link env (Srv.port s) <> Up -> answers_alive env w m s = false) /\
  (hs = [] ->
   exists w', performBullyElection env self w = (Ok tt, w') /\
              becomeLeader env self w = (Ok tt, w') /\
              leading self m (dbPath n) (open_file w (dbPath n)) w') /\
  (forall pre s post,
     hs = (pre ++ s :: post)%list ->
     (forall s', In s' pre -> answers_alive env w m s' = false) ->
     answers_alive env w m s = true ->
     exists w',
       performBullyElection env self w = (Ok tt, w') /\
       sent w' = (sent w ++ List.map (call_to self R_election 2000) (pre ++ [s]))%list /\
       timers_grew w w' /\
       (exists n', nodes w' !! self = Some n' /\ distManager n' = m /\
                   (isLeader m = false -> isLeader (distManager n') = false)) /\
       (exists ns', nodes w' !! Srv.port s = Some ns' /\
                    In (mkTimer 1000 PerformBullyElection) (timers ns'))) /\
  (hs <> [] ->
   (forall s, In s hs -> answers_alive env w m s = false) ->
   exists w1 w',
     performBullyElection env self w = (Ok tt, w') /\
     sent w1 = (sent w ++ List.map (call_to self R_election 2000) hs)%list /\
     timers_grew w w1 /\
     becomeLeader env self w1 = (Ok tt, w') /\
     leading self m (dbPath n) (open_file w (dbPath n)) w').
Proof.
  intros H m hs. subst m hs. split; [|split; [|split; [|split]]].
  - intros s. apply unreachable_not_alive.
  - intros s Hl. unfold answers_alive, answers.
    destruct (link env (Srv.port s)); try reflexivity. congruence.
  - intros E. destruct (becomeLeader_run env self w n H) as (w' & Eb & Hl).
    exists w'. rewrite (performBullyElection_run env self w n H). cbv zeta.
    rewrite E. unfold try_catch. cbn [List.length].
    change (Z.of_nat 0 =? 0) with true. cbv iota. rewrite Eb.
    split; [reflexivity|split; [reflexivity|exact Hl]].
  - intros pre s post E Hpre Ha.
    pose proof (election_loop_abort env self pre s post 0 w n H Hpre Ha) as El.
    set (w' := fold_left (asked env self (distManager n)) (pre ++ [s]) w) in *.
    assert (Hg : timers_grew w w') by apply asked_fold_timers_grew.
    exists w'. split; [|split; [|split; [|split]]].
    + apply (performBullyElection_abort env self w n _ H).
      * rewrite E. destruct pre; discriminate.
      * rewrite E. exact El.
    + apply asked_fold_sent.
    + exact Hg.
    + destruct (timers_grew_node _ _ _ _ Hg H) as (n' & Hn' & Hm & _).
      exists n'. split; [exact Hn'|]. split; [exact Hm|]. rewrite Hm. auto.
    + apply asked_fold_pending, Ha.
  - intros Hne Hall.
    set (w1 := fold_left (asked env self (distManager n)) (higher (distManager n)) w).
    assert (Hg : timers_grew w w1) by apply asked_fold_timers_grew.
    destruct (timers_grew_node _ _ _ _ Hg H) as (n1 & Hn1 & Hm & Hp).
    destruct (becomeLeader_run env self w1 n1 Hn1) as (w' & Eb & Hl).
    exists w1, w'. split; [|split; [|split; [|split]]].
    + rewrite (performBullyElection_run env self w n H). cbv zeta.
      pose proof (election_loop_none_alive env self _ 0 w n H Hall) as El.
      fold w1 in El.
      destruct (higher (distManager n)) as [|s l] eqn:Eh; [congruence|].
      unfold try_catch.
      replace (Z.of_nat (List.length (s :: l)) =? 0) with false
        by (symmetry; apply Z.eqb_neq; cbn [List.length]; lia).
      rewrite (bind_ok _ _ w _ _ El), Z.add_0_l, Z.eqb_refl, Eb. reflexivity.
    + apply asked_fold_sent.
    + exact Hg.
    + exact Eb.
    + rewrite Hm, Hp, (timers_grew_open_file _ _ _ Hg) in Hl. exact Hl.
Qed.

(** C3.  [performBullyElection] at a running node.  (1) With no server of
    higher id in its list it does what [becomeLeader] does, and ends as
    leader.  (2) Otherwise it sends the election message, with a 2000 ms
    timeout, to the higher servers in list order; at the first one that
    answers alive it stops: no further message leaves, managers and stores
    are as they were (so a follower is still a follower) and the answering
    peer has its own election pending.  (3) When no higher server answers
    alive, in particular when each of them is unreachable or fails to answer
    in time, all of them have been tried in order, still without a change
    to managers or stores, and the node then does what [becomeLeader] does,
    and ends as leader. *)
Theorem bully_election env w self n :
  nodes w !! self = Some n ->
  let m := distManager n in
  let hs := higher m in
  (forall s, reachable env w (Srv.port s) = false -> answers_alive env w m s = false) /\
  (forall s, link env (Srv.port s) <> Up -> answers_alive env w m s = false) /\
  (hs = [] ->
   exists w', performBullyElection env self w = (Ok tt, w') /\
              becomeLeader env self w = (Ok tt, w') /\
              leading self m (dbPath n) (open_file w (dbPath n)) w') /\
  (forall pre s post,
     hs = (pre ++ s :: post)%list ->
     (forall s', In s' pre -> answers_alive env w m s' = false) ->
     answers_alive env w m s = true ->
     exists w',
       performBullyElection env self w = (Ok tt, w') /\
       sent w' = (sent w ++ List.map (call_to self R_election 2000) (pre ++ [s]))%list /\
       timers_grew w w' /\
       (exists n', nodes w' !! self = Some n' /\ distManager n' = m /\
                   (isLeader m = false -> isLeader (distManager n') = false)) /\
       (exists ns', nodes w' !! Srv.port s = Some ns' /\
                    In (mkTimer 1000 PerformBullyElection) (timers ns'))) /\
  (hs <> [] ->
   (forall s, In s hs -> answers_alive env w m s = false) ->
   exists w1 w',
     performBullyElection env self w = (Ok tt, w') /\
     sent w1 = (sent w ++ List.map (call_to self R_election 2000) hs)%list /\
     timers_grew w w1 /\
     becomeLeader env self w1 = (Ok tt, w') /\
     leading self m (dbPath n) (open_file w (dbPath n)) w').
Proof. exact (performBullyElection_cases env w self n). Qed.

Lemma bully_election_witness :
  (nodes cluster_own !! 5003 = Some (node_at 3 "n3/hospital.db") /\
   higher (distManager (node_at 3 "n3/hospital.db")) = [] /\
   exists w', performBullyElection env_up 5003 cluster_own = (Ok tt, w') /\
              becomeLeader env_up 5003 cluster_own = (Ok tt, w') /\
              leading 5003 (distManager (node_at 3 "n3/hospital.db"))
                "n3/hospital.db" seeded w') /\
  (nodes cluster_own !! 5001 = Some (node_at 1 "n1/hospital.db") /\
   answers_alive env_3_down cluster_own (distManager (node_at 1 "n1/hospital.db"))
     (Srv.mk 2 "Server-Delhi" 5002) = true /\
   exists w',
     performBullyElection env_3_down 5001 cluster_own = (Ok tt, w') /\
     sent w' = (sent cluster_own ++
                List.map (call_to 5001 R_election 2000)
                  ([] ++ [Srv.mk 2 "Server-Delhi" 5002]))%list /\
     timers_grew cluster_own w' /\
     (exists n', nodes w' !! 5001 = Some n' /\
                 distManager n' = distManager (node_at 1 "n1/hospital.db") /\
                 (isLeader (distManager (node_at 1 "n1/hospital.db")) = false ->
                  isLeader (distManager n') = false)) /\
     (exists ns', nodes w' !! 5002 = Some ns' /\
                  In (mkTimer 1000 PerformBullyElection) (timers ns'))) /\
  (nodes cluster_own !! 5002 = Some (node_at 2 "n2/hospital.db") /\
   link env_3_timeout 5003 <> Up /\
   exists w1 w',
     performBullyElection env_3_timeout 5002 cluster_own = (Ok tt, w') /\
     sent w1 = (sent cluster_own ++
                List.map (call_to 5002 R_election 2000)
                  (higher (distManager (node_at 2 "n2/hospital.db"))))%list /\
     timers_grew cluster_own w1 /\
     becomeLeader env_3_timeout 5002 w1 = (Ok tt, w') /\
     leading 5002 (distManager (node_at 2 "n2/hospital.db"))
       "n2/hospital.db" seeded w').
Proof.
  split; [|split].
  - split; [reflexivity|]. split; [reflexivity|].
    apply (proj1 (proj2 (proj2 (bully_election env_up cluster_own 5003
                                  (node_at 3 "n3/hospital.db") eq_refl)))).
    reflexivity.
  - split; [reflexivity|]. split; [reflexivity|].
    apply (proj1 (proj2 (proj2 (proj2 (bully_election env_3_down cluster_own 5001
                                         (node_at 1 "n1/hospital.db") eq_refl))))
             [] (Srv.mk 2 "Server-Delhi" 5002) [Srv.mk 3 "Server-Bangalore" 5003]).
    + reflexivity.
    + intros s' [].
    + reflexivity.
  - split; [reflexivity|]. split; [discriminate|].
    apply (proj2 (proj2 (proj2 (proj2 (bully_election env_3_timeout cluster_own 5002
                                         (node_at 2 "n2/hospital.db") eq_refl))))).
    + discriminate.
    + intros s [<-|[]].
      apply (proj1 (proj2 (bully_election env_3_timeout cluster_own 5002
                             (node_at 2 "n2/hospital.db") eq_refl))).
      discriminate.
Defined.

(** Whatever the peers do, the election of a running node returns: either
    some higher server answers alive and the manager is unchanged, or none
    does and the node ends as leader. *)
Lemma performBullyElection_returns env w self n :
  nodes w !! self = Some n ->
  exists w',
    performBullyElection env self w = (Ok tt, w') /\
    ((exists s, In s (higher (distManager n)) /\
                answers_alive env w (distManager n) s = true /\
                exists n', nodes w' !! self = Some n' /\
                           distManager n' = distManager n) \/
     ((forall s, In s (higher (distManager n)) ->
                 answers_alive env w (distManager n) s = false) /\
      leading self (distManager n) (dbPath n) (open_file w (dbPath n)) w')).
Proof.
  intros H.
  destruct (performBullyElection_cases env w self n H) as (_ & _ & H1 & H2 & H3).
  destruct (first_true (answers_alive env w (distManager n)) (higher (distManager n)))
    as [Hall|(pre & s & post & E & Hpre & Hs)].
  - destruct (higher (distManager n)) as [|s0 l] eqn:Eh.
    + destruct (H1 eq_refl) as (w' & Ep & _ & Hl). exists w'. split; [exact Ep|].
      right. split; [intros s []|exact Hl].
    + destruct (H3 ltac:(discriminate) Hall) as (w1 & w' & Ep & _ & _ & _ & Hl).
      exists w'. split; [exact Ep|]. right. split; [exact Hall|exact Hl].
  - destruct (H2 pre s post E Hpre Hs)
      as (w' & Ep & _ & _ & (n' & Hn' & Hm & _) & _).
    exists w'. split; [exact Ep|]. left. exists s.
    split; [|split; [exact Hs|exists n'; auto]].
    rewrite E. apply in_or_app. right. left. reflexivity.
Qed.

(** The scenario of the design document: nodes 1, 2, 3 with node 3
    unreachable.  Node 1 starts an election, node 2 answers alive and node 1
    stays a follower; node 2's deferred election then finds node 3 silent
    and makes node 2 the leader. *)
Example election_with_node_3_down :
  let w1 := exec (performBullyElection env_3_down 5001) cluster_own in
  let w2 := exec (fire_timer env_3_down 5002) w1 in
  (isLeader <$> (distManager <$> nodes w1 !! 5001)) = Some false /\
  (timers <$> nodes w1 !! 5002) = Some [mkTimer 1000 PerformBullyElection] /\
  (timers <$> nodes w2 !! 5002) = Some [] /\
  (isLeader <$> (distManager <$> nodes w2 !! 5001)) = Some false /\
  (isLeader <$> (distManager <$> nodes w2 !! 5002)) = Some true /\
  List.map DB.id (DB.leader_rows (file_of w2 5002)) = [2].
Proof. vm_compute. repeat split. Qed.

(** ** Election messages *)

Lemma ask_answered env self server w reply w1 :
  send_election env self server w = (Ok reply, w1) ->
  ask env self server w = (Ok (success reply), w1).
Proof.
  intros E. unfold ask, try_catch. rewrite (bind_ok _ _ w _ _ E). reflexivity.
Qed.

(** C7.  A running node with id [SERVER_ID] that receives an election
    message from candidate [c]: when [c < SERVER_ID] it answers
    ["Server is alive"] and leaves one timer of 1000 ms pending whose
    callback is its own [performBullyElection], nothing else changes; when
    [c >= SERVER_ID] it answers ["Server acknowledges election"] and changes
    nothing at all. *)
Theorem election_message_received env w self n c ts :
  nodes w !! self = Some n ->
  (c < SERVER_ID n ->
   app env self (PostElection (Some c) ts) w =
     (Ok (Json (mkAck true "Server is alive")),
      set_nodes w (<[self := with_election_timer n]> (nodes w))) /\
   with_election_timer n =
     mkNode (distManager n) (dbPath n)
       (timers n ++ [mkTimer 1000 PerformBullyElection]) /\
   run_timer env self PerformBullyElection = performBullyElection env self) /\
  (c >= SERVER_ID n ->
   app env self (PostElection (Some c) ts) w =
     (Ok (Json (mkAck false "Server acknowledges election")), w)).
Proof.
  intros H. rewrite (post_election_run env self (Some c) ts w n H). cbn [js_lt].
  split; intros Hc.
  - apply Z.ltb_lt in Hc. rewrite Hc. repeat split.
  - assert (E : (c <? SERVER_ID n) = false) by (apply Z.ltb_ge; lia).
    rewrite E. reflexivity.
Qed.

Lemma election_message_received_witness :
  nodes cluster_own !! 5002 = Some (node_at 2 "n2/hospital.db") /\
  (1 < SERVER_ID (node_at 2 "n2/hospital.db") /\
   app env_up 5002 (PostElection (Some 1) (Some 1000)) cluster_own =
     (Ok (Json (mkAck true "Server is alive")),
      set_nodes cluster_own
        (<[5002 := with_election_timer (node_at 2 "n2/hospital.db")]>
           (nodes cluster_own)))) /\
  (3 >= SERVER_ID (node_at 2 "n2/hospital.db") /\
   app env_up 5002 (PostElection (Some 3) (Some 1000)) cluster_own =
     (Ok (Json (mkAck false "Server acknowledges election")), cluster_own)).
Proof.
  split; [reflexivity|]. split.
  - split; [reflexivity|].
    apply (proj1 (election_message_received env_up cluster_own 5002
                    (node_at 2 "n2/hospital.db") 1 (Some 1000) eq_refl)).
    reflexivity.
  - split; [discriminate|].
    apply (proj2 (election_message_received env_up cluster_own 5002
                    (node_at 2 "n2/hospital.db") 3 (Some 1000) eq_refl)).
    discriminate.
Defined.

(** The loop of an election whose first servers do not answer alive goes
    on with the rest, one response counted for each. *)
Lemma election_loop_prefix env self pre l k w n :
  nodes w !! self = Some n ->
  (forall s, In s pre -> answers_alive env w (distManager n) s = false) ->
  election_loop env self (pre ++ l) k w =
  election_loop env self l (k + Z.of_nat (List.length pre))
    (fold_left (asked env self (distManager n)) pre w).
Proof.
  revert k w n. induction pre as [|p pre IH]; intros k w n H Hall.
  - cbn [List.app fold_left List.length]. rewrite Z.add_0_r. reflexivity.
  - cbn [List.app election_loop fold_left]. fold (ask env self p). unfold bind at 1.
    rewrite (ask_run env self p w n H), (Hall p) by (left; reflexivity).
    pose proof (asked_timers_grew env self (distManager n) w p) as Hg.
    destruct (timers_grew_node _ _ _ _ Hg H) as (n' & Hn' & Hm & _).
    rewrite (IH (k + 1) _ n' Hn'), Hm.
    + f_equal. cbn [List.length]. lia.
    + intros s' Hs'. rewrite Hm, (timers_grew_answers_alive env _ _ _ _ Hg).
      apply Hall. right. exact Hs'.
Qed.

(** One round of the loop, by the answer it gets. *)
Lemma election_loop_round env self server rest k w reply w1 :
  send_election env self server w = (Ok reply, w1) ->
  election_loop env self (server :: rest) k w =
  if success reply then (Ok None, w1) else election_loop env self rest (k + 1) w1.
Proof.
  intros Es. cbn [election_loop]. fold (ask env self server).
  rewrite (bind_ok _ _ w _ _ (ask_answered env self server w reply w1 Es)).
  destruct (success reply); reflexivity.
Qed.

Lemma election_reply env self n c ts w :
  nodes w !! self = Some n ->
  exists a w',
    app env self (PostElection c ts) w = (Ok (Json a), w') /\
    (success a = true <-> exists c', c = Some c' /\ c' < SERVER_ID n) /\
    message a = (if success a then "Server is alive" else "Server acknowledges election") /\
    (success a = true -> w' = set_nodes w (<[self := with_election_timer n]> (nodes w))) /\
    (success a = true -> nodes w' !! self = Some (with_election_timer n)) /\
    (success a = false -> w' = w).
Proof.
  intros H. rewrite (post_election_run env self c ts w n H).
  destruct (js_lt c (SERVER_ID n)) eqn:E.
  - eexists _, _. split; [reflexivity|]. cbn [success message].
    split; [|split; [reflexivity|split; [reflexivity|split]]].
    + split; [intros _|reflexivity].
      destruct c as [c'|]; [|discriminate]. exists c'. split; [reflexivity|].
      apply Z.ltb_lt, E.
    + intros _. apply lookup_insert_eq.
    + discriminate.
  - eexists _, _. split; [reflexivity|]. cbn [success message].
    split; [|split; [reflexivity|split; [discriminate|split]]].
    + split; [discriminate|]. intros (c' & -> & Hlt).
      cbn [js_lt] in E. apply Z.ltb_ge in E. lia.
    + discriminate.
    + reflexivity.
Qed.

Lemma election_answer_at env self n w pre server rest reply w1 :
  nodes w !! self = Some n ->
  higher (distManager n) = (pre ++ server :: rest)%list ->
  (forall s, In s pre -> answers_alive env w (distManager n) s = false) ->
  send_election env self server
    (fold_left (asked env self (distManager n)) pre w) = (Ok reply, w1) ->
  (success reply = true ->
   performBullyElection env self w = (Ok tt, w1) /\ timers_grew w w1) /\
  (success reply = false ->
   forall k, election_loop env self (pre ++ server :: rest) k w =
             election_loop env self rest (k + Z.of_nat (List.length pre) + 1) w1).
Proof.
  intros H Eh Hpre Es.
  set (w0 := fold_left (asked env self (distManager n)) pre w) in *.
  assert (Hloop : forall k, election_loop env self (pre ++ server :: rest) k w =
            if success reply then (Ok None, w1)
            else election_loop env self rest (k + Z.of_nat (List.length pre) + 1) w1).
  { intros k. rewrite (election_loop_prefix env self pre _ k w n H Hpre). fold w0.
    apply election_loop_round, Es. }
  split; intros Hs; rewrite Hs in Hloop; [|exact Hloop].
  split.
  - apply (performBullyElection_abort env self w n w1 H).
    + rewrite Eh. destruct pre; discriminate.
    + rewrite Eh. apply Hloop.
  - pose proof (asked_fold_timers_grew env self (distManager n) pre w) as Hg. fold w0 in Hg.
    destruct (timers_grew_node _ _ _ _ Hg H) as (n0 & Hn0 & Hm0 & _).
    pose proof (ask_answered env self server w0 reply w1 Es) as Ea.
    rewrite (ask_run env self server w0 n0 Hn0) in Ea. injection Ea as _ <-.
    eapply timers_grew_trans; [exact Hg|apply asked_timers_grew].
Qed.

(** C2 (as the code has it).  For an election message whose [candidateId]
    is an integer or is missing, the answer carries [success = true], with
    the message ["Server is alive"], exactly when the message names a
    candidate whose id is below the answering node's, and that is exactly
    when the node leaves its own election pending; otherwise it carries
    [success = false], with ["Server acknowledges election"], and the node
    changes nothing.  Correspondingly, in the loop of the initiator an
    answer with [success = true] ends the loop at once, whichever server of
    the list sent it and whatever was counted before, and an answer with
    [success = false] is counted and the loop goes on with the next server.
    For the election as a whole: when the servers before some higher server
    did not answer alive and that server answers [success = true], the
    election ends there, in the world as the answer left it, with every
    manager and store as before the election. *)
Theorem election_reply_success env w self n c ts :
  nodes w !! self = Some n ->
  (exists a w',
     app env self (PostElection c ts) w = (Ok (Json a), w') /\
     (success a = true <-> exists c', c = Some c' /\ c' < SERVER_ID n) /\
     message a = (if success a then "Server is alive" else "Server acknowledges election") /\
     (success a = true -> nodes w' !! self = Some (with_election_timer n)) /\
     (success a = true -> w' = set_nodes w (<[self := with_election_timer n]> (nodes w))) /\
     (success a = false -> w' = w)) /\
  (forall server rest k w0 reply w1,
     send_election env self server w0 = (Ok reply, w1) ->
     election_loop env self (server :: rest) k w0 =
     if success reply then (Ok None, w1) else election_loop env self rest (k + 1) w1) /\
  (forall pre server rest reply w1,
     higher (distManager n) = (pre ++ server :: rest)%list ->
     (forall s, In s pre -> answers_alive env w (distManager n) s = false) ->
     send_election env self server
       (fold_left (asked env self (distManager n)) pre w) = (Ok reply, w1) ->
     (success reply = true ->
      performBullyElection env self w = (Ok tt, w1) /\ timers_grew w w1) /\
     (success reply = false ->
      forall k, election_loop env self (pre ++ server :: rest) k w =
                election_loop env self rest (k + Z.of_nat (List.length pre) + 1) w1)).
Proof.
  intros H. split; [|split].
  - destruct (election_reply env self n c ts w H) as (a & w' & E & Hiff & Hm & Hw & Ht & Hf).
    exists a, w'. auto 10.
  - intros server rest k w0 reply w1. apply election_loop_round.
  - intros pre server rest reply w1. apply (election_answer_at env self n w pre server rest reply w1 H).
Qed.


Lemma election_reply_success_witness :
  let delhi := Srv.mk 2 "Server-Delhi" 5002 in
  let bangalore := Srv.mk 3 "Server-Bangalore" 5003 in
  let w := cluster_default_id in
  let w1 := exec (send_election env_up 5001 delhi) w in
  let w2 := exec (send_election env_up 5001 bangalore) w1 in
  (nodes cluster_own !! 5002 = Some (node_at 2 "n2/hospital.db") /\
   app env_up 5002 (PostElection (Some 1) (Some 1000)) cluster_own =
     (Ok (Json (mkAck true "Server is alive")),
      set_nodes cluster_own
        (<[5002 := with_election_timer (node_at 2 "n2/hospital.db")]> (nodes cluster_own))) /\
   app env_up 5002 (PostElection (Some 3) (Some 1000)) cluster_own =
     (Ok (Json (mkAck false "Server acknowledges election")), cluster_own)) /\
  (nodes w !! 5001 = Some (node_at 1 "n1/hospital.db") /\
   higher (distManager (node_at 1 "n1/hospital.db")) = [delhi; bangalore] /\
   send_election env_up 5001 delhi w =
     (Ok (mkAck false "Server acknowledges election"), w1) /\
   (forall k, election_loop env_up 5001 [delhi; bangalore] k w =
              election_loop env_up 5001 [bangalore] (k + 0 + 1) w1) /\
   answers_alive env_up w (distManager (node_at 1 "n1/hospital.db")) delhi = false /\
   send_election env_up 5001 bangalore w1 = (Ok (mkAck true "Server is alive"), w2) /\
   performBullyElection env_up 5001 w = (Ok tt, w2) /\
   timers_grew w w2).
Proof.
  intros delhi bangalore w w1 w2.
  assert (Hn2 : nodes cluster_own !! 5002 = Some (node_at 2 "n2/hospital.db")) by reflexivity.
  assert (Hn1 : nodes w !! 5001 = Some (node_at 1 "n1/hospital.db")) by reflexivity.
  assert (Es1 : send_election env_up 5001 delhi w =
                (Ok (mkAck false "Server acknowledges election"), w1))
    by (vm_compute; reflexivity).
  assert (Ew1 : fold_left (asked env_up 5001 (distManager (node_at 1 "n1/hospital.db")))
                  [delhi] w = w1) by (vm_compute; reflexivity).
  assert (Es2 : send_election env_up 5001 bangalore
                  (fold_left (asked env_up 5001 (distManager (node_at 1 "n1/hospital.db")))
                     [delhi] w) =
                (Ok (mkAck true "Server is alive"), w2))
    by (rewrite Ew1; vm_compute; reflexivity).
  assert (Hd : answers_alive env_up w (distManager (node_at 1 "n1/hospital.db")) delhi = false)
    by reflexivity.
  split; [|split; [exact Hn1|split; [reflexivity|split; [exact Es1|]]]].
  - split; [exact Hn2|]. split.
    + destruct (proj1 (election_reply_success env_up cluster_own 5002 _ (Some 1) (Some 1000) Hn2))
        as ([s m] & w' & E & Hiff & Hm & _ & Ht & _).
      cbn [success message] in *.
      assert (Hs : s = true) by (apply Hiff; exists 1; split; reflexivity).
      subst s. rewrite E, Hm, (Ht eq_refl). reflexivity.
    + destruct (proj1 (election_reply_success env_up cluster_own 5002 _ (Some 3) (Some 1000) Hn2))
        as ([s m] & w' & E & Hiff & Hm & _ & _ & Hf).
      cbn [success message] in *.
      assert (Hs : s = false).
      { destruct s; [|reflexivity]. destruct (proj1 Hiff eq_refl) as (c' & [= <-] & Hlt).
        discriminate Hlt. }
      subst s. rewrite E, Hm, (Hf eq_refl). reflexivity.
  - pose proof (proj2 (proj2 (election_reply_success env_up w 5001 _ None None Hn1))) as Hinit.
    assert (Hnone : forall s, In s [] ->
              answers_alive env_up w (distManager (node_at 1 "n1/hospital.db")) s = false)
      by (intros s []).
    assert (Hpre : forall s, In s [delhi] ->
              answers_alive env_up w (distManager (node_at 1 "n1/hospital.db")) s = false)
      by (intros s [<-|[]]; reflexivity).
    destruct (Hinit [] delhi [bangalore] _ w1 eq_refl Hnone Es1) as [_ Hfalse].
    destruct (Hinit [delhi] bangalore [] _ w2 eq_refl Hpre Es2) as [Htrue _].
    destruct (Htrue eq_refl) as [Hend Hg].
    split; [exact (Hfalse eq_refl)|]. split; [exact Hd|].
    split; [rewrite <- Ew1; exact Es2|]. split; [exact Hend|exact Hg].
Defined.

(** C2 as worded fails: node 2 outranks candidate 1 and will contend, and
    its answer carries [success = true], not [false]. *)
Lemma election_reply_true_when_outranking :
  let r := eval (app env_up 5002 (PostElection (Some 1) (Some 1000))) cluster_own in
  reply_success r = Some true /\
  ~ (reply_success r = Some false <-> 1 < SERVER_ID (node_at 2 "n2/hospital.db")).
Proof.
  intros r. assert (E : reply_success r = Some true) by reflexivity.
  split; [exact E|]. rewrite E. intros [_ Hback].
  assert (Hlt : 1 < SERVER_ID (node_at 2 "n2/hospital.db")) by reflexivity.
  specialize (Hback Hlt). discriminate.
Qed.

(** ** Status snapshot and clock synchronisation *)

Section Snapshot.
Variable env : Env.

Lemma db_read_run {A} self (f : DB.Database -> A) w n :
  nodes w !! self = Some n ->
  db_read self f w = (Ok (f (open_file w (dbPath n))), w).
Proof. intros H. cbv [db_read bind get_node]. rewrite H. reflexivity. Qed.

Lemma getServerStatus_run self w n :
  nodes w !! self = Some n ->
  exists entries,
    getServerStatus self w = (Ok entries, w) /\
    Forall2 (entry_of (distManager n)) (DB.servers (open_file w (dbPath n))) entries.
Proof.
  intros H. unfold getServerStatus.
  rewrite (bind_ok _ _ w _ _ (db_read_run self _ w n H)).
  rewrite (bind_ok _ _ w _ _ (this_run self w n H)).
  eexists. split; [reflexivity|].
  unfold DB.getAllServers.
  induction (DB.servers (open_file w (dbPath n))) as [|row rows IH]; cbn [List.map].
  - constructor.
  - constructor; [|exact IH].
    unfold entry_of. cbn.
    destruct (DB.id row =? serverId (distManager n)) eqn:E.
    + apply Z.eqb_eq in E. repeat split; auto; intros; congruence.
    + apply Z.eqb_neq in E. repeat split; auto; intros; congruence.
Qed.

Lemma sync_n_run self T k w n :
  nodes w !! self = Some n ->
  sync_n env self T k w =
  (Ok (List.map (fun i => sync_at env self n T (tick w + 2 * i)%nat) (List.seq 0 k)),
   set_tick w (tick w + 2 * k)%nat).
Proof.
  revert w. induction k as [|k IH]; intros w H.
  - cbn. unfold ret, set_tick. rewrite Nat.add_0_r. destruct w; reflexivity.
  - cbn [sync_n].
    rewrite (bind_ok _ _ w _ _ (performClockSync_run env self T w n H)).
    rewrite (bind_ok _ _ _ _ _ (IH (set_tick w (S (S (tick w)))) H)).
    unfold ret. cbn [List.seq List.map]. f_equal.
    + f_equal. f_equal.
      * unfold sync_at. rewrite Nat.add_0_r. reflexivity.
      * rewrite <- List.seq_shift, List.map_map. apply List.map_ext.
        intros i. red_w. f_equal. lia.
    + unfold set_tick. red_w. f_equal. lia.
Qed.

Lemma sync_n_monotone self T k w n rs w' :
  nodes w !! self = Some n ->
  (forall a b, (a <= b)%nat -> clock env self a <= clock env self b) ->
  sync_n env self T k w = (Ok rs, w') ->
  forall i j ri rj,
    (i <= j)%nat -> rs !! i = Some ri -> rs !! j = Some rj ->
    (Sync.serverTime ri <= Sync.serverTime rj)%Q.
Proof.
  intros H Hmono E i j ri rj Hij. rewrite (sync_n_run self T k w n H) in E.
  injection E as <- _. rewrite !list_lookup_fmap.
  intros Hi Hj.
  destruct (List.seq 0 k !! i) as [a|] eqn:Ea; [|discriminate].
  destruct (List.seq 0 k !! j) as [b|] eqn:Eb; [|discriminate].
  apply lookup_seq in Ea as [-> _]. apply lookup_seq in Eb as [-> _].
  cbn in Hi, Hj. injection Hi as <-. injection Hj as <-.
  cbn [sync_at Sync.serverTime]. apply Qplus_le_l.
  rewrite <- Zle_Qle. apply Hmono. lia.
Qed.

(** What [performClockSync] returns, in terms of the responder's two clock
    reads.  Both reads are the responder's: when its clock shows the same
    time at both, the adjusted time lies one and a half "round trips" after
    [clientTime]. *)
Lemma performClockSync_returns self T w n r w' :
  nodes w !! self = Some n ->
  performClockSync env self T w = (Ok r, w') ->
  let o := clockOffset (distManager n) in
  (Sync.serverTime r == inject_Z (clock env self (tick w)) + o)%Q /\
  (Sync.rtt r == inject_Z (clock env self (S (tick w))) + o - T)%Q /\
  (Sync.adjustedTime r == Sync.serverTime r + Sync.rtt r / 2)%Q /\
  (Sync.clockOffset r == o)%Q /\
  (clock env self (S (tick w)) = clock env self (tick w) ->
   (Sync.adjustedTime r == T + (3 # 2) * Sync.rtt r)%Q).
Proof.
  intros H E o. rewrite (performClockSync_run env self T w n H) in E.
  cbv zeta in E. injection E as <- _. cbn [Sync.serverTime Sync.rtt Sync.adjustedTime Sync.clockOffset].
  fold o. repeat split; try reflexivity.
  intros ->. field.
Qed.

End Snapshot.

(** C5 (as the code has it).  [getServerStatus] changes nothing and returns
    one entry per row of the [servers] table of the node's store, in table
    order.  Each entry takes [id], [name], [port], the leader flag, the
    last heartbeat and the status from its row.  The entry of the reporting
    node carries the manager's in-memory connection count and clock offset;
    the entry of any other node carries the stored connection count and the
    constant clock offset 0 (the table has no clock-offset column). *)
Theorem snapshot_entries w self n :
  nodes w !! self = Some n ->
  exists entries,
    getServerStatus self w = (Ok entries, w) /\
    List.length entries = List.length (DB.servers (file_of w self)) /\
    Forall2 (entry_of (distManager n)) (DB.servers (file_of w self)) entries.
Proof.
  intros H. destruct (getServerStatus_run self w n H) as (entries & E & HF).
  exists entries. unfold file_of. rewrite H. split; [exact E|].
  split; [symmetry; apply (Forall2_length _ _ _ HF)|exact HF].
Qed.

Lemma snapshot_entries_witness :
  nodes cluster_shared_skewed !! 5002 =
    Some (mkNode (set_clockOffset (new_DistributedManager 2 5002 0) 15%Q)
            "./hospital.db" []) /\
  exists entries,
    getServerStatus 5002 cluster_shared_skewed = (Ok entries, cluster_shared_skewed) /\
    List.length entries = List.length (DB.servers (file_of cluster_shared_skewed 5002)) /\
    Forall2 (entry_of (set_clockOffset (new_DistributedManager 2 5002 0) 15%Q))
      (DB.servers (file_of cluster_shared_skewed 5002)) entries.
Proof.
  split; [reflexivity|].
  apply (snapshot_entries cluster_shared_skewed 5002
           (mkNode (set_clockOffset (new_DistributedManager 2 5002 0) 15%Q)
              "./hospital.db" [])).
  reflexivity.
Defined.

(** C5 as worded fails for the clock offset of a peer.  Node 2, whose
    offset is 15 ms, writes its heartbeat to the store it shares with node
    1; node 1's snapshot then shows node 2 with that heartbeat and with
    clock offset 0. *)
Lemma snapshot_peer_offset_is_zero :
  let w1 := exec (heartbeat env_up 5002) cluster_shared_skewed in
  exists peer e1 e2 e3,
    nodes w1 !! 5002 = Some peer /\
    clockOffset (distManager peer) = 15%Q /\
    eval (getServerStatus 5001) w1 = Ok [e1; e2; e3] /\
    Status.id e2 = SERVER_ID peer /\
    Status.lastHeartbeat e2 = 1001 /\
    ~ (Status.clockOffset e2 == clockOffset (distManager peer))%Q.
Proof.
  intros w1. eexists _, _, _, _.
  split; [vm_compute; reflexivity|]. split; [reflexivity|].
  split; [vm_compute; reflexivity|]. split; [reflexivity|]. split; [reflexivity|].
  cbn. intros H. discriminate H.
Qed.

(** C8.  Calls of [performClockSync] with the same [clientTime], made one
    after the other by a running node whose clock does not advance, all
    return; the node is as it was (so its offset is unchanged throughout),
    and the [serverTime]s they return never decrease along the sequence. *)
Theorem repeated_sync_serverTime env w self n T k :
  nodes w !! self = Some n ->
  (forall i, clock env self i = clock env self 0) ->
  exists rs w',
    sync_n env self T k w = (Ok rs, w') /\
    List.length rs = k /\
    nodes w' = nodes w /\
    forall i j ri rj,
      (i <= j)%nat -> rs !! i = Some ri -> rs !! j = Some rj ->
      (Sync.serverTime ri <= Sync.serverTime rj)%Q.
Proof.
  intros H Hstill. eexists _, _. split; [apply (sync_n_run env self T k w n H)|].
  split; [rewrite List.length_map; apply List.length_seq|]. split; [reflexivity|].
  refine (sync_n_monotone env self T k w n _ _ H _ (sync_n_run env self T k w n H)).
  intros a b _. rewrite (Hstill a), (Hstill b). lia.
Qed.

Lemma repeated_sync_serverTime_witness :
  nodes cluster_own !! 5002 = Some (node_at 2 "n2/hospital.db") /\
  (forall i, clock env_frozen 5002 i = clock env_frozen 5002 0) /\
  exists rs w',
    sync_n env_frozen 5002 990%Q 3 cluster_own = (Ok rs, w') /\
    List.length rs = 3%nat /\
    nodes w' = nodes cluster_own /\
    forall i j ri rj,
      (i <= j)%nat -> rs !! i = Some ri -> rs !! j = Some rj ->
      (Sync.serverTime ri <= Sync.serverTime rj)%Q.
Proof.
  split; [reflexivity|]. split; [reflexivity|].
  apply (repeated_sync_serverTime env_frozen cluster_own 5002
           (node_at 2 "n2/hospital.db") 990%Q 3); reflexivity.
Defined.

(** C9.  When the node that [syncWithLeader] would ask (the first server of
    the list other than itself) does not answer, because it cannot be reached
    or because its answer is not back in time, or when there is no such
    server, the call returns normally and leaves every process, the caller
    and its [clockOffset] included, and every store as they were. *)
Theorem sync_failure_keeps_offset env w self n :
  nodes w !! self = Some n ->
  (forall leader,
     List.find (fun s => negb (Srv.id s =? serverId (distManager n)))
               (servers (distManager n)) = Some leader ->
     answers env w (Srv.port leader) = false) ->
  exists w',
    syncWithLeader env self w = (Ok tt, w') /\
    nodes w' = nodes w /\ files w' = files w /\
    (clockOffset <$> (distManager <$> nodes w' !! self)) =
      Some (clockOffset (distManager n)).
Proof.
  intros H Hdown. unfold syncWithLeader.
  rewrite (bind_ok _ _ w _ _ (this_run self w n H)).
  destruct (isLeader (distManager n)).
  { exists w. rewrite H. repeat split. }
  unfold try_catch. rewrite (bind_ok _ _ w _ _ (this_run self w n H)).
  destruct (List.find _ _) as [leader|] eqn:Ef.
  2:{ exists w. rewrite H. repeat split. }
  rewrite (bind_ok _ _ w _ _ (Date_now_run env self w)).
  unfold bind at 1. rewrite axios_run. cbv zeta.
  assert (Ha : answers env (set_tick w (S (tick w))) (Srv.port leader) = false)
    by (apply (Hdown leader); reflexivity).
  rewrite Ha.
  destruct (reachable env (set_tick w (S (tick w))) (Srv.port leader)) eqn:Hr.
  - destruct (reachable_node env _ _ Hr) as [nl Hl].
    assert (Hl' : nodes (logged (set_tick w (S (tick w)))
                           (mkOutCall self (Srv.port leader)
                              (route_of (GetClockSync (Some (clock env self (tick w)))))
                              2000)) !! Srv.port leader = Some nl) by exact Hl.
    rewrite (get_clock_sync_run env _ _ _ nl Hl').
    destruct (parsed_clientTime env _ _ _) as [T k].
    rewrite (performClockSync_run env _ _ _ nl) by exact Hl.
    eexists. split; [reflexivity|]. unfold logged. red_w. rewrite H. repeat split.
  - eexists. split; [reflexivity|]. unfold logged. red_w. rewrite H. repeat split.
Qed.

Lemma sync_failure_keeps_offset_witness :
  nodes cluster_own !! 5001 = Some (node_at 1 "n1/hospital.db") /\
  answers env_2_timeout cluster_own 5002 = false /\
  exists w',
    syncWithLeader env_2_timeout 5001 cluster_own = (Ok tt, w') /\
    nodes w' = nodes cluster_own /\ files w' = files cluster_own /\
    (clockOffset <$> (distManager <$> nodes w' !! 5001)) =
      Some (clockOffset (distManager (node_at 1 "n1/hospital.db"))).
Proof.
  split; [reflexivity|]. split; [reflexivity|].
  apply (sync_failure_keeps_offset env_2_timeout cluster_own 5001
           (node_at 1 "n1/hospital.db")); [reflexivity|].
  intros leader [= <-]. reflexivity.
Defined.

(** A call of [setLeader] that runs alone.  In a store whose [servers]
    table has [id] as its key, it is the clearing of every flag followed by
    the raising of the flag on the rows with the given id, and it leaves at
    most one row flagged, whatever the flags were before.  The same holds
    for the store of a running node after its leader-update route has run
    and after its [becomeLeader] has run, as long as no other write to
    [servers] falls between the two statements of the call. *)
Theorem setLeader_single_leader env w self n sid :
  nodes w !! self = Some n ->
  primary_key (file_of w self) ->
  let d := file_of w self in
  snd (DB.setLeader d sid) = DB.mark_leader (DB.clear_leaders d) sid /\
  (forall r, In r (DB.servers (DB.clear_leaders d)) -> DB.is_leader r = 0) /\
  at_most_one_leader (snd (DB.setLeader d sid)) /\
  (forall ts,
     at_most_one_leader
       (file_of (exec (app env self (PostLeaderUpdate sid ts)) w) self)) /\
  at_most_one_leader (file_of (exec (becomeLeader env self) w) self).
Proof.
  intros H Hpk d. subst d. unfold file_of in *. rewrite H in *.
  split; [reflexivity|]. split; [|split; [|split]].
  - unfold DB.clear_leaders, DB.with_servers. cbn [DB.servers].
    intros r Hr. apply in_map_iff in Hr as (r0 & <- & _). reflexivity.
  - apply setLeader_one_leader, Hpk.
  - intros ts. unfold exec. rewrite (post_leader_update_run env self sid ts w n H).
    cbn [snd]. red_w. rewrite lookup_insert_eq. cbn [dbPath set_manager].
    rewrite open_file_written. apply setLeader_one_leader, Hpk.
  - destruct (becomeLeader_run env self w n H)
      as (w' & E & (n' & Hn' & _ & Hp) & Hl & Hk).
    unfold exec. rewrite E. cbn [snd]. rewrite Hn', Hp.
    apply (leader_is_one (serverId (distManager n))); [apply Hk, Hpk|exact Hl].
Qed.

Lemma setLeader_single_leader_witness :
  nodes cluster_shared !! 5003 = Some (node_at 3 "./hospital.db") /\
  primary_key (file_of cluster_shared 5003) /\
  at_most_one_leader (snd (DB.setLeader (file_of cluster_shared 5003) (Some 3))) /\
  at_most_one_leader
    (file_of (exec (app env_up 5003 (PostLeaderUpdate (Some 3) (Some 1000)))
                cluster_shared) 5003) /\
  at_most_one_leader (file_of (exec (becomeLeader env_up 5003) cluster_shared) 5003).
Proof.
  assert (Hn : nodes cluster_shared !! 5003 = Some (node_at 3 "./hospital.db"))
    by reflexivity.
  assert (Hpk : primary_key (file_of cluster_shared 5003)).
  { unfold primary_key. cbn. repeat constructor; cbn; intuition discriminate. }
  destruct (setLeader_single_leader env_up cluster_shared 5003 _ (Some 3) Hn Hpk)
    as (_ & _ & H1 & H2 & H3).
  split; [exact Hn|]. split; [exact Hpk|]. split; [exact H1|].
  split; [exact (H2 (Some 1000))|exact H3].
Defined.

Lemma overlapped_rows d i j :
  DB.servers (DB.run_statements (overlapped i j) d) =
  List.map (fun r => DB.set_is_leader (if (DB.id r =? i) || (DB.id r =? j) then 1 else 0) r)
           (DB.servers d).
Proof.
  unfold overlapped, DB.run_statements. cbn [fold_left DB.run_statement].
  unfold DB.mark_leader, DB.clear_leaders, DB.with_servers. cbn [DB.servers].
  rewrite !List.map_map. apply List.map_ext. intros r.
  unfold DB.id_is, DB.set_is_leader. cbn.
  destruct (DB.id r =? i); cbn; destruct (DB.id r =? j); reflexivity.
Qed.

Lemma In_id_row i l : In i (List.map DB.id l) -> exists r, In r l /\ DB.id r = i.
Proof. intros H. apply in_map_iff in H as (r & E & Hin). eauto. Qed.

Lemma two_flagged (p : DB.ServerRow -> bool) l r1 r2 :
  In r1 l -> In r2 l -> r1 <> r2 -> p r1 = true -> p r2 = true ->
  (2 <= List.length (List.filter p l))%nat.
Proof.
  induction l as [|a l IH]; [intros []|].
  intros H1 H2 Hne P1 P2. cbn [List.filter].
  destruct H1 as [->|H1], H2 as [->|H2].
  - contradiction.
  - rewrite P1. cbn [List.length].
    assert (In r2 (List.filter p l)) by (apply List.filter_In; auto).
    destruct (List.filter p l); [contradiction|cbn; lia].
  - rewrite P2. cbn [List.length].
    assert (In r1 (List.filter p l)) by (apply List.filter_In; auto).
    destruct (List.filter p l); [contradiction|cbn; lia].
  - specialize (IH H1 H2 Hne P1 P2). destruct (p a); cbn [List.length]; lia.
Qed.

Lemma overlapped_two_leaders d i j :
  i <> j ->
  In i (List.map DB.id (DB.servers d)) -> In j (List.map DB.id (DB.servers d)) ->
  (2 <= List.length (DB.leader_rows (DB.run_statements (overlapped i j) d)))%nat.
Proof.
  intros Hne Hi Hj. unfold DB.leader_rows. rewrite overlapped_rows.
  apply In_id_row in Hi as (ri & Hri & Ei), Hj as (rj & Hrj & Ej).
  set (f := fun r => DB.set_is_leader (if (DB.id r =? i) || (DB.id r =? j) then 1 else 0) r).
  apply (two_flagged _ _ (f ri) (f rj)).
  - apply in_map. exact Hri.
  - apply in_map. exact Hrj.
  - intros E. apply (f_equal DB.id) in E. cbn in E. congruence.
  - subst f. cbn. rewrite Ei, Z.eqb_refl. reflexivity.
  - subst f. cbn. rewrite Ej, Z.eqb_refl, orb_true_r. reflexivity.
Qed.

(** C10 (the code falls short of it).  A call of [setLeader] that runs
    alone clears every flag and then raises the flag on exactly the rows
    with the given id, so it leaves at most one row flagged when [id] is
    the key.  But the two statements of a call are not one step: the second
    is issued from the callback of the first.  When [setLeader(i)] and
    [setLeader(j)], for two different servers of the table, are called one
    right after the other, the statements reach the file in the order
    clear, clear, raise [i], raise [j]; both calls complete, and the rows
    of [i] and of [j] are both flagged.  On the store as seeded, with the
    calls for servers 2 and 3, each call resolves with one row changed and
    the flagged rows afterwards are those of 2 and 3. *)
Theorem setLeader_overlapping_calls :
  (forall d sid,
     snd (DB.setLeader d sid) = DB.run_statements (DB.setLeader_statements sid) d /\
     (forall row, In row (DB.servers (snd (DB.setLeader d sid))) ->
                  DB.is_leader row = if DB.id_is sid row then 1 else 0) /\
     List.map DB.id (DB.servers (snd (DB.setLeader d sid))) = List.map DB.id (DB.servers d) /\
     (primary_key d -> at_most_one_leader (snd (DB.setLeader d sid)))) /\
  (forall d i j,
     i <> j ->
     In i (List.map DB.id (DB.servers d)) -> In j (List.map DB.id (DB.servers d)) ->
     interleaving (DB.setLeader_statements (Some i)) (DB.setLeader_statements (Some j))
       (overlapped i j) /\
     let d' := DB.run_statements (overlapped i j) d in
     (forall row, In row (DB.servers d') ->
                  DB.is_leader row = if (DB.id row =? i) || (DB.id row =? j) then 1 else 0) /\
     (2 <= List.length (DB.leader_rows d'))%nat /\
     ~ at_most_one_leader d') /\
  (let d1 := DB.run_statements [DB.ClearLeaders; DB.ClearLeaders] seeded in
   let d2 := DB.run_statement d1 (DB.MarkLeader (Some 2)) in
   let d3 := DB.run_statement d2 (DB.MarkLeader (Some 3)) in
   primary_key seeded /\ at_most_one_leader seeded /\
   d3 = DB.run_statements (overlapped 2 3) seeded /\
   DB.changes_of (Some 2) d1 = 1 /\ DB.changes_of (Some 3) d2 = 1 /\
   List.map DB.id (DB.leader_rows d3) = [2; 3] /\
   ~ at_most_one_leader d3).
Proof.
  split; [|split].
  - intros d sid. split; [reflexivity|]. split; [|split].
    + intros row. rewrite setLeader_rows. intros Hin.
      apply in_map_iff in Hin as (r0 & <- & _).
      unfold DB.id_is, DB.set_is_leader. cbn. reflexivity.
    + rewrite setLeader_rows, List.map_map. reflexivity.
    + apply setLeader_one_leader.
  - intros d i j Hne Hi Hj. split.
    + unfold DB.setLeader_statements, overlapped.
      apply interleaving_left, interleaving_right, interleaving_left, interleaving_right.
      constructor.
    + cbv zeta. split; [|split].
      * intros row. rewrite overlapped_rows. intros Hin.
        apply in_map_iff in Hin as (r0 & <- & _). cbn. reflexivity.
      * apply overlapped_two_leaders; assumption.
      * unfold at_most_one_leader.
        pose proof (overlapped_two_leaders d i j Hne Hi Hj). lia.
  - cbv zeta. split.
    + unfold primary_key. cbn. repeat constructor; cbn; intuition discriminate.
    + split; [unfold at_most_one_leader; cbn; lia|].
      split; [reflexivity|]. split; [reflexivity|]. split; [reflexivity|].
      split; [reflexivity|]. unfold at_most_one_leader. cbn. lia.
Qed.

(** C4 at its scenario.  A 40 ms round trip between nodes 1 and 2, whose
    clocks agree: the request leaves at 1000 and is handled at 1020, the
    answer arrives at 1040.  The answer of [performClockSync] carries
    [serverTime] 1020 but [rtt] 20 and [adjustedTime] 1030, because the
    "reply received time" is read by the responder right after
    [serverTime].  Called directly once 40 ms have passed, it returns [rtt]
    40 with [adjustedTime] 1060.  [syncWithLeader], which measures the
    round trip on the caller's side, arrives at offset 0, that is at
    an adjusted time of 1040. *)
Theorem performClockSync_rtt_read_by_responder :
  (exists reply w',
     axios env_rtt40 5001 5002 (GetClockSync (Some 1000)) 2000
       (set_tick cluster_own 1) = (Ok reply, w') /\
     (Sync.serverTime (cs_result reply) == 1020)%Q /\
     (Sync.rtt (cs_result reply) == 20)%Q /\
     (Sync.adjustedTime (cs_result reply) == 1030)%Q /\
     clock env_rtt40 5001 (tick w') = 1040) /\
  (exists r w',
     performClockSync env_frozen_1040 5002 1000%Q cluster_own = (Ok r, w') /\
     (Sync.serverTime r == 1040)%Q /\
     (Sync.rtt r == 40)%Q /\
     (Sync.adjustedTime r == 1060)%Q) /\
  (exists w' n',
     syncWithLeader env_rtt40 5001 cluster_own = (Ok tt, w') /\
     nodes w' !! 5001 = Some n' /\
     (clockOffset (distManager n') == 0)%Q).
Proof.
  split; [|split].
  - eexists _, _. split; [vm_compute; reflexivity|]. repeat split.
  - eexists _, _. split; [vm_compute; reflexivity|]. repeat split.
  - eexists _, _. split; [vm_compute; reflexivity|]. split; [vm_compute; reflexivity|].
    reflexivity.
Qed.

(** ** Slots, bookings and the leader flag in the store *)

Lemma map_id_on {A} (f : A -> A) l : (forall x, In x l -> f x = x) -> List.map f l = l.
Proof.
  induction l as [|a l IH]; cbn [List.map]; intros H; [reflexivity|].
  rewrite H by (left; reflexivity). rewrite IH; [reflexivity|].
  intros x Hx. apply H. right. exact Hx.
Qed.

Lemma filter_nil_iff {A} (p : A -> bool) l :
  List.filter p l = [] <-> forall x, In x l -> p x = false.
Proof.
  induction l as [|a l IH]; cbn [List.filter].
  - split; [intros _ x []|reflexivity].
  - destruct (p a) eqn:E.
    + split; [discriminate|]. intros H. rewrite (H a) in E by (left; reflexivity). discriminate.
    + rewrite IH. split.
      * intros H x [<-|Hx]; auto.
      * intros H x Hx. apply H. right. exact Hx.
Qed.

Lemma filter_true_on {A} (p : A -> bool) l :
  (forall x, In x l -> p x = true) -> List.filter p l = l.
Proof.
  induction l as [|a l IH]; cbn [List.filter]; intros H; [reflexivity|].
  rewrite H by (left; reflexivity). f_equal. apply IH. intros x Hx. apply H. right. exact Hx.
Qed.

Lemma bookSlot_fst d di st :
  fst (DB.bookSlot d di st) = true <->
  exists row, In row (DB.slots d) /\ DB.slot_matches di st row = true.
Proof.
  unfold DB.bookSlot. cbn [fst]. rewrite Z.ltb_lt.
  destruct (List.filter (DB.slot_matches di st) (DB.slots d)) as [|r l] eqn:E.
  - split; [cbn; lia|]. intros (row & Hin & Hm).
    apply filter_nil_iff with (x := row) in E; [congruence|exact Hin].
  - split; [|cbn [List.length]; lia]. intros _. exists r.
    apply List.filter_In. rewrite E. left. reflexivity.
Qed.

Lemma slot_matches_booked di st r :
  DB.slot_matches di st (DB.mkSlot (DB.s_id r) (DB.s_doctor_id r) (DB.s_slot_time r) 0) = false.
Proof.
  unfold DB.slot_matches. destruct di, st; try reflexivity. cbn.
  rewrite andb_false_r. reflexivity.
Qed.

Lemma bookSlot_taken d di st : taken di st (snd (DB.bookSlot d di st)).
Proof.
  unfold taken, DB.bookSlot, DB.with_slots. cbn [snd DB.slots].
  intros row Hin. apply in_map_iff in Hin as (r & <- & _).
  destruct (DB.slot_matches di st r) eqn:E; [apply slot_matches_booked|exact E].
Qed.

Lemma bookSlot_when_taken d di st : taken di st d -> DB.bookSlot d di st = (false, d).
Proof.
  intros H. unfold DB.bookSlot.
  assert (E : List.filter (DB.slot_matches di st) (DB.slots d) = []) by (apply filter_nil_iff, H).
  rewrite E. cbn [List.length]. f_equal.
  unfold DB.with_slots. rewrite map_id_on.
  - destruct d; reflexivity.
  - intros x Hx. rewrite (H x Hx). reflexivity.
Qed.

Lemma slot_matches_spec i t row :
  DB.slot_matches (Some i) (Some t) row = true <->
  DB.s_doctor_id row = i /\ DB.s_slot_time row = t /\ DB.s_is_available row = 1.
Proof.
  unfold DB.slot_matches. rewrite !andb_true_iff, !Z.eqb_eq, String.eqb_eq. tauto.
Qed.

Lemma taken_not_bookable i t d : taken (Some i) (Some t) d <-> ~ bookable i t d.
Proof.
  unfold taken, bookable. split.
  - intros H (row & Hin & Hm). apply slot_matches_spec in Hm.
    rewrite (H row Hin) in Hm. discriminate.
  - intros H row Hin. destruct (DB.slot_matches (Some i) (Some t) row) eqn:E; [|reflexivity].
    exfalso. apply H. exists row. split; [exact Hin|]. apply slot_matches_spec, E.
Qed.

Lemma bookSlot_other_rows d di st i t :
  (di, st) <> (Some i, Some t) ->
  bookable i t (snd (DB.bookSlot d di st)) <-> bookable i t d.
Proof.
  intros Hne. unfold bookable, DB.bookSlot, DB.with_slots. cbn [snd DB.slots]. split.
  - intros (row & Hin & Hd & Ht & Ha). apply in_map_iff in Hin as (r & Hr & Hin).
    destruct (DB.slot_matches di st r) eqn:E.
    + subst row. cbn in Ha. discriminate.
    + subst row. exists r. auto.
  - intros (row & Hin & Hd & Ht & Ha). exists row. split; [|auto].
    apply in_map_iff. exists row. split; [|exact Hin].
    destruct (DB.slot_matches di st row) eqn:E; [|reflexivity].
    exfalso. apply Hne. destruct di as [i'|], st as [t'|]; try discriminate.
    apply slot_matches_spec in E as (E1 & E2 & _). congruence.
Qed.

(** X1.  [bookSlot(doctorId, slotTime)] resolves to [true] exactly when both
    arguments are there and the slot of that doctor at that time is in
    [slots] and free.  Whatever it resolved to, the slot is not free
    afterwards, a second [bookSlot] for the same doctor and time resolves to
    [false] and changes nothing, every other slot is as free as it was, and
    [bookings] and [servers] are untouched. *)
Theorem bookSlot_at_most_once d di st :
  let r := DB.bookSlot d di st in
  (fst r = true <-> exists i t, di = Some i /\ st = Some t /\ bookable i t d) /\
  (forall i t, di = Some i -> st = Some t -> ~ bookable i t (snd r)) /\
  DB.bookSlot (snd r) di st = (false, snd r) /\
  (forall i t, (di, st) <> (Some i, Some t) -> bookable i t (snd r) <-> bookable i t d) /\
  DB.bookings (snd r) = DB.bookings d /\ DB.servers (snd r) = DB.servers d.
Proof.
  intros r. subst r. split; [|split; [|split; [|split]]].
  - rewrite bookSlot_fst. split.
    + intros (row & Hin & Hm). destruct di as [i|], st as [t|]; try discriminate.
      exists i, t. split; [reflexivity|]. split; [reflexivity|].
      exists row. split; [exact Hin|]. apply slot_matches_spec, Hm.
    + intros (i & t & -> & -> & row & Hin & Hm). exists row. split; [exact Hin|].
      apply slot_matches_spec, Hm.
  - intros i t -> ->. apply taken_not_bookable, bookSlot_taken.
  - apply bookSlot_when_taken, bookSlot_taken.
  - intros i t. apply bookSlot_other_rows.
  - split; reflexivity.
Qed.

Lemma getAvailableSlots_bookSlot d di st dj :
  DB.getAvailableSlots (snd (DB.bookSlot d di st)) dj =
  List.filter (fun r => negb (DB.slot_matches di st r)) (DB.getAvailableSlots d dj).
Proof.
  unfold DB.getAvailableSlots, DB.bookSlot, DB.with_slots. cbn [snd DB.slots].
  induction (DB.slots d) as [|r l IH]; [reflexivity|].
  cbn [List.map List.filter].
  destruct (DB.slot_matches di st r) eqn:E.
  - assert (Ho : DB.slot_open dj (DB.mkSlot (DB.s_id r) (DB.s_doctor_id r) (DB.s_slot_time r) 0) = false).
    { unfold DB.slot_open. destruct dj; [|reflexivity]. cbn. apply andb_false_r. }
    rewrite Ho. destruct (DB.slot_open dj r); [cbn [List.filter]; rewrite E|]; exact IH.
  - destruct (DB.slot_open dj r); [cbn [List.filter]; rewrite E; cbn [negb]; f_equal|]; exact IH.
Qed.

Lemma slot_open_spec j row :
  DB.slot_open (Some j) row = true <-> DB.s_doctor_id row = j /\ DB.s_is_available row = 1.
Proof. unfold DB.slot_open. rewrite andb_true_iff, !Z.eqb_eq. tauto. Qed.

Lemma getAvailableSlots_bookSlot_rows d i t dj :
  DB.getAvailableSlots (snd (DB.bookSlot d (Some i) (Some t))) dj =
  List.filter (fun r => negb ((DB.s_doctor_id r =? i) && String.eqb (DB.s_slot_time r) t))
    (DB.getAvailableSlots d dj).
Proof.
  rewrite getAvailableSlots_bookSlot. unfold DB.getAvailableSlots.
  induction (DB.slots d) as [|r l IH]; [reflexivity|]. cbn [List.filter].
  destruct (DB.slot_open dj r) eqn:Eo; [|exact IH]. cbn [List.filter].
  assert (Em : DB.slot_matches (Some i) (Some t) r =
               (DB.s_doctor_id r =? i) && String.eqb (DB.s_slot_time r) t).
  { unfold DB.slot_matches. destruct dj as [k|]; [|discriminate].
    apply slot_open_spec in Eo as [_ Ha]. rewrite Ha. cbn. apply andb_true_r. }
  rewrite Em. destruct (negb _); [f_equal|]; exact IH.
Qed.

Lemma getAvailableSlots_slots d d' dj :
  DB.slots d' = DB.slots d -> DB.getAvailableSlots d' dj = DB.getAvailableSlots d dj.
Proof. unfold DB.getAvailableSlots. intros ->. reflexivity. Qed.

(** X2.  After [bookSlot(i, t)], [getAvailableSlots(dj)] returns the rows it
    returned before without those of doctor [i] at time [t], in the same
    order; for any other doctor the answer is the same, and for doctor [i]
    no returned row has time [t]. *)
Theorem getAvailableSlots_after_bookSlot d i t dj :
  let d' := snd (DB.bookSlot d (Some i) (Some t)) in
  DB.getAvailableSlots d' dj =
    List.filter (fun r => negb ((DB.s_doctor_id r =? i) && String.eqb (DB.s_slot_time r) t))
      (DB.getAvailableSlots d dj) /\
  (dj <> Some i -> DB.getAvailableSlots d' dj = DB.getAvailableSlots d dj) /\
  ~ In t (List.map DB.s_slot_time (DB.getAvailableSlots d' (Some i))).
Proof.
  intros d'. subst d'.
  split; [apply getAvailableSlots_bookSlot_rows|]. split.
  - intros Hne. rewrite getAvailableSlots_bookSlot_rows. apply filter_true_on. intros r Hr.
    apply List.filter_In in Hr as [_ Ho]. destruct dj as [j|]; [|discriminate].
    apply slot_open_spec in Ho as [Hd _].
    destruct (DB.s_doctor_id r =? i) eqn:Ei; [|reflexivity].
    apply Z.eqb_eq in Ei. congruence.
  - rewrite getAvailableSlots_bookSlot_rows. intros Hin. apply in_map_iff in Hin as (r & Ht & Hr).
    apply List.filter_In in Hr as [Hr Hn]. apply List.filter_In in Hr as [_ Ho].
    apply slot_open_spec in Ho as [Hd _].
    rewrite Hd, Ht, Z.eqb_refl, String.eqb_refl in Hn. discriminate.
Qed.

(** *** [createBooking] *)

Lemma has_confirmation_In c l :
  DB.has_confirmation c l = true <-> In c (List.map DB.confirmation_id l).
Proof.
  unfold DB.has_confirmation. rewrite List.existsb_exists, in_map_iff. split.
  - intros (r & Hin & E). apply String.eqb_eq in E. eauto.
  - intros (r & E & Hin). exists r. split; [exact Hin|]. apply String.eqb_eq, E.
Qed.

Lemma max_rowid_ge l row : In row l -> DB.b_id row <= DB.max_rowid l.
Proof.
  induction l as [|a l IH]; [intros []|]. cbn [DB.max_rowid List.fold_right].
  intros [<-|Hin]; [lia|]. specialize (IH Hin). unfold DB.max_rowid in IH. lia.
Qed.

Lemma NoDup_snoc {A} (l : list A) x : List.NoDup l -> ~ In x l -> List.NoDup (l ++ [x]).
Proof.
  intros Hnd Hx. induction Hnd as [|a l Ha Hnd IH]; cbn.
  - constructor; [intros []|constructor].
  - constructor.
    + rewrite in_app_iff. intros [H|[H|[]]]; [exact (Ha H)|]. subst. apply Hx. left. reflexivity.
    + apply IH. intros H. apply Hx. right. exact H.
Qed.

(** X3.  On a [bookings] table in which [confirmation_id] and [id] are each
    unique, [createBooking] keeps both unique.  A rejected insert leaves the
    database as it was.  An accepted insert appends one row that carries the
    given confirmation id and the time read at the start of the call, and
    resolves to that time and to an id greater than every id in the table
    and than the AUTOINCREMENT counter, which it advances to that id. *)
Theorem createBooking_keeps_keys d di pn st ci si now :
  bookings_keys d ->
  let r := DB.createBooking d di pn st ci si now in
  bookings_keys (snd r) /\
  (forall e, fst r = inl e -> snd r = d) /\
  (forall i ts, fst r = inr (i, ts) ->
     ts = now /\ DB.bookings_seq d < i /\
     (forall row, In row (DB.bookings d) -> DB.b_id row < i) /\
     exists row, DB.bookings (snd r) = (DB.bookings d ++ [row])%list /\
                 DB.b_id row = i /\ DB.booking_timestamp row = now /\
                 Some (DB.confirmation_id row) = ci /\
                 DB.bookings_seq (snd r) = i).
Proof.
  intros [Hc Hi] r. subst r. unfold DB.createBooking.
  destruct di as [di|], pn as [pn|], st as [st|], ci as [ci|], si as [si|];
    try (cbn [fst snd]; split; [split; assumption|]; split; [reflexivity|discriminate]).
  destruct (DB.has_confirmation ci (DB.bookings d)) eqn:Eh;
    [cbn [fst snd]; split; [split; assumption|]; split; [reflexivity|discriminate]|].
  cbn [fst snd]. set (i := Z.max (DB.bookings_seq d) (DB.max_rowid (DB.bookings d)) + 1).
  assert (Hlt : forall row, In row (DB.bookings d) -> DB.b_id row < i).
  { intros row Hin. pose proof (max_rowid_ge _ _ Hin). subst i. lia. }
  split; [|split; [discriminate|]].
  - unfold bookings_keys. cbn [DB.bookings]. rewrite !List.map_app. cbn [List.map]. split.
    + apply NoDup_snoc; [exact Hc|]. cbn [DB.confirmation_id].
      intros Hin. apply has_confirmation_In in Hin. congruence.
    + apply NoDup_snoc; [exact Hi|]. cbn [DB.b_id].
      intros Hin. apply in_map_iff in Hin as (row & E & Hin). specialize (Hlt row Hin). lia.
  - intros i' ts [= <- <-]. split; [reflexivity|]. split; [subst i; lia|].
    split; [exact Hlt|]. eexists. split; [reflexivity|]. repeat split.
Qed.

Lemma createBooking_keeps_keys_witness :
  let d1 := snd (DB.createBooking seeded (Some 1) (Some "Asha") (Some "09:00") (Some "CONF7")
                   (Some 1) 1000) in
  let r := DB.createBooking d1 (Some 1) (Some "Bela") (Some "09:30") (Some "CONF8")
             (Some 2) 1001 in
  bookings_keys d1 /\
  bookings_keys (snd r) /\
  fst r = inr (2, 1001) /\
  List.map DB.confirmation_id (DB.bookings (snd r)) = ["CONF7"; "CONF8"] /\
  (forall e, fst (DB.createBooking (snd r) (Some 2) (Some "Caro") (Some "10:00") (Some "CONF7")
                    (Some 3) 1002) = inl e ->
             snd (DB.createBooking (snd r) (Some 2) (Some "Caro") (Some "10:00") (Some "CONF7")
                    (Some 3) 1002) = snd r).
Proof.
  intros d1 r.
  assert (K0 : bookings_keys seeded) by (split; constructor).
  pose proof (createBooking_keeps_keys seeded (Some 1) (Some "Asha") (Some "09:00")
                (Some "CONF7") (Some 1) 1000 K0) as H1.
  cbv zeta in H1. destruct H1 as [K1 _].
  pose proof (createBooking_keeps_keys d1 (Some 1) (Some "Bela") (Some "09:30")
                (Some "CONF8") (Some 2) 1001 K1) as H2.
  cbv zeta in H2. destruct H2 as [K2 _].
  pose proof (createBooking_keeps_keys (snd r) (Some 2) (Some "Caro") (Some "10:00")
                (Some "CONF7") (Some 3) 1002 K2) as H3.
  cbv zeta in H3. destruct H3 as (_ & H3 & _).
  split; [exact K1|]. split; [exact K2|]. split; [reflexivity|]. split; [reflexivity|exact H3].
Defined.

(** *** [setLeader] *)

Lemma changes_of_zero sid d :
  DB.changes_of sid d = 0 <-> forall row, In row (DB.servers d) -> sid <> Some (DB.id row).
Proof.
  unfold DB.changes_of. split.
  - intros H row Hin E.
    assert (Hf : List.filter (DB.id_is sid) (DB.servers d) = []).
    { destruct (List.filter _ _); [reflexivity|cbn in H; lia]. }
    apply filter_nil_iff with (x := row) in Hf; [|exact Hin].
    subst sid. cbn in Hf. rewrite Z.eqb_refl in Hf. discriminate.
  - intros H. rewrite filter_id_none; [reflexivity|exact H].
Qed.

Lemma changes_of_servers sid d d' :
  List.map DB.id (DB.servers d') = List.map DB.id (DB.servers d) ->
  DB.changes_of sid d' = DB.changes_of sid d.
Proof.
  unfold DB.changes_of. intros H. f_equal.
  transitivity (List.length (List.filter (fun i => match sid with Some j => i =? j | None => false end)
                               (List.map DB.id (DB.servers d')))).
  - symmetry. apply filter_map_length. intros x. reflexivity.
  - rewrite H. apply filter_map_length. intros x. reflexivity.
Qed.

Lemma setLeader_changes d sid : fst (DB.setLeader d sid) = DB.changes_of sid d.
Proof.
  unfold DB.setLeader. cbn [fst]. apply changes_of_servers.
  unfold DB.clear_leaders, DB.with_servers. cbn [DB.servers].
  rewrite List.map_map. reflexivity.
Qed.

Lemma setLeader_flags d sid row :
  In row (DB.servers (snd (DB.setLeader d sid))) ->
  DB.is_leader row = if DB.id_is sid row then 1 else 0.
Proof.
  rewrite setLeader_rows. intros Hin.
  apply in_map_iff in Hin as (r0 & <- & _).
  unfold DB.id_is, DB.set_is_leader. cbn. reflexivity.
Qed.

Lemma setLeader_no_row d sid :
  (forall row, In row (DB.servers d) -> sid <> Some (DB.id row)) ->
  DB.leader_rows (snd (DB.setLeader d sid)) = [].
Proof.
  intros Hno. unfold DB.leader_rows.
  apply filter_nil_iff. intros row Hin. rewrite (setLeader_flags d sid row Hin).
  rewrite setLeader_rows in Hin. apply in_map_iff in Hin as (r0 & <- & Hin).
  specialize (Hno r0 Hin).
  assert (E : DB.id_is sid (DB.set_is_leader (if DB.id_is sid r0 then 1 else 0) r0) = false).
  { unfold DB.id_is. destruct sid as [i|]; [|reflexivity]. cbn.
    apply Z.eqb_neq. congruence. }
  rewrite E. reflexivity.
Qed.

(** X4.  A call of [setLeader(serverId)] that runs alone: afterwards a row
    is flagged exactly when its id is [serverId].  It resolves to 0 changes
    exactly when no row has that id (also when the id is missing), and then
    no row is flagged at all, whoever led before.  A second call with the
    same id gives the same result and the same database; [slots] and
    [bookings] are untouched. *)
Theorem setLeader_outcome d sid :
  let r := DB.setLeader d sid in
  (forall row, In row (DB.servers (snd r)) ->
     DB.is_leader row = if DB.id_is sid row then 1 else 0) /\
  (fst r = 0 <-> forall row, In row (DB.servers d) -> sid <> Some (DB.id row)) /\
  (fst r = 0 -> DB.leader_rows (snd r) = []) /\
  DB.setLeader (snd r) sid = r /\
  DB.slots (snd r) = DB.slots d /\ DB.bookings (snd r) = DB.bookings d.
Proof.
  intros r. subst r.
  split; [apply setLeader_flags|]. split; [rewrite setLeader_changes; apply changes_of_zero|].
  split; [|split; [|split; reflexivity]].
  - rewrite setLeader_changes, changes_of_zero. apply setLeader_no_row.
  - apply injective_projections.
    + rewrite !setLeader_changes. apply changes_of_servers. rewrite setLeader_rows, List.map_map. reflexivity.
    + assert (Hs : DB.servers (snd (DB.setLeader (snd (DB.setLeader d sid)) sid)) =
                   DB.servers (snd (DB.setLeader d sid))).
      { rewrite (setLeader_rows (snd (DB.setLeader d sid))), setLeader_rows, List.map_map.
        apply List.map_ext. intros r0. unfold DB.id_is, DB.set_is_leader. cbn. reflexivity. }
      revert Hs. generalize (snd (DB.setLeader d sid)) as x. intros [sl bk sq sv].
      unfold DB.setLeader, DB.mark_leader, DB.clear_leaders, DB.with_servers.
      cbn [snd DB.servers DB.slots DB.bookings DB.bookings_seq].
      intros Hs. f_equal. exact Hs.
Qed.

(** *** [getAllBookings] *)

Lemma insert_desc_In v l x : In x (DB.insert_desc v l) <-> x = v \/ In x l.
Proof.
  induction l as [|a l IH]; cbn [DB.insert_desc].
  - cbn. intuition.
  - destruct (_ <=? _); cbn [In]; [intuition|]. rewrite IH. intuition.
Qed.

Lemma order_In l x : In x (DB.order_by_timestamp_desc l) <-> In x l.
Proof.
  unfold DB.order_by_timestamp_desc.
  induction l as [|a l IH]; cbn [List.fold_right]; [reflexivity|].
  rewrite insert_desc_In, IH. cbn. intuition.
Qed.

Lemma insert_desc_sorted v l : newest_first l -> newest_first (DB.insert_desc v l).
Proof.
  unfold newest_first. intros H. induction H as [|a l Hs IH Ha]; cbn [DB.insert_desc].
  - constructor; constructor.
  - destruct (_ <=? _) eqn:E.
    + apply Z.leb_le in E. constructor; [constructor; assumption|].
      constructor; [exact E|]. rewrite List.Forall_forall in *. intros x Hx.
      specialize (Ha x Hx). cbn in Ha. lia.
    + apply Z.leb_gt in E. constructor; [exact IH|].
      rewrite List.Forall_forall in *. intros x Hx. apply insert_desc_In in Hx as [->|Hx].
      * lia.
      * apply Ha, Hx.
Qed.

Lemma order_sorted l : newest_first (DB.order_by_timestamp_desc l).
Proof.
  unfold DB.order_by_timestamp_desc.
  induction l as [|a l IH]; cbn [List.fold_right]; [constructor|].
  apply insert_desc_sorted, IH.
Qed.

Lemma insert_desc_perm v l : Permutation (DB.insert_desc v l) (v :: l).
Proof.
  induction l as [|a l IH]; cbn [DB.insert_desc]; [reflexivity|].
  destruct (_ <=? _); [reflexivity|].
  rewrite IH. apply perm_swap.
Qed.

Lemma order_perm l : Permutation (DB.order_by_timestamp_desc l) l.
Proof.
  unfold DB.order_by_timestamp_desc.
  induction l as [|a l IH]; cbn [List.fold_right]; [reflexivity|].
  rewrite insert_desc_perm. constructor. exact IH.
Qed.

Lemma join_doctors_In doctors l v :
  In v (DB.join_doctors doctors l) <->
  exists doc, In (DB.v_booking v) l /\ In doc doctors /\
              DB.d_id doc = DB.doctor_id (DB.v_booking v) /\
              DB.v_doctor_name v = DB.d_name doc /\
              DB.v_specialization v = DB.d_specialization doc.
Proof.
  unfold DB.join_doctors. rewrite in_flat_map. split.
  - intros (b & Hb & Hv). apply in_map_iff in Hv as (doc & <- & Hdoc).
    apply List.filter_In in Hdoc as [Hdoc E]. apply Z.eqb_eq in E.
    exists doc. cbn. auto.
  - intros (doc & Hb & Hdoc & E & En & Es). exists (DB.v_booking v). split; [exact Hb|].
    apply in_map_iff. exists doc. split.
    + destruct v. cbn in *. congruence.
    + apply List.filter_In. split; [exact Hdoc|]. apply Z.eqb_eq. congruence.
Qed.

(** X5.  [getAllBookings()] lists the bookings joined with their doctor,
    newest timestamp first: the listing is a rearrangement of the joined
    rows, an entry is listed exactly when its booking is in [bookings] and
    its doctor name and specialization are those of a [doctors] row with the
    booking's [doctor_id], a booking whose doctor is not in [doctors] is not
    listed, and with [id] unique in [doctors] the listing has at most one
    entry per booking. *)
Theorem getAllBookings_listing doctors d :
  let l := DB.getAllBookings doctors d in
  newest_first l /\
  Permutation l (DB.join_doctors doctors (DB.bookings d)) /\
  (forall v, In v l <->
     exists doc, In (DB.v_booking v) (DB.bookings d) /\ In doc doctors /\
                 DB.d_id doc = DB.doctor_id (DB.v_booking v) /\
                 DB.v_doctor_name v = DB.d_name doc /\
                 DB.v_specialization v = DB.d_specialization doc) /\
  (forall b, (forall doc, In doc doctors -> DB.d_id doc <> DB.doctor_id b) ->
             forall v, In v l -> DB.v_booking v <> b) /\
  (List.NoDup (List.map DB.d_id doctors) ->
   (List.length l <= List.length (DB.bookings d))%nat).
Proof.
  intros l. subst l. unfold DB.getAllBookings.
  split; [apply order_sorted|]. split; [apply order_perm|].
  assert (Hin : forall v, In v (DB.order_by_timestamp_desc (DB.join_doctors doctors (DB.bookings d))) <->
     exists doc, In (DB.v_booking v) (DB.bookings d) /\ In doc doctors /\
                 DB.d_id doc = DB.doctor_id (DB.v_booking v) /\
                 DB.v_doctor_name v = DB.d_name doc /\
                 DB.v_specialization v = DB.d_specialization doc).
  { intros v. rewrite order_In. apply join_doctors_In. }
  split; [exact Hin|]. split.
  - intros b Hno v Hv <-. apply Hin in Hv as (doc & _ & Hdoc & E & _).
    exact (Hno doc Hdoc E).
  - intros Hnd. rewrite (Permutation_length (order_perm _)). clear Hin.
    unfold DB.join_doctors.
    induction (DB.bookings d) as [|b l IH]; [cbn; lia|].
    cbn [List.flat_map List.length]. rewrite List.length_app, List.length_map.
    assert (H1 : (List.length (List.filter (fun doc => (DB.doctor_id b =? DB.d_id doc)%Z) doctors) <= 1)%nat).
    { clear IH. induction doctors as [|doc ds IHd]; [cbn; lia|].
      inversion Hnd as [|? ? Hnotin Hnd']; subst. cbn [List.filter].
      destruct (DB.doctor_id b =? DB.d_id doc) eqn:E; [|apply IHd, Hnd'].
      apply Z.eqb_eq in E. rewrite (proj2 (filter_nil_iff _ ds)); [cbn; lia|].
      intros x Hx. apply Z.eqb_neq. intros E'. apply Hnotin.
      apply in_map_iff. exists x. split; [congruence|exact Hx]. }
    lia.
Qed.

(** ** The booking route *)

Section Replicating.
Variable env : Env.

Lemma get_node_run self w n : nodes w !! self = Some n -> get_node self w = (Ok n, w).
Proof. intros H. unfold get_node. rewrite H. reflexivity. Qed.

Lemma fan_step_replicate_nodes self ev t w s :
  nodes (fan_step env self (request_of ev) t w s) = nodes w.
Proof.
  unfold fan_step. cbv zeta.
  destruct (reachable env w (Srv.port s)) eqn:Hr; [|reflexivity].
  destruct (reachable_node env w _ Hr) as [n H]. unfold exec.
  assert (H' : nodes (logged w (call_to self (route_of (request_of ev)) t s)) !! Srv.port s = Some n)
    by exact H.
  destruct ev as [body|di st]; cbn [request_of].
  - rewrite (post_replicate_booking_run env _ _ _ _ H'). cbv zeta.
    destruct (DB.createBooking _ _ _ _ _ _ _) as [[e|r] d]; reflexivity.
  - rewrite (post_replicate_slot_run env _ _ _ _ _ H'). reflexivity.
Qed.

Lemma fan_fold_replicate_nodes self ev t l w :
  nodes (fold_left (fan_step env self (request_of ev) t) l w) = nodes w.
Proof.
  revert w. induction l as [|s l IH]; intros w; cbn [fold_left]; [reflexivity|].
  rewrite IH. apply fan_step_replicate_nodes.
Qed.

Lemma fan_fold_booking_nodes self bd t l w :
  nodes (fold_left (fan_step env self (PostReplicateBooking bd) t) l w) = nodes w.
Proof. exact (fan_fold_replicate_nodes self (BookingCreated bd) t l w). Qed.

Lemma fan_fold_slot_nodes self di st t l w :
  nodes (fold_left (fan_step env self (PostReplicateSlot di st) t) l w) = nodes w.
Proof. exact (fan_fold_replicate_nodes self (SlotMarkedUnavailable di st) t l w). Qed.

Lemma replicate_run self ev w n :
  nodes w !! self = Some n ->
  replicate env self ev w =
  (Ok tt, fold_left (fan_step env self (request_of ev) 2000) (others (distManager n)) w).
Proof.
  intros H. rewrite (replicate_fan_out env self ev w n H). apply fan_out_run.
Qed.

Lemma post_bookings_run self c body w n :
  nodes w !! self = Some n ->
  post_bookings env self c body w =
  let di := Req.doctorId body in
  let pn := Req.patientName body in
  let st := Req.slotTime body in
  if negb (truthy_num di) || negb (truthy_str pn) || negb (truthy_str st)
  then (Ok (Res_status 400 "Missing required fields"), w)
  else
    let b := DB.bookSlot (open_file w (dbPath n)) di st in
    if negb (fst b)
    then (Ok (Res_status 400 "Slot no longer available"),
          set_files w (<[dbPath n := snd b]> (files w)))
    else
      match DB.createBooking (snd b) di pn st (Some c) (Some (SERVER_ID n))
              (clock env self (tick w)) with
      | (inl _, d2) =>
          (Ok (Res_status 500 "Failed to create booking"),
           mkWorld (nodes w) (<[dbPath n := d2]> (files w)) (S (tick w)) (sent w))
      | (inr r, d2) =>
          let bd := Ev.mk di pn st (Some c) (Some (snd r)) (Some (SERVER_ID n)) in
          (Ok (Res_json (mkBooked true "eventual" c (snd r) (SERVER_ID n))),
           fold_left (fan_step env self (PostReplicateSlot di st) 2000)
             (others (distManager n))
             (fold_left (fan_step env self (PostReplicateBooking bd) 2000)
                (others (distManager n))
                (mkWorld (nodes w) (<[dbPath n := d2]> (files w)) (S (tick w)) (sent w))))
      end.
Proof.
  intros H. cbv zeta. unfold post_bookings, try_catch.
  rewrite (bind_ok _ _ w _ _ (get_node_run self w n H)).
  destruct (negb (truthy_num _) || _ || _); [reflexivity|].
  rewrite (bind_ok _ _ w _ _ (db_run_run self _ w n H)).
  destruct (negb (fst _)); [reflexivity|].
  set (w1 := set_files w _).
  assert (H1 : nodes w1 !! self = Some n) by exact H.
  rewrite (bind_ok _ _ w1 _ _ (Date_now_run env self w1)).
  set (w1' := set_tick w1 _).
  assert (H1' : nodes w1' !! self = Some n) by exact H.
  unfold db_try. unfold bind at 1.
  rewrite (bind_ok _ _ w1' _ _ (db_run_run self _ w1' n H1')).
  assert (Ef : open_file w1' (dbPath n) = snd (DB.bookSlot (open_file w (dbPath n))
                                              (Req.doctorId body) (Req.slotTime body))).
  { subst w1' w1. unfold set_tick, set_files. red_w. apply open_file_written. }
  rewrite Ef. subst w1' w1. unfold set_tick, set_files. red_w.
  rewrite insert_insert_eq.
  destruct (DB.createBooking _ _ _ _ _ _ _) as [[e|r] d2]; cbn [fst snd].
  - reflexivity.
  - unfold ret at 1. set (w2 := mkWorld _ _ _ _).
    assert (H2 : nodes w2 !! self = Some n) by exact H.
    set (bd := Ev.mk _ _ _ _ _ _).
    unfold bind at 1. unfold bind at 1.
    change (replicateBooking env self bd) with (replicate env self (BookingCreated bd)).
    rewrite (replicate_run self _ w2 n H2).
    set (w3 := fold_left _ _ w2).
    assert (H3 : nodes w3 !! self = Some n).
    { subst w3. rewrite (fan_fold_replicate_nodes self (BookingCreated bd)). exact H2. }
    change (replicateSlotUpdate env self (Req.doctorId body) (Req.slotTime body))
      with (replicate env self (SlotMarkedUnavailable (Req.doctorId body) (Req.slotTime body))).
    rewrite (replicate_run self _ w3 n H3). reflexivity.
Qed.

End Replicating.

Section Booking.
Variable env : Env.

Lemma filled_missing body :
  negb (truthy_num (Req.doctorId body)) || negb (truthy_str (Req.patientName body))
  || negb (truthy_str (Req.slotTime body)) = negb (filled body).
Proof.
  unfold filled. destruct (truthy_num _), (truthy_str (Req.patientName body)), (truthy_str (Req.slotTime body)); reflexivity.
Qed.

Lemma open_file_same_insert w path d p :
  open_file w p = d ->
  open_file (set_files w (<[p := d]> (files w))) path = open_file w path.
Proof.
  intros E. unfold set_files. rewrite open_file_insert.
  destruct (decide (p = path)) as [<-|_]; [symmetry; exact E|reflexivity].
Qed.


Lemma createBooking_seen d di pn st c si now :
  DB.has_confirmation c (DB.bookings d) = true ->
  exists e, DB.createBooking d di pn st (Some c) si now = (inl e, d).
Proof.
  intros H. unfold DB.createBooking.
  destruct di, pn, st, si; try (eexists; reflexivity).
  rewrite H. eexists; reflexivity.
Qed.

(** The slot write of a booking request that finds the slot taken. *)
Lemma post_bookings_slot_taken self c body w n :
  nodes w !! self = Some n ->
  filled body = true ->
  taken (Req.doctorId body) (Req.slotTime body) (open_file w (dbPath n)) ->
  exists w',
    post_bookings env self c body w =
      (Ok (Res_status 400 "Slot no longer available"), w') /\
    nodes w' = nodes w /\ (forall path, open_file w' path = open_file w path) /\
    sent w' = sent w /\ tick w' = tick w.
Proof.
  intros H Hf Ht. rewrite (post_bookings_run env self c body w n H). cbv zeta.
  rewrite filled_missing, Hf. cbn [negb].
  rewrite (bookSlot_when_taken _ _ _ Ht). cbn [fst snd negb].
  eexists. split; [reflexivity|]. split; [reflexivity|]. split; [|split; reflexivity].
  intros path. apply open_file_same_insert. reflexivity.
Qed.

Lemma fan_step_booking_keeps self bd c t w s path d2 :
  Ev.confirmationId bd = Some c ->
  DB.has_confirmation c (DB.bookings d2) = true ->
  open_file w path = d2 ->
  open_file (fan_step env self (PostReplicateBooking bd) t w s) path = d2.
Proof.
  intros Hc Hh E. unfold fan_step. cbv zeta.
  destruct (reachable env w (Srv.port s)) eqn:Hr; [|exact E].
  destruct (reachable_node env w _ Hr) as [nt H]. unfold exec.
  assert (H' : nodes (logged w (call_to self (route_of (PostReplicateBooking bd)) t s))
               !! Srv.port s = Some nt) by exact H.
  rewrite (post_replicate_booking_run env _ _ _ _ H'). cbv zeta.
  destruct (decide (dbPath nt = path)) as [Ep|Ep].
  - assert (Eo : open_file (logged w (call_to self (route_of (PostReplicateBooking bd)) t s))
                   (dbPath nt) = d2) by (rewrite Ep; exact E).
    rewrite Eo, Hc.
    destruct (createBooking_seen d2 (Ev.doctorId bd) (Ev.patientName bd) (Ev.slotTime bd) c
                (Ev.serverId bd) (clock env (Srv.port s) (tick (logged w (call_to self (route_of (PostReplicateBooking bd)) t s)))) Hh) as [e He].
    rewrite He. cbn [snd]. rewrite Ep. apply open_file_written.
  - destruct (DB.createBooking _ _ _ _ _ _ _) as [[e|r] d]; cbn [snd];
      rewrite open_file_insert; destruct (decide (dbPath nt = path)); try contradiction;
      exact E.
Qed.

Lemma fan_step_slot_keeps self di st t w s path d2 :
  taken di st d2 ->
  open_file w path = d2 ->
  open_file (fan_step env self (PostReplicateSlot di st) t w s) path = d2.
Proof.
  intros Ht E. unfold fan_step. cbv zeta.
  destruct (reachable env w (Srv.port s)) eqn:Hr; [|exact E].
  destruct (reachable_node env w _ Hr) as [nt H]. unfold exec.
  assert (H' : nodes (logged w (call_to self (route_of (PostReplicateSlot di st)) t s))
               !! Srv.port s = Some nt) by exact H.
  rewrite (post_replicate_slot_run env _ _ _ _ _ H'). cbn [snd].
  unfold set_files. rewrite open_file_insert.
  destruct (decide (dbPath nt = path)) as [Ep|Ep]; [|exact E].
  assert (Eo : open_file (logged w (call_to self (route_of (PostReplicateSlot di st)) t s))
                 (dbPath nt) = d2) by (rewrite Ep; exact E).
  rewrite Eo, (bookSlot_when_taken _ _ _ Ht). reflexivity.
Qed.

Lemma fan_fold_keeps {A} (req : Request A) self t l w path d2 :
  (forall w s, open_file w path = d2 ->
               open_file (fan_step env self req t w s) path = d2) ->
  open_file w path = d2 ->
  open_file (fold_left (fan_step env self req t) l w) path = d2.
Proof.
  intros Hstep. revert w. induction l as [|s l IH]; intros w E; cbn [fold_left]; [exact E|].
  apply IH, Hstep, E.
Qed.


(** What an accepted booking request leaves behind. *)
Lemma post_bookings_accepted_run self c body w n reply w' :
  nodes w !! self = Some n ->
  post_bookings env self c body w = (Ok (Res_json reply), w') ->
  let di := Req.doctorId body in
  let st := Req.slotTime body in
  let d1 := snd (DB.bookSlot (open_file w (dbPath n)) di st) in
  exists r d2 row,
    filled body = true /\
    fst (DB.bookSlot (open_file w (dbPath n)) di st) = true /\
    DB.createBooking d1 di (Req.patientName body) st (Some c) (Some (SERVER_ID n))
      (clock env self (tick w)) = (inr r, d2) /\
    d2 = DB.mkDatabase (DB.slots d1) (DB.bookings d1 ++ [row]) (DB.b_id row) (DB.servers d1) /\
    DB.confirmation_id row = c /\
    reply = mkBooked true "eventual" c (snd r) (SERVER_ID n) /\
    w' = fold_left (fan_step env self (PostReplicateSlot di st) 2000)
           (others (distManager n))
           (fold_left (fan_step env self
                         (PostReplicateBooking
                            (Ev.mk di (Req.patientName body) st (Some c) (Some (snd r))
                               (Some (SERVER_ID n)))) 2000)
              (others (distManager n))
              (mkWorld (nodes w) (<[dbPath n := d2]> (files w)) (S (tick w)) (sent w))) /\
    nodes w' = nodes w /\
    open_file w' (dbPath n) = d2 /\
    taken di st d2.
Proof.
  intros H E di st d1. rewrite (post_bookings_run env self c body w n H) in E. cbv zeta in E.
  rewrite filled_missing in E.
  destruct (filled body) eqn:Ef; cbn [negb] in E; [|discriminate].
  destruct (fst (DB.bookSlot _ _ _)) eqn:Eb; cbn [negb] in E; [|discriminate].
  destruct (DB.createBooking _ _ _ _ _ _ _) as [[e|r] d2] eqn:Ec; [discriminate|].
  injection E as <- <-.
  destruct (createBooking_accepted _ _ _ _ _ _ _ _ _ Ec) as (c' & row & [= <-] & Hrow & Hfresh & Hd2 & _).
  exists r, d2, row. fold di st d1 in Ec, Hd2 |- *.
  assert (Hh : DB.has_confirmation c (DB.bookings d2) = true).
  { rewrite Hd2. cbn [DB.bookings]. rewrite has_confirmation_app. cbn.
    rewrite Hrow, String.eqb_refl. apply orb_true_r. }
  assert (Ht : taken di st d2).
  { rewrite Hd2. unfold taken. cbn [DB.slots]. apply bookSlot_taken. }
  repeat (split; [first [reflexivity|assumption]|]).
  split.
  - rewrite fan_fold_slot_nodes, fan_fold_booking_nodes. reflexivity.
  - split; [|exact Ht].
    apply fan_fold_keeps; [intros; apply fan_step_slot_keeps; assumption|].
    apply fan_fold_keeps;
      [intros; eapply fan_step_booking_keeps; [reflexivity|exact Hh|assumption]|].
    apply open_file_written.
Qed.

Lemma fold_stands_all self ev l w path :
  stands (open_file w path)
    (open_file (fold_left (fan_step env self (request_of ev) 2000) l w) path).
Proof. apply fan_fold_stands. Qed.

End Booking.

(** X6.  [POST /api/bookings] with [doctorId], [patientName] or [slotTime]
    missing or falsy (0, the empty string) answers 400 "Missing required
    fields" and changes nothing.  With all three there and the slot not
    free in the node's store, it answers 400 "Slot no longer available": no
    store changes, no booking is written, and no request is sent to any
    other server. *)
Theorem post_bookings_refused env w self n c body :
  nodes w !! self = Some n ->
  (filled body = false ->
   post_bookings env self c body w = (Ok (Res_status 400 "Missing required fields"), w)) /\
  (filled body = true ->
   (forall i t, Req.doctorId body = Some i -> Req.slotTime body = Some t ->
                ~ bookable i t (file_of w self)) ->
   exists w',
     post_bookings env self c body w =
       (Ok (Res_status 400 "Slot no longer available"), w') /\
     nodes w' = nodes w /\ (forall path, open_file w' path = open_file w path) /\
     sent w' = sent w /\ tick w' = tick w).
Proof.
  intros H. split.
  - intros Hf. rewrite (post_bookings_run env self c body w n H). cbv zeta.
    rewrite filled_missing, Hf. reflexivity.
  - intros Hf Hno. apply (post_bookings_slot_taken env self c body w n H Hf).
    unfold file_of in Hno. rewrite H in Hno.
    destruct (Req.doctorId body) as [i|] eqn:Ei; [|intros row _; reflexivity].
    destruct (Req.slotTime body) as [t|] eqn:Et;
      [|intros row _; unfold DB.slot_matches; reflexivity].
    apply taken_not_bookable, Hno; reflexivity.
Qed.

Lemma post_bookings_refused_witness :
  post_bookings env_up 5001 "CONF7" (Req.mk (Some 1) None (Some "09:00")) cluster_own =
    (Ok (Res_status 400 "Missing required fields"), cluster_own) /\
  post_bookings env_up 5001 "CONF7" (Req.mk (Some 0) (Some "Asha") (Some "09:00")) cluster_own =
    (Ok (Res_status 400 "Missing required fields"), cluster_own) /\
  exists w',
    post_bookings env_up 5001 "CONF7" (Req.mk (Some 2) (Some "Asha") (Some "09:00")) cluster_own =
      (Ok (Res_status 400 "Slot no longer available"), w') /\
    nodes w' = nodes cluster_own /\
    (forall path, open_file w' path = open_file cluster_own path) /\
    sent w' = sent cluster_own /\ tick w' = tick cluster_own.
Proof.
  assert (Hn : nodes cluster_own !! 5001 = Some (node_at 1 "n1/hospital.db")) by reflexivity.
  split; [|split].
  - apply (proj1 (post_bookings_refused env_up cluster_own 5001 _ "CONF7"
                    (Req.mk (Some 1) None (Some "09:00")) Hn)). reflexivity.
  - apply (proj1 (post_bookings_refused env_up cluster_own 5001 _ "CONF7"
                    (Req.mk (Some 0) (Some "Asha") (Some "09:00")) Hn)). reflexivity.
  - apply (proj2 (post_bookings_refused env_up cluster_own 5001 _ "CONF7"
                    (Req.mk (Some 2) (Some "Asha") (Some "09:00")) Hn)); [reflexivity|].
    intros i t [= <-] [= <-] (row & Hin & Hd & Ht & _).
    vm_compute in Hin. destruct Hin as [<-|[<-|[<-|[]]]]; discriminate.
Defined.

Section Listing.
Variable env : Env.


Lemma get_slots_run self dj w n :
  nodes w !! self = Some n ->
  get_slots env self dj w =
  (Ok (Res_json (mkListing
                   (List.map DB.s_slot_time (DB.getAvailableSlots (open_file w (dbPath n)) dj))
                   (SERVER_ID n) (clock env self (tick w)))),
   set_tick w (S (tick w))).
Proof.
  intros H. unfold get_slots, try_catch.
  rewrite (bind_ok _ _ w _ _ (get_node_run self w n H)).
  rewrite (bind_ok _ _ w _ _ (db_read_run self _ w n H)).
  rewrite (bind_ok _ _ w _ _ (Date_now_run env self w)). reflexivity.
Qed.

Lemma times_without i t j l :
  (forall r, In r l -> DB.s_doctor_id r = j) ->
  List.map DB.s_slot_time
    (List.filter (fun r => negb ((DB.s_doctor_id r =? i) && String.eqb (DB.s_slot_time r) t)) l) =
  if j =? i
  then List.filter (fun t' => negb (String.eqb t' t)) (List.map DB.s_slot_time l)
  else List.map DB.s_slot_time l.
Proof.
  intros Hj. induction l as [|r l IH].
  - destruct (j =? i); reflexivity.
  - cbn [List.filter List.map].
    rewrite (Hj r (or_introl eq_refl)).
    assert (IH' := IH (fun x Hx => Hj x (or_intror Hx))). clear IH.
    destruct (j =? i); cbn [andb List.filter].
    + destruct (String.eqb (DB.s_slot_time r) t); cbn [negb List.map]; [|f_equal]; exact IH'.
    + cbn [negb List.map]. f_equal. exact IH'.
Qed.

End Listing.





(** X9.  [POST /api/bookings] marks the slot before it inserts the booking,
    and does not undo the mark: when the slot is free but the insert is
    rejected because the confirmation id is already in [bookings], the
    answer is 500 "Failed to create booking", no booking row is added and
    nothing is replicated, yet the slot stays marked as taken in the node's
    store. *)
Theorem post_bookings_insert_rejected env w self n c body :
  nodes w !! self = Some n ->
  filled body = true ->
  fst (DB.bookSlot (file_of w self) (Req.doctorId body) (Req.slotTime body)) = true ->
  DB.has_confirmation c (DB.bookings (file_of w self)) = true ->
  exists w',
    post_bookings env self c body w = (Ok (Res_status 500 "Failed to create booking"), w') /\
    nodes w' = nodes w /\ sent w' = sent w /\
    file_of w' self =
      snd (DB.bookSlot (file_of w self) (Req.doctorId body) (Req.slotTime body)) /\
    DB.bookings (file_of w' self) = DB.bookings (file_of w self) /\
    (forall i t, Req.doctorId body = Some i -> Req.slotTime body = Some t ->
                 ~ bookable i t (file_of w' self)).
Proof.
  intros H Hf Hb Hc. unfold file_of in *. rewrite H in *.
  rewrite (post_bookings_run env self c body w n H). cbv zeta.
  rewrite filled_missing, Hf, Hb. cbn [negb].
  destruct (createBooking_seen (snd (DB.bookSlot (open_file w (dbPath n)) (Req.doctorId body)
                                       (Req.slotTime body)))
              (Req.doctorId body) (Req.patientName body) (Req.slotTime body) c
              (Some (SERVER_ID n)) (clock env self (tick w))) as [e He].
  { rewrite bookSlot_bookings. exact Hc. }
  rewrite He. eexists. split; [reflexivity|]. red_w. rewrite H.
  rewrite open_file_written. repeat split.
  intros i t -> ->. apply taken_not_bookable, bookSlot_taken.
Qed.

Lemma post_bookings_insert_rejected_witness :
  let w := exec (post_bookings env_up 5001 "CONF7" body_0900) cluster_own in
  exists w',
    post_bookings env_up 5001 "CONF7" (Req.mk (Some 1) (Some "Bela") (Some "09:30")) w =
      (Ok (Res_status 500 "Failed to create booking"), w') /\
    nodes w' = nodes w /\ sent w' = sent w /\
    List.map DB.patient_name (DB.bookings (file_of w' 5001)) = ["Asha"] /\
    List.map DB.s_is_available (DB.slots (file_of w 5001)) = [0; 1; 1] /\
    List.map DB.s_is_available (DB.slots (file_of w' 5001)) = [0; 0; 1] /\
    ~ bookable 1 "09:30" (file_of w' 5001).
Proof.
  intros w.
  assert (Hn : nodes w !! 5001 = Some (node_at 1 "n1/hospital.db")) by (vm_compute; reflexivity).
  assert (Hb : fst (DB.bookSlot (file_of w 5001) (Some 1) (Some "09:30")) = true)
    by (vm_compute; reflexivity).
  assert (Hc : DB.has_confirmation "CONF7" (DB.bookings (file_of w 5001)) = true)
    by (vm_compute; reflexivity).
  destruct (post_bookings_insert_rejected env_up w 5001 _ "CONF7"
              (Req.mk (Some 1) (Some "Bela") (Some "09:30")) Hn eq_refl Hb Hc)
    as (w' & E & En & Es & Ef & Ebk & Hno).
  exists w'. split; [exact E|]. split; [exact En|]. split; [exact Es|].
  split; [rewrite Ebk; vm_compute; reflexivity|].
  split; [vm_compute; reflexivity|].
  split; [rewrite Ef; vm_compute; reflexivity|].
  apply Hno; reflexivity.
Defined.

(** X10.  [GET /api/doctors/:id/slots] after an accepted booking, asked at
    the node that took it: for the booked doctor the listed times are those
    listed before without the booked time, for any other doctor they are
    the same; the booked time is no longer offered. *)
Theorem get_slots_after_booking env w self n c body reply w' i t j :
  nodes w !! self = Some n ->
  post_bookings env self c body w = (Ok (Res_json reply), w') ->
  Req.doctorId body = Some i -> Req.slotTime body = Some t ->
  exists l l',
    eval (get_slots env self (Some j)) w = Ok (Res_json l) /\
    eval (get_slots env self (Some j)) w' = Ok (Res_json l') /\
    l_data l' = (if j =? i
                 then List.filter (fun t' => negb (String.eqb t' t)) (l_data l)
                 else l_data l) /\
    (j = i -> ~ In t (l_data l')).
Proof.
  intros H E Hi Ht.
  destruct (post_bookings_accepted_run env self c body w n _ _ H E)
    as (r & d2 & row & _ & _ & _ & Hd2 & _ & _ & _ & Hn & Ho & _).
  assert (H' : nodes w' !! self = Some n) by (rewrite Hn; exact H).
  unfold eval. rewrite (get_slots_run env self (Some j) w n H),
    (get_slots_run env self (Some j) w' n H'). cbn [fst].
  eexists _, _. split; [reflexivity|]. split; [reflexivity|]. cbn [l_data].
  rewrite Ho, Hd2, Hi, Ht.
  rewrite (getAvailableSlots_slots
             (snd (DB.bookSlot (open_file w (dbPath n)) (Some i) (Some t))) _ (Some j))
    by reflexivity.
  rewrite getAvailableSlots_bookSlot_rows, (times_without i t j).
  2:{ intros r0 Hr0. apply List.filter_In in Hr0 as [_ Ho'].
      apply slot_open_spec in Ho'. tauto. }
  split; [reflexivity|].
  intros ->. rewrite Z.eqb_refl. intros Hin. apply List.filter_In in Hin as [_ Hne].
  rewrite String.eqb_refl in Hne. discriminate.
Qed.

Lemma get_slots_after_booking_witness :
  let w' := exec (post_bookings env_up 5001 "CONF7" body_0900) cluster_own in
  exists l l',
    eval (get_slots env_up 5001 (Some 1)) cluster_own = Ok (Res_json l) /\
    eval (get_slots env_up 5001 (Some 1)) w' = Ok (Res_json l') /\
    l_data l = ["09:00"; "09:30"] /\ l_data l' = ["09:30"] /\
    ~ In "09:00" (l_data l').
Proof.
  intros w'.
  assert (E : post_bookings env_up 5001 "CONF7" body_0900 cluster_own =
              (Ok (Res_json (mkBooked true "eventual" "CONF7" 1000 1)), w'))
    by (vm_compute; reflexivity).
  assert (Hn : nodes cluster_own !! 5001 = Some (node_at 1 "n1/hospital.db")) by reflexivity.
  destruct (get_slots_after_booking env_up cluster_own 5001 _ "CONF7" body_0900 _ w' 1 "09:00" 1
              Hn E eq_refl eq_refl) as (l & l' & E1 & E2 & Hd & Hnot).
  exists l, l'. split; [exact E1|]. split; [exact E2|].
  assert (Hl : l_data l = ["09:00"; "09:30"]).
  { vm_compute in E1. injection E1 as <-. reflexivity. }
  split; [exact Hl|]. split; [rewrite Hd, Hl; reflexivity|]. apply Hnot. reflexivity.
Defined.

(** ** Heartbeat, monitoring, shutdown and the concurrent batch *)

Section Manager.
Variable env : Env.

Lemma Forall2_map_r {A B} (R : A -> B -> Prop) (f : A -> B) l :
  (forall x, In x l -> R x (f x)) -> Forall2 R l (List.map f l).
Proof.
  induction l as [|a l IH]; intros H; cbn [List.map]; constructor.
  - apply H. left. reflexivity.
  - apply IH. intros x Hx. apply H. right. exact Hx.
Qed.

Lemma heartbeat_run self w n :
  nodes w !! self = Some n ->
  heartbeat env self w =
  (Ok tt,
   mkWorld
     (<[self := set_manager n (set_lastHeartbeat (distManager n) (clock env self (tick w)))]>
        (nodes w))
     (<[dbPath n := snd (DB.updateServerHeartbeat (open_file w (dbPath n))
                           (Some (serverId (distManager n)))
                           (clock env self (S (tick w))))]> (files w))
     (S (S (tick w))) (sent w)).
Proof.
  intros H. unfold heartbeat.
  rewrite (bind_ok _ _ w _ _ (Date_now_run env self w)).
  set (w1 := set_tick w _).
  assert (H1 : nodes w1 !! self = Some n) by exact H.
  rewrite (bind_ok _ _ w1 _ _ (update_this_run self _ w1 n H1)).
  set (w2 := set_nodes w1 _).
  assert (H2 : nodes w2 !! self =
               Some (set_manager n (set_lastHeartbeat (distManager n) (clock env self (tick w)))))
    by apply lookup_insert_eq.
  rewrite (bind_ok _ _ w2 _ _ (this_run self w2 _ H2)).
  rewrite (bind_ok _ _ w2 _ _ (Date_now_run env self w2)).
  set (w3 := set_tick w2 _).
  assert (H3 : nodes w3 !! self =
               Some (set_manager n (set_lastHeartbeat (distManager n) (clock env self (tick w)))))
    by exact H2.
  rewrite (bind_ok _ _ w3 _ _ (db_run_run self _ w3 _ H3)).
  reflexivity.
Qed.

Lemma updateServerHeartbeat_beat d sid now :
  Forall2 (beat sid now) (DB.servers d)
    (DB.servers (snd (DB.updateServerHeartbeat d (Some sid) now))).
Proof.
  unfold DB.updateServerHeartbeat, DB.with_servers. cbn [snd DB.servers].
  apply Forall2_map_r. intros r _. unfold beat, DB.id_is.
  destruct (DB.id r =? sid); cbn; repeat split.
Qed.

Lemma updateServerHeartbeat_no_row d sid now :
  (forall row, In row (DB.servers d) -> DB.id row <> sid) ->
  DB.updateServerHeartbeat d (Some sid) now = (0, d).
Proof.
  intros Hno. unfold DB.updateServerHeartbeat. f_equal.
  - apply changes_of_zero. intros row Hin E. apply (Hno row Hin). congruence.
  - unfold DB.with_servers. rewrite map_id_on.
    + destruct d; reflexivity.
    + intros r Hr. unfold DB.id_is.
      destruct (DB.id r =? sid) eqn:E; [|reflexivity].
      apply Z.eqb_eq in E. destruct (Hno r Hr E).
Qed.

Lemma leader_ids_beat sid now l l' :
  Forall2 (beat sid now) l l' ->
  List.map DB.id (List.filter (fun r => negb (DB.is_leader r =? 0)) l') =
  List.map DB.id (List.filter (fun r => negb (DB.is_leader r =? 0)) l).
Proof.
  induction 1 as [|r r' l l' Hb _ IH]; [reflexivity|].
  destruct Hb as (Hid & _ & _ & _ & Hl & _). cbn [List.filter].
  rewrite Hl. destruct (negb _); cbn [List.map]; rewrite ?Hid, IH; reflexivity.
Qed.

Lemma get_health_step self w s :
  let w' := fan_step env self GetHealth 2000 w s in
  nodes w' = nodes w /\ files w' = files w.
Proof.
  unfold fan_step. cbv zeta.
  destruct (reachable env w (Srv.port s)) eqn:Hr; [|split; reflexivity].
  destruct (reachable_node env w _ Hr) as [nt Ht]. unfold exec.
  assert (H' : nodes (logged w (call_to self (route_of GetHealth) 2000 s)) !! Srv.port s = Some nt)
    by exact Ht.
  rewrite (get_health_run env _ _ _ H'). split; reflexivity.
Qed.

Lemma get_health_fold self l w :
  let w' := fold_left (fan_step env self GetHealth 2000) l w in
  nodes w' = nodes w /\ files w' = files w.
Proof.
  revert w. induction l as [|s l IH]; intros w; cbn [fold_left]; [split; reflexivity|].
  destruct (IH (fan_step env self GetHealth 2000 w s)) as [E1 E2].
  destruct (get_health_step self w s) as [E3 E4].
  cbv zeta in *. split; congruence.
Qed.

Lemma shutdown_trigger_run self w n :
  nodes w !! self = Some n ->
  exists w',
    shutdown_trigger env self w = (Ok tt, w') /\
    nodes w' = nodes w /\ files w' = files w /\ tick w' = tick w /\
    sent w' = (sent w ++ trigger_calls self (distManager n))%list.
Proof.
  intros H. unfold shutdown_trigger, try_catch, trigger_calls.
  rewrite (bind_ok _ _ w _ _ (this_run self w n H)).
  destruct (others (distManager n)) as [|first rest].
  { exists w. rewrite app_nil_r. repeat split. }
  unfold bind. rewrite axios_run. cbv zeta.
  destruct (reachable env w (Srv.port first)) eqn:Hr.
  - destruct (reachable_node env w _ Hr) as [nt Ht].
    assert (H' : nodes (logged w (mkOutCall self (Srv.port first)
                                    (route_of (PostElection None None)) 0))
                 !! Srv.port first = Some nt) by exact Ht.
    rewrite (post_election_run env _ _ _ _ _ H'). cbn [js_lt snd].
    destruct (answers env w (Srv.port first)); eexists; (split; [reflexivity|]);
      repeat split.
  - eexists. split; [reflexivity|]. repeat split.
Qed.

Lemma shutdown_run self w n :
  nodes w !! self = Some n ->
  shutdown env self w =
  (Ok (if isLeader (distManager n) then Some (1000, shutdown_trigger env self) else None),
   mkWorld (nodes w)
     (<[dbPath n := snd (DB.updateServerStatus (open_file w (dbPath n))
                           (Some (serverId (distManager n))) 0 false "inactive"
                           (clock env self (tick w)))]> (files w))
     (S (tick w)) (sent w)).
Proof.
  intros H. unfold shutdown.
  rewrite (bind_ok _ _ w _ _ (this_run self w n H)).
  rewrite (bind_ok _ _ w _ _ (Date_now_run env self w)).
  set (w1 := set_tick w _).
  assert (H1 : nodes w1 !! self = Some n) by exact H.
  rewrite (bind_ok _ _ w1 _ _ (db_run_run self _ w1 n H1)).
  set (w2 := set_files w1 _).
  assert (H2 : nodes w2 !! self = Some n) by exact H.
  rewrite (bind_ok _ _ w2 _ _ (this_run self w2 n H2)).
  destruct (isLeader (distManager n)); reflexivity.
Qed.

Lemma updateServerStatus_retired d sid now :
  Forall2 (retired sid now) (DB.servers d)
    (DB.servers (snd (DB.updateServerStatus d (Some sid) 0 false "inactive" now))).
Proof.
  unfold DB.updateServerStatus, DB.with_servers. cbn [snd DB.servers].
  apply Forall2_map_r. intros r _. unfold retired, DB.id_is. reflexivity.
Qed.

Lemma retired_no_leader sid now l l' :
  Forall2 (retired sid now) l l' ->
  (forall r, In r l -> DB.is_leader r = if DB.id r =? sid then 1 else 0) ->
  List.filter (fun r => negb (DB.is_leader r =? 0)) l' = [].
Proof.
  induction 1 as [|r r' l l' Hr _ IH]; intros Hl; [reflexivity|].
  cbn [List.filter]. rewrite IH by (intros x Hx; apply Hl; right; exact Hx).
  specialize (Hl r (or_introl eq_refl)). unfold retired in Hr. subst r'.
  destruct (DB.id r =? sid); [reflexivity|]. rewrite Hl. reflexivity.
Qed.

End Manager.

(** X11.  One tick of the heartbeat interval of [startHeartbeat]: the
    manager's [lastHeartbeat] becomes the time read first, and in the node's
    database only [last_heartbeat] of the rows with the node's id changes,
    to the time read by [updateServerHeartbeat].  No flag, status or
    connection count changes, so the flagged leaders are the same; no
    message is sent and no other file is written; when no row has the
    node's id, the database is as it was. *)
Theorem heartbeat_writes_only_heartbeat env w self n :
  nodes w !! self = Some n ->
  let m := distManager n in
  let d := open_file w (dbPath n) in
  exists w',
    heartbeat env self w = (Ok tt, w') /\
    nodes w' = <[self := set_manager n (set_lastHeartbeat m (clock env self (tick w)))]>
                 (nodes w) /\
    sent w' = sent w /\
    (forall path, path <> dbPath n -> open_file w' path = open_file w path) /\
    let d' := open_file w' (dbPath n) in
    DB.slots d' = DB.slots d /\ DB.bookings d' = DB.bookings d /\
    Forall2 (beat (serverId m) (clock env self (S (tick w)))) (DB.servers d) (DB.servers d') /\
    List.map DB.id (DB.leader_rows d') = List.map DB.id (DB.leader_rows d) /\
    ((forall row, In row (DB.servers d) -> DB.id row <> serverId m) -> d' = d).
Proof.
  intros H m d. rewrite (heartbeat_run env self w n H). eexists. split; [reflexivity|].
  split; [reflexivity|]. split; [reflexivity|]. split.
  - intros path Hne. rewrite open_file_insert.
    destruct (decide (dbPath n = path)); [congruence|reflexivity].
  - cbv zeta. rewrite open_file_written. fold d m.
    split; [reflexivity|]. split; [reflexivity|].
    pose proof (updateServerHeartbeat_beat d (serverId m) (clock env self (S (tick w)))) as Hb.
    split; [exact Hb|]. split.
    + unfold DB.leader_rows. apply (leader_ids_beat _ _ _ _ Hb).
    + intros Hno. rewrite (updateServerHeartbeat_no_row d _ _ Hno). reflexivity.
Qed.

Lemma heartbeat_writes_only_heartbeat_witness :
  exists w',
    heartbeat env_up 5002 cluster_shared = (Ok tt, w') /\
    sent w' = [] /\
    DB.servers (open_file w' "./hospital.db") =
      [DB.mkServer 1 "Server-Mumbai" 5001 0 1 0 "active";
       DB.mkServer 2 "Server-Delhi" 5002 0 0 1001 "active";
       DB.mkServer 3 "Server-Bangalore" 5003 0 0 0 "active"].
Proof.
  destruct (heartbeat_writes_only_heartbeat env_up cluster_shared 5002
              (node_at 2 "./hospital.db") eq_refl) as (w' & E & _ & Hs & _).
  exists w'. split; [exact E|]. split; [exact Hs|].
  vm_compute in E. injection E as <-. reflexivity.
Defined.

(** X12.  One tick of the leader check of [startLeaderCheck]: a leader
    sends [GET /api/health] with a 2000 ms timeout to every other server of
    its list, a node that does not lead sends nothing; whatever the peers
    answer, no manager and no database changes: a peer that does not
    answer is only logged. *)
Theorem leaderCheck_changes_nothing env w self n :
  nodes w !! self = Some n ->
  exists w',
    leaderCheck env self w = (Ok tt, w') /\
    nodes w' = nodes w /\ files w' = files w /\
    sent w' = (sent w ++
               if isLeader (distManager n)
               then List.map (call_to self R_health 2000) (others (distManager n))
               else [])%list.
Proof.
  intros H. unfold leaderCheck.
  rewrite (bind_ok _ _ w _ _ (this_run self w n H)).
  destruct (isLeader (distManager n)); cbn [negb].
  - change (for_of (others (distManager n)) _)
      with (fan_out env self GetHealth 2000 (others (distManager n))).
    rewrite fan_out_run. eexists. split; [reflexivity|].
    destruct (get_health_fold env self (others (distManager n)) w) as [E1 E2].
    split; [exact E1|]. split; [exact E2|]. apply fan_fold_sent.
  - exists w. rewrite app_nil_r. repeat split.
Qed.

Lemma leaderCheck_changes_nothing_witness :
  let w := exec (becomeLeader env_3_down 5001) cluster_own in
  exists n w',
    nodes w !! 5001 = Some n /\ isLeader (distManager n) = true /\
    leaderCheck env_3_down 5001 w = (Ok tt, w') /\
    nodes w' = nodes w /\ files w' = files w /\
    sent w' = (sent w ++ List.map (call_to 5001 R_health 2000) (others (distManager n)))%list.
Proof.
  intros w.
  assert (Hn : nodes w !! 5001 =
               Some (set_manager (node_at 1 "n1/hospital.db")
                       (set_isLeader (distManager (node_at 1 "n1/hospital.db")) true)))
    by (vm_compute; reflexivity).
  destruct (leaderCheck_changes_nothing env_3_down w 5001 _ Hn) as (w' & E & H1 & H2 & H3).
  eexists _, w'. split; [exact Hn|]. split; [reflexivity|]. split; [exact E|].
  split; [exact H1|]. split; [exact H2|exact H3].
Defined.

(** X13.  [shutdown()] writes 0 connections, no leader flag, the current
    time and status "inactive" into the rows of the node's own id and
    leaves every other row, [slots] and [bookings] alone; it sends nothing
    itself and changes no manager.  Exactly when the manager leads it
    defers the election trigger by 1000 ms.  If the store named this node
    as the only leader, it names no leader afterwards. *)
Theorem shutdown_retires_the_node env w self n :
  nodes w !! self = Some n ->
  let m := distManager n in
  let d := open_file w (dbPath n) in
  exists w',
    shutdown env self w =
      (Ok (if isLeader m then Some (1000, shutdown_trigger env self) else None), w') /\
    nodes w' = nodes w /\ sent w' = sent w /\
    (forall path, path <> dbPath n -> open_file w' path = open_file w path) /\
    let d' := open_file w' (dbPath n) in
    DB.slots d' = DB.slots d /\ DB.bookings d' = DB.bookings d /\
    Forall2 (retired (serverId m) (clock env self (tick w))) (DB.servers d) (DB.servers d') /\
    (leader_is (serverId m) d -> DB.leader_rows d' = []).
Proof.
  intros H m d. rewrite (shutdown_run env self w n H). eexists. split; [reflexivity|].
  split; [reflexivity|]. split; [reflexivity|]. split.
  - intros path Hne. rewrite open_file_insert.
    destruct (decide (dbPath n = path)); [congruence|reflexivity].
  - cbv zeta. rewrite open_file_written. fold d m.
    split; [reflexivity|]. split; [reflexivity|].
    pose proof (updateServerStatus_retired d (serverId m) (clock env self (tick w))) as Hr.
    split; [exact Hr|]. intros Hl. unfold DB.leader_rows.
    apply (retired_no_leader _ _ _ _ Hr). exact Hl.
Qed.

Lemma shutdown_retires_the_node_witness :
  exists w',
    shutdown env_up 5001 cluster_own = (Ok None, w') /\
    DB.servers (file_of w' 5001) =
      [DB.mkServer 1 "Server-Mumbai" 5001 0 0 1000 "inactive";
       DB.mkServer 2 "Server-Delhi" 5002 0 0 0 "active";
       DB.mkServer 3 "Server-Bangalore" 5003 0 0 0 "active"] /\
    DB.leader_rows (file_of w' 5001) = [].
Proof.
  destruct (shutdown_retires_the_node env_up cluster_own 5001
              (node_at 1 "n1/hospital.db") eq_refl) as (w' & E & Hn & _ & _ & _ & _ & _ & Hl).
  exists w'. split; [exact E|].
  assert (Hf : file_of w' 5001 = open_file w' "n1/hospital.db")
    by (unfold file_of; rewrite Hn; reflexivity).
  rewrite Hf. split.
  - vm_compute in E. injection E as <-. reflexivity.
  - apply Hl. intros r Hr. cbn in Hr.
    destruct Hr as [<-|[<-|[<-|[]]]]; reflexivity.
Defined.

(** X14.  The callback that [shutdown()] defers posts to the election route
    of the first other server of the list, with no body and no timeout.  It
    changes no manager and no database: a request without [candidateId] is
    answered by every node with [success: false], "Server acknowledges
    election", and leaves that node as it was.  The receiver sets no
    election timer, so the message starts no election.  (The signal
    handlers of server.js exit the process as soon as [shutdown()] has
    resolved, before the callback is due.) *)
Theorem shutdown_trigger_starts_no_election env w self n :
  nodes w !! self = Some n ->
  exists w',
    shutdown_trigger env self w = (Ok tt, w') /\
    nodes w' = nodes w /\ files w' = files w /\
    sent w' = (sent w ++ trigger_calls self (distManager n))%list /\
    (forall p np,
       nodes w !! p = Some np ->
       app env p (PostElection None None) w =
         (Ok (Json (mkAck false "Server acknowledges election")), w)).
Proof.
  intros H. destruct (shutdown_trigger_run env self w n H) as (w' & E & H1 & H2 & _ & H4).
  exists w'. split; [exact E|]. split; [exact H1|]. split; [exact H2|]. split; [exact H4|].
  intros p np Hp. rewrite (post_election_run env p None None w np Hp). reflexivity.
Qed.

Lemma shutdown_trigger_starts_no_election_witness :
  let w := exec (becomeLeader env_up 5003) cluster_own in
  exists w',
    shutdown_trigger env_up 5003 w = (Ok tt, w') /\
    nodes w' = nodes w /\ files w' = files w /\
    sent w' = (sent w ++ [mkOutCall 5003 5001 R_election 0])%list /\
    app env_up 5001 (PostElection None None) w =
      (Ok (Json (mkAck false "Server acknowledges election")), w).
Proof.
  intros w.
  assert (Hn : nodes w !! 5003 =
               Some (set_manager (node_at 3 "n3/hospital.db")
                       (set_isLeader (distManager (node_at 3 "n3/hospital.db")) true)))
    by (vm_compute; reflexivity).
  destruct (shutdown_trigger_starts_no_election env_up w 5003 _ Hn)
    as (w' & E & H1 & H2 & H3 & H4).
  exists w'. split; [exact E|]. split; [exact H1|]. split; [exact H2|]. split; [exact H3|].
  apply (H4 5001 (node_at 1 "n1/hospital.db")). vm_compute; reflexivity.
Defined.

(** X15.  [POST /api/servers/leader-update] with a [newLeaderId] that is
    missing or is the id of no row of the node's [servers] table still
    answers [success: true], "Leader updated": the flags have been cleared
    and none raised, so the node's store names no leader afterwards, with
    the same server ids in the table; the manager leads exactly when
    [newLeaderId] is its own id. *)
Theorem leader_update_for_unknown_id env w self n nl ts :
  nodes w !! self = Some n ->
  (forall row, In row (DB.servers (file_of w self)) -> nl <> Some (DB.id row)) ->
  exists w' n',
    app env self (PostLeaderUpdate nl ts) w = (Ok (Json (mkAck true "Leader updated")), w') /\
    nodes w' !! self = Some n' /\
    isLeader (distManager n') = js_eq nl (SERVER_ID n) /\
    DB.leader_rows (file_of w' self) = [] /\
    List.map DB.id (DB.servers (file_of w' self)) = List.map DB.id (DB.servers (file_of w self)).
Proof.
  intros H Hno. unfold file_of in *. rewrite H in *.
  rewrite (post_leader_update_run env self nl ts w n H).
  eexists _, _. split; [reflexivity|]. red_w. rewrite lookup_insert_eq.
  split; [reflexivity|]. split; [reflexivity|]. cbn [dbPath set_manager].
  rewrite open_file_written. split; [apply setLeader_no_row, Hno|].
  rewrite setLeader_rows, List.map_map. reflexivity.
Qed.

Lemma leader_update_for_unknown_id_witness :
  exists w' n',
    app env_up 5002 (PostLeaderUpdate None (Some 1000)) cluster_own =
      (Ok (Json (mkAck true "Leader updated")), w') /\
    nodes w' !! 5002 = Some n' /\
    isLeader (distManager n') = false /\
    DB.leader_rows (file_of w' 5002) = [] /\
    List.map DB.id (DB.servers (file_of w' 5002)) = [1; 2; 3].
Proof.
  apply (leader_update_for_unknown_id env_up cluster_own 5002 (node_at 2 "n2/hospital.db")
           None (Some 1000) eq_refl).
  intros row _. discriminate.
Defined.

(** X16.  An election message from a lower candidate, followed through: the
    node (with no timer pending) answers [success: true], "Server is alive"
    and sets a timer; when that timer fires, the outcome is that of
    [performBullyElection] started in the state the message found, and if
    no server with a higher id answers alive, the node has become leader:
    its manager leads and its store names it. *)
Theorem election_message_then_timer env w self n c ts :
  nodes w !! self = Some n ->
  timers n = [] ->
  c < SERVER_ID n ->
  (forall s, In s (higher (distManager n)) -> answers_alive env w (distManager n) s = false) ->
  exists w1 w2,
    app env self (PostElection (Some c) ts) w =
      (Ok (Json (mkAck true "Server is alive")), w1) /\
    fire_timer env self w1 = (Ok tt, w2) /\
    fire_timer env self w1 = performBullyElection env self w /\
    leading self (distManager n) (dbPath n) (open_file w (dbPath n)) w2.
Proof.
  intros H Ht Hc Hnone.
  rewrite (post_election_run env self (Some c) ts w n H). cbn [js_lt].
  apply Z.ltb_lt in Hc. rewrite Hc. rewrite Ht. cbn [List.app].
  set (w1 := set_nodes w _).
  assert (H1 : nodes w1 !! self =
               Some (mkNode (distManager n) (dbPath n) [mkTimer 1000 PerformBullyElection]))
    by apply lookup_insert_eq.
  assert (Ef : fire_timer env self w1 = performBullyElection env self w).
  { unfold fire_timer. rewrite (bind_ok _ _ w1 _ _ (get_node_run self w1 _ H1)).
    cbn [timers]. unfold bind at 1. cbn [action run_timer distManager dbPath].
    f_equal. subst w1. unfold set_nodes. red_w. rewrite insert_insert_eq.
    rewrite <- Ht. replace (mkNode (distManager n) (dbPath n) (timers n)) with n
      by (destruct n; reflexivity).
    rewrite insert_id by exact H. destruct w; reflexivity. }
  destruct (performBullyElection_returns env w self n H) as (w2 & E2 & [Ha|[_ Hl]]).
  - destruct Ha as (s & Hin & Hs & _). rewrite (Hnone s Hin) in Hs. discriminate.
  - exists w1, w2. split; [reflexivity|]. split; [rewrite Ef; exact E2|].
    split; [exact Ef|exact Hl].
Qed.

Lemma election_message_then_timer_witness :
  exists w1 w2,
    app env_up 5003 (PostElection (Some 1) (Some 1000)) cluster_own =
      (Ok (Json (mkAck true "Server is alive")), w1) /\
    fire_timer env_up 5003 w1 = (Ok tt, w2) /\
    fire_timer env_up 5003 w1 = performBullyElection env_up 5003 cluster_own /\
    leading 5003 (distManager (node_at 3 "n3/hospital.db")) "n3/hospital.db" seeded w2.
Proof.
  apply (election_message_then_timer env_up cluster_own 5003 (node_at 3 "n3/hospital.db")
           1 (Some 1000)); try reflexivity.
  intros s [].
Defined.

Lemma map_M_processed self l w n :
  nodes w !! self = Some n ->
  map_M (fun index => m <- this self ;; ret (mkProcessed (Z.of_nat index) (serverId m))) l w =
  (Ok (List.map (fun index => mkProcessed (Z.of_nat index) (SERVER_ID n)) l), w).
Proof.
  intros H. induction l as [|x l IH]; [reflexivity|].
  cbn [map_M List.map].
  rewrite (bind_ok _ _ w _ _ (bind_ok _ _ w _ _ (this_run self w n H))).
  rewrite (bind_ok _ _ w _ _ IH). reflexivity.
Qed.

Lemma handleConcurrentRequests_run {A} self (requests : list A) w n :
  nodes w !! self = Some n ->
  handleConcurrentRequests self requests w =
  (Ok (List.map (fun index => mkProcessed (Z.of_nat index) (SERVER_ID n))
         (List.seq 0 (List.length requests))), w).
Proof.
  intros H. unfold handleConcurrentRequests.
  rewrite (bind_ok _ _ w _ _ (update_this_run self _ w n H)).
  set (n1 := set_manager n _). set (w1 := set_nodes w _).
  assert (H1 : nodes w1 !! self = Some n1) by apply lookup_insert_eq.
  rewrite (bind_ok _ _ w1 _ _ (map_M_processed self _ w1 n1 H1)).
  rewrite (bind_ok _ _ w1 _ _ (update_this_run self _ w1 n1 H1)).
  unfold ret. f_equal. subst w1 n1. unfold set_nodes. red_w.
  rewrite insert_insert_eq.
  match goal with
  | |- context [<[self := ?x]> (nodes w)] => replace x with n
  end.
  - rewrite insert_id by exact H. destruct w; reflexivity.
  - destruct n as [[sid pt sv il c co lh] path tm].
    unfold set_manager, set_connections. cbn. do 2 f_equal. lia.
Qed.

(** X17.  [handleConcurrentRequests(requests)] on an array returns one
    result per request, in the order of the requests, each with the
    position of the request as [requestId] and the node's own id as
    [processedBy], whatever the requests hold; when it resolves, the
    manager, its connection counter included, and every store are as
    before.  [POST /api/concurrent] wraps the results with [success: true]
    and the node's id, and answers 500 "Failed to handle concurrent
    requests", with nothing changed, when the body has no [requests]. *)
Theorem handleConcurrentRequests_results {A} w self n (requests : list A) :
  nodes w !! self = Some n ->
  let results :=
    List.map (fun index => mkProcessed (Z.of_nat index) (SERVER_ID n))
      (List.seq 0 (List.length requests)) in
  handleConcurrentRequests self requests w = (Ok results, w) /\
  post_concurrent self (Some requests) w =
    (Ok (Res_json (mkConcurrent true results (SERVER_ID n))), w) /\
  post_concurrent self (@None (list A)) w =
    (Ok (Res_status 500 "Failed to handle concurrent requests"), w) /\
  List.length results = List.length requests /\
  (forall k, (k < List.length requests)%nat ->
             results !! k = Some (mkProcessed (Z.of_nat k) (SERVER_ID n))).
Proof.
  intros H results. subst results.
  split; [apply (handleConcurrentRequests_run self requests w n H)|].
  split; [|split; [|split]].
  - unfold post_concurrent, try_catch.
    rewrite (bind_ok _ _ w _ _ (get_node_run self w n H)).
    rewrite (bind_ok _ _ w _ _ (handleConcurrentRequests_run self requests w n H)).
    reflexivity.
  - unfold post_concurrent, try_catch.
    rewrite (bind_ok _ _ w _ _ (get_node_run self w n H)). reflexivity.
  - rewrite List.length_map, List.length_seq. reflexivity.
  - intros k Hk. rewrite list_lookup_fmap.
    rewrite (proj2 (lookup_seq 0 (List.length requests) k k)) by (split; [reflexivity|exact Hk]).
    reflexivity.
Qed.

Lemma handleConcurrentRequests_results_witness :
  handleConcurrentRequests 5002 ["a"; "b"; "c"] cluster_own =
    (Ok [mkProcessed 0 2; mkProcessed 1 2; mkProcessed 2 2], cluster_own) /\
  post_concurrent 5002 (@None (list string)) cluster_own =
    (Ok (Res_status 500 "Failed to handle concurrent requests"), cluster_own).
Proof.
  destruct (handleConcurrentRequests_results cluster_own 5002 (node_at 2 "n2/hospital.db")
              ["a"; "b"; "c"] eq_refl) as (E1 & _ & E3 & _).
  split; [exact E1|exact E3].
Defined.

(** ** Following a leader *)

Section Sync.
Variable env : Env.

Lemma syncWithLeader_run self w n leader nl :
  nodes w !! self = Some n ->
  isLeader (distManager n) = false ->
  reference (distManager n) = Some leader ->
  answers env w (Srv.port leader) = true ->
  nodes w !! Srv.port leader = Some nl ->
  let startTime := clock env self (tick w) in
  let k := if startTime =? 0 then 1%nat else 0%nat in
  let serverTime :=
    (inject_Z (clock env (Srv.port leader) (k + S (tick w))) + clockOffset (distManager nl))%Q in
  let endTime := clock env self (k + 3 + tick w) in
  let now := clock env self (k + 4 + tick w) in
  syncWithLeader env self w =
  (Ok tt,
   mkWorld
     (<[self := set_manager n
                  (set_clockOffset (distManager n)
                     (serverTime + inject_Z (endTime - startTime) / 2 - inject_Z now)%Q)]>
        (nodes w))
     (files w) (k + 5 + tick w)
     (sent w ++ [mkOutCall self (Srv.port leader) R_clock_sync 2000])).
Proof.
  intros H Hl Hf Ha Hnl. cbv zeta. unfold syncWithLeader, reference in *.
  rewrite (bind_ok _ _ w _ _ (this_run self w n H)). rewrite Hl.
  unfold try_catch. rewrite (bind_ok _ _ w _ _ (this_run self w n H)). rewrite Hf.
  rewrite (bind_ok _ _ w _ _ (Date_now_run env self w)).
  unfold bind at 1. rewrite axios_run. cbv zeta.
  assert (Ha' : answers env (set_tick w (S (tick w))) (Srv.port leader) = true) by exact Ha.
  rewrite Ha', (answers_reachable env _ _ Ha').
  set (w0 := logged _ _).
  assert (Hl0 : nodes w0 !! Srv.port leader = Some nl) by exact Hnl.
  rewrite (get_clock_sync_run env _ _ _ nl Hl0).
  unfold parsed_clientTime.
  destruct (clock env self (tick w) =? 0) eqn:E0.
  - rewrite (performClockSync_run env _ _ _ nl) by exact Hnl. cbv zeta.
    subst w0. cbv [bind Date_now update_this get_node ret logged]. red_w.
    rewrite H. red_w. cbn [Sync.serverTime cs_result]. reflexivity.
  - rewrite (performClockSync_run env _ _ _ nl) by exact Hnl. cbv zeta.
    subst w0. cbv [bind Date_now update_this get_node ret logged]. red_w.
    rewrite H. red_w. cbn [Sync.serverTime cs_result]. reflexivity.
Qed.

End Sync.

(** X18.  [syncWithLeader()] on a node that does not lead asks the first
    server of its list that is not itself, leader or not, with one [GET
    /api/clock-sync].  When that server answers, the node's [clockOffset]
    becomes the server time of the answer plus half the round trip minus
    the node's clock at that moment; nothing else changes.  When all clocks
    agree and stand still, the new offset equals the offset of the server
    asked. *)
Theorem syncWithLeader_sets_offset env w self n leader nl :
  nodes w !! self = Some n ->
  isLeader (distManager n) = false ->
  reference (distManager n) = Some leader ->
  answers env w (Srv.port leader) = true ->
  nodes w !! Srv.port leader = Some nl ->
  let startTime := clock env self (tick w) in
  let k := if startTime =? 0 then 1%nat else 0%nat in
  let serverTime :=
    (inject_Z (clock env (Srv.port leader) (k + S (tick w))) + clockOffset (distManager nl))%Q in
  let endTime := clock env self (k + 3 + tick w) in
  let now := clock env self (k + 4 + tick w) in
  let offset := (serverTime + inject_Z (endTime - startTime) / 2 - inject_Z now)%Q in
  exists w',
    syncWithLeader env self w = (Ok tt, w') /\
    nodes w' = <[self := set_manager n (set_clockOffset (distManager n) offset)]> (nodes w) /\
    files w' = files w /\
    sent w' = (sent w ++ [mkOutCall self (Srv.port leader) R_clock_sync 2000])%list /\
    ((forall p q a b, clock env p a = clock env q b) ->
     (offset == clockOffset (distManager nl))%Q).
Proof.
  intros H Hl Hf Ha Hnl. cbv zeta.
  rewrite (syncWithLeader_run env self w n leader nl H Hl Hf Ha Hnl). cbv zeta.
  eexists. split; [reflexivity|]. split; [reflexivity|]. split; [reflexivity|].
  split; [reflexivity|]. intros Hsame.
  set (k := if clock env self (tick w) =? 0 then 1%nat else 0%nat).
  rewrite (Hsame (Srv.port leader) self (k + S (tick w))%nat (k + 4 + tick w)%nat).
  rewrite (Hsame self self (k + 3 + tick w)%nat (tick w)).
  rewrite Z.sub_diag. field.
Qed.

Lemma syncWithLeader_sets_offset_witness :
  exists w' n',
    syncWithLeader env_frozen 5001 cluster_shared_skewed = (Ok tt, w') /\
    nodes w' !! 5001 = Some n' /\
    (clockOffset (distManager n') == 15)%Q /\
    files w' = files cluster_shared_skewed /\
    sent w' = [mkOutCall 5001 5002 R_clock_sync 2000].
Proof.
  destruct (syncWithLeader_sets_offset env_frozen cluster_shared_skewed 5001
              (node_at 1 "./hospital.db") (Srv.mk 2 "Server-Delhi" 5002)
              (mkNode (set_clockOffset (new_DistributedManager 2 5002 0) 15%Q)
                 "./hospital.db" [])
              eq_refl eq_refl eq_refl eq_refl eq_refl)
    as (w' & E & Hn & Hf & Hs & Ho).
  eexists w', _. split; [exact E|]. split; [rewrite Hn; apply lookup_insert_eq|].
  split; [|split; [exact Hf|exact Hs]].
  cbn [distManager set_manager clockOffset set_clockOffset].
  apply Ho. intros p q a b. reflexivity.
Defined.

Section Followers.
Variable env : Env.








End Followers.



(** ** The server listing *)

Section Servers.
Variable env : Env.

Lemma or_zero_eq x : (or_zero x == x)%Q.
Proof.
  unfold or_zero. destruct (Qeq_bool x 0) eqn:E; [|reflexivity].
  apply Qeq_bool_eq in E. symmetry. exact E.
Qed.

Lemma map_M_clock {A B} self (g : Z -> A -> B) (l : list A) w :
  map_M (fun x => now <- Date_now env self ;; ret (g now x)) l w =
  (Ok (imap (fun k x => g (clock env self (tick w + k)) x) l),
   set_tick w (tick w + List.length l)).
Proof.
  revert w. induction l as [|x l IH]; intros w.
  - cbn. unfold ret, set_tick. rewrite Nat.add_0_r. destruct w; reflexivity.
  - cbn [map_M imap List.length].
    rewrite (bind_ok _ _ w _ _ (bind_ok _ _ w _ _ (Date_now_run env self w))).
    unfold ret at 1.
    rewrite (bind_ok _ _ _ _ _ (IH (set_tick w (S (tick w))))).
    unfold ret. red_w. f_equal.
    + f_equal. f_equal.
      * rewrite Nat.add_0_r. reflexivity.
      * apply imap_ext. intros k y _. cbn. f_equal. f_equal. lia.
    + unfold set_tick. red_w. f_equal. lia.
Qed.

Lemma getServerStatus_rows self w n :
  nodes w !! self = Some n ->
  getServerStatus self w =
  (Ok (List.map
         (fun server =>
            Status.mk (DB.id server) (DB.name server) (DB.port server)
              (if DB.id server =? serverId (distManager n)
               then connections (distManager n) else DB.connections server)
              (DB.is_leader server =? 1) (DB.last_heartbeat server) (DB.status server)
              (if DB.id server =? serverId (distManager n)
               then clockOffset (distManager n) else 0%Q))
         (DB.servers (open_file w (dbPath n)))), w).
Proof.
  intros H. unfold getServerStatus.
  rewrite (bind_ok _ _ w _ _ (db_read_run self _ w n H)).
  rewrite (bind_ok _ _ w _ _ (this_run self w n H)). reflexivity.
Qed.

End Servers.

(** X20.  [GET /api/servers] answers with one entry per row of the node's
    [servers] table, in table order.  Each entry copies id, name, port,
    heartbeat and status from the row and reports [isLeader] from the
    stored flag; [connections] is the manager's count for the node's own
    row and the stored count otherwise; [clock] is a clock read of the
    answering node, taken once per entry, plus the node's own offset for
    its own row and plus nothing for the others.  The [timestamp] is read
    last, and nothing is changed. *)
Theorem get_servers_clocks env w self n :
  nodes w !! self = Some n ->
  let rows := DB.servers (file_of w self) in
  exists l w',
    get_servers env self w = (Ok (Res_json l), w') /\
    nodes w' = nodes w /\ files w' = files w /\ sent w' = sent w /\
    l_server l = SERVER_ID n /\
    l_timestamp l = clock env self (tick w + List.length rows) /\
    List.length (l_data l) = List.length rows /\
    forall k row, rows !! k = Some row ->
      exists v, l_data l !! k = Some v /\
                view_of (distManager n) (clock env self (tick w + k)) row v.
Proof.
  intros H rows. subst rows. unfold file_of. rewrite H.
  unfold get_servers, try_catch.
  rewrite (bind_ok _ _ w _ _ (get_node_run self w n H)).
  rewrite (bind_ok _ _ w _ _ (getServerStatus_rows self w n H)).
  rewrite (bind_ok _ _ w _ _ (map_M_clock env self _ _ w)).
  rewrite (bind_ok _ _ _ _ _ (Date_now_run env self _)).
  unfold ret. eexists _, _. split; [reflexivity|]. red_w. cbn [l_server l_timestamp l_data].
  rewrite List.length_map.
  split; [reflexivity|]. split; [reflexivity|]. split; [reflexivity|].
  split; [reflexivity|]. split; [reflexivity|].
  split; [rewrite length_imap, List.length_map; reflexivity|].
  intros k row Hk. rewrite list_lookup_imap, list_lookup_fmap, Hk. cbn.
  eexists. split; [reflexivity|]. unfold view_of. cbn.
  repeat (split; [reflexivity|]).
  rewrite or_zero_eq. reflexivity.
Qed.

Lemma get_servers_clocks_witness :
  exists l w',
    get_servers env_up 5002 cluster_shared_skewed = (Ok (Res_json l), w') /\
    List.map sv_id (l_data l) = [1; 2; 3] /\
    (forall v, In v (l_data l) ->
       (sv_clock v == inject_Z (1000 + (sv_id v - 1)) + (if sv_id v =? 2 then 15 else 0))%Q) /\
    l_timestamp l = 1003.
Proof.
  destruct (get_servers_clocks env_up cluster_shared_skewed 5002
              (mkNode (set_clockOffset (new_DistributedManager 2 5002 0) 15%Q)
                 "./hospital.db" []) eq_refl) as (l & w' & E & _).
  exists l, w'. split; [exact E|].
  vm_compute in E. injection E as <- _. split; [reflexivity|]. split; [|reflexivity].
  intros v [<-|[<-|[<-|[]]]]; reflexivity.
Defined.

(** ** The React client *)

Lemma getNextServer_step b i :
  Frontend.currentServerIndex b = Some i ->
  Frontend.baseUrls b <> [] ->
  Frontend.getNextServer b =
  (Frontend.baseUrls b !! i,
   Frontend.mk (Frontend.baseUrls b)
     (Some ((i + 1) mod List.length (Frontend.baseUrls b))%nat)
     (Frontend.fallbackServers b)).
Proof.
  intros Hi Hne. unfold Frontend.getNextServer. rewrite Hi.
  destruct (Frontend.baseUrls b) as [|u us]; [contradiction|reflexivity].
Qed.

Lemma getNextServer_n_run k : forall b i,
  Frontend.currentServerIndex b = Some i ->
  Frontend.baseUrls b <> [] ->
  let n := List.length (Frontend.baseUrls b) in
  Frontend.getNextServer_n k b =
  (List.map (fun j => Frontend.baseUrls b !! (Nat.iter j (fun x => (x + 1) mod n)%nat i))
     (List.seq 0 k),
   Frontend.mk (Frontend.baseUrls b)
     (Some (Nat.iter k (fun x => (x + 1) mod n)%nat i))
     (Frontend.fallbackServers b)).
Proof.
  induction k as [|k IH]; intros b i Hi Hne n.
  - cbn. destruct b. cbn in *. subst. reflexivity.
  - cbn [Frontend.getNextServer_n]. rewrite (getNextServer_step b i Hi Hne).
    cbn [fst snd]. fold n.
    rewrite (IH (Frontend.mk (Frontend.baseUrls b) (Some ((i + 1) mod n)%nat)
                   (Frontend.fallbackServers b)) ((i + 1) mod n)%nat eq_refl Hne).
    cbn [fst snd Frontend.baseUrls Frontend.fallbackServers]. fold n.
    cbn [List.seq List.map]. f_equal.
    + f_equal. rewrite <- List.seq_shift, List.map_map. apply List.map_ext.
      intros j. f_equal. rewrite Nat.iter_succ_r. reflexivity.
    + f_equal. f_equal. rewrite Nat.iter_succ_r. reflexivity.
Qed.

Lemma iter_step_mod n i j :
  (0 < n)%nat -> (i < n)%nat ->
  Nat.iter j (fun x => (x + 1) mod n)%nat i = ((i + j) mod n)%nat.
Proof.
  intros Hn Hi. induction j as [|j IH].
  - cbn. rewrite Nat.add_0_r. symmetry. apply Nat.mod_small, Hi.
  - rewrite Nat.iter_succ, IH.
    rewrite Nat.Div0.add_mod_idemp_l. f_equal. lia.
Qed.

(** X21.  The client's [getNextServer()] goes round the base URLs: starting
    at index [i], the [j]-th of [k] calls returns the URL at index
    [(i + j) mod n] and is never without a URL; the index ends at
    [(i + k) mod n], the URLs are not changed, and [n] calls return every
    URL once, starting at [i], and end where they began. *)
Theorem getNextServer_round_robin b i k :
  Frontend.currentServerIndex b = Some i ->
  (i < List.length (Frontend.baseUrls b))%nat ->
  let n := List.length (Frontend.baseUrls b) in
  let r := Frontend.getNextServer_n k b in
  fst r = List.map (fun j => Frontend.baseUrls b !! ((i + j) mod n)%nat) (List.seq 0 k) /\
  (forall j, (j < k)%nat -> exists url, fst r !! j = Some (Some url) /\
                                        Frontend.baseUrls b !! ((i + j) mod n)%nat = Some url) /\
  Frontend.currentServerIndex (snd r) = Some ((i + k) mod n)%nat /\
  Frontend.baseUrls (snd r) = Frontend.baseUrls b /\
  (k = n -> Frontend.currentServerIndex (snd r) = Some i /\
            fst r = List.map Some (drop i (Frontend.baseUrls b) ++
                                   take i (Frontend.baseUrls b))).
Proof.
  intros Hi Hlt n r. subst r.
  assert (Hne : Frontend.baseUrls b <> []).
  { intros E. rewrite E in Hlt. cbn in Hlt. lia. }
  assert (Hn : (0 < n)%nat) by (subst n; lia).
  rewrite (getNextServer_n_run k b i Hi Hne). cbn [fst snd Frontend.currentServerIndex Frontend.baseUrls].
  fold n.
  assert (E1 : List.map (fun j => Frontend.baseUrls b !! Nat.iter j (fun x => (x + 1) mod n)%nat i)
                 (List.seq 0 k) =
               List.map (fun j => Frontend.baseUrls b !! ((i + j) mod n)%nat) (List.seq 0 k)).
  { apply List.map_ext. intros j. rewrite iter_step_mod by assumption. reflexivity. }
  rewrite E1, iter_step_mod by assumption.
  split; [reflexivity|]. split; [|split; [reflexivity|split; [reflexivity|]]].
  - intros j Hj.
    destruct (lookup_lt_is_Some_2 (Frontend.baseUrls b) ((i + j) mod n)%nat) as [url Hurl].
    { apply Nat.mod_upper_bound. lia. }
    exists url. split; [|exact Hurl].
    rewrite list_lookup_fmap.
    rewrite (proj2 (lookup_seq 0 k j j)) by (split; [reflexivity|exact Hj]).
    cbn. rewrite Hurl. reflexivity.
  - intros ->. split.
    + f_equal. replace (i + n)%nat with (i + 1 * n)%nat by lia.
      rewrite Nat.Div0.mod_add. apply Nat.mod_small, Hlt.
    + apply list_eq. intros j. rewrite !list_lookup_fmap.
      destruct (decide (j < n)%nat) as [Hj|Hj].
      * rewrite (proj2 (lookup_seq 0 n j j)) by (split; [reflexivity|exact Hj]). cbn.
        destruct (decide (i + j < n)%nat) as [Hs|Hs].
        -- rewrite Nat.mod_small by exact Hs.
           rewrite lookup_app_l by (rewrite length_drop; fold n; lia).
           rewrite lookup_drop.
           destruct (lookup_lt_is_Some_2 (Frontend.baseUrls b) (i + j)%nat) as [url Hurl];
             [exact Hs|]. rewrite Hurl. reflexivity.
        -- assert (Em : ((i + j) mod n = i + j - n)%nat).
           { replace (i + j)%nat with ((i + j - n) + 1 * n)%nat at 1 by lia.
             rewrite Nat.Div0.mod_add. apply Nat.mod_small. lia. }
           rewrite Em.
           rewrite lookup_app_r by (rewrite length_drop; fold n; lia).
           rewrite length_drop. fold n.
           rewrite lookup_take_lt by lia.
           replace (j - (n - i))%nat with (i + j - n)%nat by lia.
           destruct (lookup_lt_is_Some_2 (Frontend.baseUrls b) (i + j - n)%nat) as [url Hurl];
             [fold n; lia|]. rewrite Hurl. reflexivity.
      * rewrite (lookup_ge_None_2 (List.seq 0 n) j) by (rewrite List.length_seq; lia).
        rewrite lookup_ge_None_2; [reflexivity|].
        rewrite length_app, length_drop, length_take. fold n. lia.
Qed.

Lemma getNextServer_round_robin_witness :
  fst (Frontend.getNextServer_n 4 new_DistributedBackend) =
    [Some "http://localhost:5001"; Some "http://localhost:5002";
     Some "http://localhost:5003"; Some "http://localhost:5001"] /\
  Frontend.currentServerIndex (snd (Frontend.getNextServer_n 4 new_DistributedBackend)) =
    Some 1%nat.
Proof.
  destruct (getNextServer_round_robin new_DistributedBackend 0 4 eq_refl)
    as (E1 & _ & E2 & _).
  - cbn. lia.
  - split; [exact E1|exact E2].
Defined.

(* ---------- the local election ---------- *)

Lemma highest_fold l : forall a,
  let m := List.fold_left
             (fun max server => if Frontend.id max <? Frontend.id server then server else max)
             l a in
  (m = a \/ In m l) /\ Frontend.id a <= Frontend.id m /\
  (forall s, In s l -> Frontend.id s <= Frontend.id m).
Proof.
  induction l as [|x l IH]; intros a; cbn [List.fold_left].
  - cbv zeta. split; [left; reflexivity|]. split; [lia|intros s []].
  - cbv zeta.
    specialize (IH (if Frontend.id a <? Frontend.id x then x else a)). cbv zeta in IH.
    destruct IH as (Hin & Hge & Hall).
    destruct (Frontend.id a <? Frontend.id x) eqn:E.
    + apply Z.ltb_lt in E. split; [right; destruct Hin as [->|Hin]; [left; reflexivity|right; exact Hin]|].
      split; [lia|]. intros s [<-|Hs]; [exact Hge|apply Hall, Hs].
    + apply Z.ltb_ge in E. split; [destruct Hin as [->|Hin]; [left; reflexivity|right; right; exact Hin]|].
      split; [exact Hge|]. intros s [<-|Hs]; [lia|apply Hall, Hs].
Qed.

Lemma highest_spec l :
  match Frontend.highest l with
  | None => l = []
  | Some m => In m l /\ forall s, In s l -> Frontend.id s <= Frontend.id m
  end.
Proof.
  unfold Frontend.highest. destruct l as [|a l]; [reflexivity|].
  destruct (highest_fold (a :: l) a) as (Hin & _ & Hall). cbv zeta in *.
  split; [|exact Hall]. destruct Hin as [->|Hin]; [left; reflexivity|exact Hin].
Qed.

(** X22.  The client's [performBullyElection(failedServerId)]: when some
    server of the fallback list has another id than the failed one, the
    new leader is such a server with the highest id among them; afterwards
    exactly the entries with the leader's id are flagged, the failed server
    among them never, and the returned leader is the flagged entry.  When
    no such server is left, the call throws on a non-empty list, and on an
    empty one it returns [undefined] and leaves the backend as it was. *)
Theorem frontend_election_highest_survivor b failed :
  let l := Frontend.fallbackServers b in
  ((exists s, survivor failed l s) ->
   exists leader b',
     Frontend.performBullyElection b failed = Some (Some leader, b') /\
     Frontend.id leader <> failed /\
     Frontend.isLeader leader = true /\
     (exists s, survivor failed l s /\ leader = Frontend.set_isLeader s true) /\
     (forall s, survivor failed l s -> Frontend.id s <= Frontend.id leader) /\
     Frontend.fallbackServers b' =
       List.map (fun s => Frontend.set_isLeader s (Frontend.id s =? Frontend.id leader)) l /\
     Frontend.baseUrls b' = Frontend.baseUrls b /\
     Frontend.currentServerIndex b' = Frontend.currentServerIndex b) /\
  ((forall s, ~ survivor failed l s) ->
   Frontend.performBullyElection b failed = if decide (l = []) then Some (None, b) else None).
Proof.
  intros l. subst l.
  set (active := List.filter (fun s => negb (Frontend.id s =? failed)) (Frontend.fallbackServers b)).
  assert (Hact : forall s, In s active <-> survivor failed (Frontend.fallbackServers b) s).
  { intros s. unfold active, survivor. rewrite List.filter_In, negb_true_iff, Z.eqb_neq.
    reflexivity. }
  pose proof (highest_spec active) as Hh.
  split.
  - intros (s0 & Hs0). unfold Frontend.performBullyElection. fold active.
    destruct (Frontend.highest active) as [m|].
    2:{ apply Hact in Hs0. rewrite Hh in Hs0. destruct Hs0. }
    destruct Hh as [Hm Hall]. eexists _, _. split; [reflexivity|].
    apply Hact in Hm as Hsm. cbn.
    split; [exact (proj2 Hsm)|]. split; [reflexivity|].
    split; [exists m; split; [exact Hsm|reflexivity]|].
    split; [intros s Hs; apply Hall, Hact, Hs|].
    split; [reflexivity|]. split; reflexivity.
  - intros Hno. unfold Frontend.performBullyElection. fold active.
    destruct (Frontend.highest active) as [m|].
    { destruct Hh as [Hm _]. apply Hact in Hm. destruct (Hno m Hm). }
    destruct (Frontend.fallbackServers b) as [|x xs]; reflexivity.
Qed.

Lemma frontend_election_highest_survivor_witness :
  exists leader b',
    Frontend.performBullyElection new_DistributedBackend 3 = Some (Some leader, b') /\
    Frontend.id leader = 2 /\
    List.map Frontend.isLeader (Frontend.fallbackServers b') = [false; true; false].
Proof.
  destruct (proj1 (frontend_election_highest_survivor new_DistributedBackend 3))
    as (leader & b' & E & _).
  - exists (Frontend.mkServer 1 "Server-Mumbai" 5001 0 true 0).
    split; [left; reflexivity|discriminate].
  - exists leader, b'. split; [exact E|].
    vm_compute in E. injection E as <- <-. split; reflexivity.
Defined.
